(** * django-olcc: the [olccimport] management command

    A shallow embedding of
    [django_olcc/olcc/management/commands/olccimport.py] (Python 2) and the
    properties of its row normalisation and upsert logic.

    Layout:
    - [Py]       the Python built-ins the command calls: values, exceptions,
                 [str] methods, [float]/[int], the two regular expressions,
                 [datetime.date] and [strptime];
    - [Models]   the tables behind [olcc.models] and the ORM calls used;
    - [Options]  the command's [option_list] and how [optparse] reads it;
    - [Command]  the methods of [Command], one definition per method;
    - the properties, one section per topic. *)

From Stdlib Require Import ZArith Ascii String List Lia Bool.
From stdpp Require Import base option list gmap strings pretty.

Local Open Scope string_scope.

(** ** Python built-ins *)
Module Py.

(** Values that flow through the command: row cells, model attributes and
    option values are [None], booleans, integers or byte strings. *)
Inductive value :=
  | VNone
  | VBool (b : bool)
  | VInt (z : Z)
  | VStr (s : string).

#[global] Instance value_eq_dec : EqDecision value.
Proof. solve_decision. Defined.

(** Truth value testing, as in [if row.get('status'):]. *)
Definition truthy (v : value) : bool :=
  match v with
  | VNone => false
  | VBool b => b
  | VInt z => negb (z =? 0)%Z
  | VStr s => negb (String.eqb s "")
  end.

(** [str(v)] / ["%s" % v]. *)
Definition py_str (v : value) : string :=
  match v with
  | VNone => "None"
  | VBool true => "True"
  | VBool false => "False"
  | VInt z => pretty z
  | VStr s => s
  end.

(** The exceptions the command can meet. *)
Inductive exn :=
  | TypeError
  | AttributeError
  | ValueError
  | OverflowError
  | IndexError
  | KeyError
  | UnboundLocalError
  | UnicodeEncodeError
  | IOError (filename : string)
  | IntegrityError
  | MultipleObjectsReturned
  | CommandError (msg : string)
  | SystemExit (status : Z)
  | XLRDError.

#[global] Instance exn_eq_dec : EqDecision exn.
Proof. solve_decision. Defined.

(** [isinstance(e, ValueError)]: of the exceptions above, UnicodeEncodeError
    is a subclass of ValueError, so [except ValueError] catches it too. *)
Definition is_ValueError (e : exn) : bool :=
  match e with
  | ValueError | UnicodeEncodeError => true
  | _ => false
  end.

(** The outcome of an expression that may raise. *)
Inductive res (A : Type) :=
  | Ok (a : A)
  | Raise (e : exn).
Arguments Ok {A} a.
Arguments Raise {A} e.

Definition bind {A B} (r : res A) (k : A -> res B) : res B :=
  match r with
  | Ok a => k a
  | Raise e => Raise e
  end.

#[global] Instance res_bind : MBind res := λ A B k r, bind r k.
#[global] Instance res_ret : MRet res := @Ok.

Definition raises {A} (r : res A) : bool :=
  match r with Ok _ => false | Raise _ => true end.

(** *** Characters and [str] methods *)

Definition is_digit (c : ascii) : bool :=
  let n := nat_of_ascii c in (48 <=? n)%nat && (n <=? 57)%nat.

(** [c.isspace()] for a byte: space, \t, \n, \v, \f, \r. *)
Definition is_space (c : ascii) : bool :=
  let n := nat_of_ascii c in (n =? 32)%nat || ((9 <=? n)%nat && (n <=? 13)%nat).

Fixpoint lstrip (s : string) : string :=
  match s with
  | String c t => if is_space c then lstrip t else s
  | EmptyString => EmptyString
  end.

Fixpoint rstrip (s : string) : string :=
  match s with
  | String c t =>
      match rstrip t with
      | EmptyString => if is_space c then EmptyString else String c EmptyString
      | t' => String c t'
      end
  | EmptyString => EmptyString
  end.

(** [s.strip()] *)
Definition strip (s : string) : string := rstrip (lstrip s).

(** [s.startswith(p)] *)
Definition startswith (s p : string) : bool := String.prefix p s.

(** The longest run of decimal digits at the front of [s], and the rest. *)
Fixpoint span_digits (s : string) : string * string :=
  match s with
  | String c t =>
      if is_digit c then let '(ds, r) := span_digits t in (String c ds, r)
      else (EmptyString, s)
  | EmptyString => (EmptyString, EmptyString)
  end.

Definition digit_value (c : ascii) : Z := Z.of_nat (nat_of_ascii c - 48).

(** The number a string of decimal digits denotes. *)
Fixpoint decimal_from (acc : Z) (ds : string) : Z :=
  match ds with
  | String c t => decimal_from (10 * acc + digit_value c) t
  | EmptyString => acc
  end.

Definition decimal (ds : string) : Z := decimal_from 0 ds.

Fixpoint all_digits (s : string) : bool :=
  match s with
  | String c t => is_digit c && all_digits t
  | EmptyString => true
  end.

(** *** [float(s)] and [int(x)]

    A binary64 value is kept as sign, integer significand and binary
    exponent: [Finite neg m e] is (-1)^neg * m * 2^e. *)
Inductive float :=
  | Finite (neg : bool) (m e : Z)
  | Inf (neg : bool)
  | NaN.

(** [n / d] rounded to the nearest integer, ties to even ([0 < d]). *)
Definition div_half_even (n d : Z) : Z :=
  let q := (n / d)%Z in
  let r := (n mod d)%Z in
  if (2 * r <? d)%Z then q
  else if (d <? 2 * r)%Z then (q + 1)%Z
  else if Z.even q then q else (q + 1)%Z.

(** floor (log2 (p / q)) for [0 < p], [0 < q]. *)
Definition floor_log2_ratio (p q : Z) : Z :=
  let e0 := (Z.log2 p - Z.log2 q)%Z in
  let le := if (0 <=? e0)%Z then (q * 2 ^ e0 <=? p)%Z else (q <=? p * 2 ^ (- e0))%Z in
  if le then e0 else (e0 - 1)%Z.

(** The binary64 nearest to the positive rational [p / q] (round to nearest,
    ties to even; 53-bit significand, least exponent -1074, overflow to
    infinity at 2^1024). *)
Definition round_b64 (neg : bool) (p q : Z) : float :=
  if (p =? 0)%Z then Finite neg 0 0 else
  let e := Z.max (floor_log2_ratio p q - 52) (-1074) in
  let m := if (0 <=? e)%Z then div_half_even p (q * 2 ^ e)
           else div_half_even (p * 2 ^ (- e)) q in
  if (2 ^ 1024 <=? Z.shiftl m e)%Z then Inf neg else Finite neg m e.

(** An optional sign. *)
Definition take_sign (s : string) : bool * string :=
  match s with
  | String "-" t => (true, t)
  | String "+" t => (false, t)
  | _ => (false, s)
  end.

Definition lower (c : ascii) : ascii :=
  let n := nat_of_ascii c in
  if (65 <=? n)%nat && (n <=? 90)%nat then ascii_of_nat (n + 32) else c.

Fixpoint lowercase (s : string) : string :=
  match s with
  | String c t => String (lower c) (lowercase t)
  | EmptyString => EmptyString
  end.

(** The exponent part [[eE][+-]?\d+] of a decimal literal; when the digits
    are missing the [e] is not part of the number. *)
Definition take_exponent (s : string) : Z * string :=
  match s with
  | String c t =>
      if Ascii.eqb (lower c) "e" then
        let '(eneg, t1) := take_sign t in
        let '(ds, t2) := span_digits t1 in
        match ds with
        | EmptyString => (0%Z, s)
        | _ => ((if eneg then - decimal ds else decimal ds)%Z, t2)
        end
      else (0%Z, s)
  | EmptyString => (0%Z, s)
  end.

(** [float(s)] for a byte string (CPython 2.7: surrounding white space is
    dropped; an optional sign, then [inf], [infinity], [nan] in any case or a
    decimal literal with optional fraction and exponent; the value is
    correctly rounded). *)
Definition py_float (s : string) : res float :=
  let '(neg, body) := take_sign (strip s) in
  let word := lowercase body in
  if String.eqb word "inf" || String.eqb word "infinity" then Ok (Inf neg)
  else if String.eqb word "nan" then Ok NaN
  else
    let '(ip, r1) := span_digits body in
    let '(fp, r2) := match r1 with
                     | String "." t => span_digits t
                     | _ => (EmptyString, r1)
                     end in
    match ip ++ fp with
    | EmptyString => Raise ValueError
    | mant =>
        let '(ex, r3) := take_exponent r2 in
        match r3 with
        | EmptyString =>
            let e10 := (ex - Z.of_nat (String.length fp))%Z in
            Ok (if (0 <=? e10)%Z then round_b64 neg (decimal mant * 10 ^ e10) 1
                else round_b64 neg (decimal mant) (10 ^ (- e10)))
        | _ => Raise ValueError
        end
    end.

(** [int(x)] for a float: truncation towards zero. *)
Definition py_int (x : float) : res Z :=
  match x with
  | Finite neg m e =>
      let a := Z.shiftl m e in Ok (if neg then (- a)%Z else a)
  | Inf _ => Raise OverflowError
  | NaN => Raise ValueError
  end.

(** [int(float(s))], the idiom the command uses for numeric cells. *)
Definition int_float (s : string) : res Z := x ← py_float s; py_int x.

(** *** Regular expressions

    A pattern is a backtracking matcher: applied at the front of a string it
    lists every way to match there, in the order the [re] engine tries them,
    each with what it captured and the text left over. [re.match] and
    [re.search] keep the first success. *)
Definition matcher (A : Type) : Type := string -> list (A * string).

(** One character of a class. *)
Definition cls (f : ascii -> bool) : matcher string := fun s =>
  match s with
  | String c t => if f c then [(String c EmptyString, t)] else []
  | EmptyString => []
  end.

Definition chr (c : ascii) : matcher string := cls (Ascii.eqb c).

Definition in_range (lo hi : ascii) (c : ascii) : bool :=
  (nat_of_ascii lo <=? nat_of_ascii c)%nat && (nat_of_ascii c <=? nat_of_ascii hi)%nat.

(** [p q]: concatenation, capturing the text of both. *)
Definition cat (p q : matcher string) : matcher string := fun s =>
  '(a, r) ← p s; '(b, r') ← q r; [(a ++ b, r')].

(** [p|q] *)
Definition alt {A} (p q : matcher A) : matcher A := fun s => (p s ++ q s)%list.

(** [p?] (greedy) *)
Definition opt (p : matcher string) : matcher string :=
  alt p (fun s => [(EmptyString, s)]).

(** [\d+] (greedy: the longest run first, then shorter ones). *)
Fixpoint digit_runs (s : string) : list (string * string) :=
  match s with
  | String c t =>
      if is_digit c
      then (map (fun '(ds, r) => (String c ds, r)) (digit_runs t)
              ++ [(String c EmptyString, t)])%list
      else []
  | EmptyString => []
  end.

(** [re.match(p, s)]: the first way to match at the start of [s]. *)
Definition re_match {A} (p : matcher A) (s : string) : option (A * string) := head (p s).

(** [re.search(p, s)]: the first way to match at the leftmost position that
    has one. *)
Fixpoint re_search {A} (p : matcher A) (s : string) : option A :=
  match re_match p s with
  | Some (a, _) => Some a
  | None =>
      match s with
      | String _ t => re_search p t
      | EmptyString => None
      end
  end.

(** [re.sub('[...]', repl, s)] for a one-character class: every character
    of the class is replaced by [repl]. *)
Fixpoint re_sub_cls (f : ascii -> bool) (repl : string) (s : string) : string :=
  match s with
  | String c t => (if f c then repl else String c EmptyString) ++ re_sub_cls f repl t
  | EmptyString => EmptyString
  end.

(** *** [datetime.date] *)
Record date := Date { year : Z; month : Z; day : Z }.

#[global] Instance date_eq_dec : EqDecision date.
Proof. solve_decision. Defined.

Definition MINYEAR : Z := 1.
Definition MAXYEAR : Z := 9999.

Definition is_leap (y : Z) : bool :=
  ((y mod 4 =? 0) && (negb (y mod 100 =? 0) || (y mod 400 =? 0)))%Z.

Definition days_in_month (y m : Z) : Z :=
  if (m =? 2)%Z then (if is_leap y then 29 else 28)%Z
  else if ((m =? 4) || (m =? 6) || (m =? 9) || (m =? 11))%Z then 30%Z
  else 31%Z.

Definition fits_c_int (z : Z) : bool := ((- 2 ^ 31 <=? z) && (z <? 2 ^ 31))%Z.

(** [datetime.date(y, m, d)] *)
Definition date_new (y m d : Z) : res date :=
  if negb (fits_c_int y && fits_c_int m && fits_c_int d) then Raise OverflowError
  else if negb ((MINYEAR <=? y) && (y <=? MAXYEAR))%Z then Raise ValueError
  else if negb ((1 <=? m) && (m <=? 12))%Z then Raise ValueError
  else if negb ((1 <=? d) && (d <=? days_in_month y m))%Z then Raise ValueError
  else Ok (Date y m d).

(** What [datetime.date.today()] can return. *)
Definition valid_date (t : date) : bool :=
  ((MINYEAR <=? year t) && (year t <=? MAXYEAR) &&
   (1 <=? month t) && (month t <=? 12) &&
   (1 <=? day t) && (day t <=? days_in_month (year t) (month t)))%Z.

(** The directives of [strptime] as [_strptime.py] compiles them:
    [%m] is [1[0-2]|0[1-9]|[1-9]], [%d] is
    [3[01]|[12]\d|0[1-9]|[1-9]| [1-9]], [%Y] is [\d\d\d\d]. *)
Definition re_m : matcher string :=
  alt (cat (chr "1") (cls (in_range "0" "2")))
 (alt (cat (chr "0") (cls (in_range "1" "9")))
      (cls (in_range "1" "9"))).

Definition re_d : matcher string :=
  alt (cat (chr "3") (cls (in_range "0" "1")))
 (alt (cat (cls (in_range "1" "2")) (cls is_digit))
 (alt (cat (chr "0") (cls (in_range "1" "9")))
 (alt (cls (in_range "1" "9"))
      (cat (chr " ") (cls (in_range "1" "9")))))).

Definition re_Y : matcher string :=
  cat (cls is_digit) (cat (cls is_digit) (cat (cls is_digit) (cls is_digit))).

Definition re_mdY : matcher (string * string * string) := fun s =>
  '(m, r1) ← re_m s; '(_, r2) ← chr "/" r1;
  '(d, r3) ← re_d r2; '(_, r4) ← chr "/" r3;
  '(y, r5) ← re_Y r4; [((m, d, y), r5)].

(** [datetime.datetime.strptime(s, '%m/%d/%Y')]. The result is a datetime
    at midnight; only its date is kept (the price's [DateField] stores
    that). *)
Definition strptime_mdY (s : string) : res date :=
  match re_match re_mdY s with
  | None => Raise ValueError
  | Some ((m, d, y), rest) =>
      match rest with
      | EmptyString => date_new (decimal y) (decimal m) (decimal (lstrip d))
      | _ => Raise ValueError
      end
  end.

(** *** Statements with effects

    A statement runs on a state [S] and either returns or raises; the state
    it leaves behind is kept in both cases, as Python does. *)
Definition M (S A : Type) : Type := S -> res A * S.

Definition ret {S A} (a : A) : M S A := fun s => (Ok a, s).
Definition raise {S A} (e : exn) : M S A := fun s => (Raise e, s).
Definition lift {S A} (r : res A) : M S A := fun s => (r, s).

Definition seq {S A B} (m : M S A) (k : A -> M S B) : M S B := fun s =>
  match m s with
  | (Ok a, s') => k a s'
  | (Raise e, s') => (Raise e, s')
  end.

(** [try: body / except ...: handler]; [handler e = None] when no [except]
    clause names [e]. *)
Definition try_except {S A} (body : M S A) (handler : exn -> option (M S A)) : M S A :=
  fun s =>
    match body s with
    | (Ok a, s') => (Ok a, s')
    | (Raise e, s') =>
        match handler e with
        | Some h => h s'
        | None => (Raise e, s')
        end
    end.

Definition modify {S} (f : S -> S) : M S unit := fun s => (Ok tt, f s).

Definition when {S} (b : bool) (m : M S unit) : M S unit := if b then m else ret tt.

(** A non-string argument to [re] or [strptime] is a [TypeError]. *)
Definition as_str (v : value) : res string :=
  match v with
  | VStr s => Ok s
  | _ => Raise TypeError
  end.

(** [float(v)] *)
Definition float_of (v : value) : res float :=
  match v with
  | VStr s => py_float s
  | VInt z =>
      match (if (z <? 0)%Z then round_b64 true (- z) 1 else round_b64 false z 1) with
      | Inf _ => Raise OverflowError
      | x => Ok x
      end
  | VBool b => Ok (Finite false (if b then 1 else 0) 0)
  | VNone => Raise TypeError
  end.

End Py.

Declare Scope py_scope.
Delimit Scope py_scope with py.
Notation "x <- m ;; k" := (Py.seq m (fun x => k))
  (at level 100, m at next level, right associativity) : py_scope.
Notation "m ;;; k" := (Py.seq m (fun _ => k))
  (at level 100, right associativity) : py_scope.

Local Open Scope py_scope.

(** ** The models of [olcc.models] and the ORM calls the command makes

    The model classes live in [olcc/models.py]; the tables are modelled as
    the command sees them: a row of [Product] is found by its code, a row is
    written back under its primary key, and rows are never deleted. The
    primary key of a row is its position in the table. *)
Module Product.

Record t := mk {
  code : Py.value;
  title : Py.value;
  status : Py.value;
  size : Py.value;
  bottles_per_case : Py.value;
  proof : Py.value;
  age : Py.value
}.

(** [product.<attribute> = v] *)
Definition set_code v p :=
  mk v (title p) (status p) (size p) (bottles_per_case p) (proof p) (age p).
Definition set_title v p :=
  mk (code p) v (status p) (size p) (bottles_per_case p) (proof p) (age p).
Definition set_status v p :=
  mk (code p) (title p) v (size p) (bottles_per_case p) (proof p) (age p).
Definition set_size v p :=
  mk (code p) (title p) (status p) v (bottles_per_case p) (proof p) (age p).
Definition set_bottles_per_case v p :=
  mk (code p) (title p) (status p) (size p) v (proof p) (age p).
Definition set_proof v p :=
  mk (code p) (title p) (status p) (size p) (bottles_per_case p) v (age p).
Definition set_age v p :=
  mk (code p) (title p) (status p) (size p) (bottles_per_case p) (proof p) v.

End Product.

Module ProductPrice.

Record t := mk {
  amount : string;
  effective_date : Py.date;
  product : nat           (* the primary key of the owning Product *)
}.

End ProductPrice.

(** A cell of a spreadsheet row as [xlrd] hands it over: text, a number, or
    an int (booleans and error codes). *)
Inductive cell :=
  | CText (s : string)
  | CFloat (x : Py.float)
  | CInt (z : Z).

Module Store.

Record t := mk {
  key : cell;
  address_raw : string;
  address : Py.value;
  latitude : option Py.float;
  longitude : option Py.float
}.

(** [store.address = a; store.latitude = lat; store.longitude = lon] *)
Definition located (a : string) (lat lon : Py.float) (s : t) : t :=
  mk (key s) (address_raw s) (Py.VStr a) (Some lat) (Some lon).

End Store.

(** What the command takes from its collaborators: the model classes, the
    geocoder, the files, and the formatting of floats. *)
Record externals := {
  (** [Product.is_code_valid] *)
  is_code_valid : Py.value -> bool;
  (** the attributes of [Product()] before any is assigned *)
  defaults : Product.t;
  (** [Store.from_row] *)
  from_row : list cell -> Store.t;
  (** [str] of a float and of a [Store] *)
  str_float : Py.float -> string;
  str_store : Store.t -> string;
  (** [geocoders.Google().geocode] *)
  geocode_service : string -> Py.res (string * (Py.float * Py.float));
  (** the files [open] can read, with the rows [csv.reader] finds in them;
      for the others [open] raises IOError *)
  csv_files : string -> option (list (list string));
  (** [xlrd.open_workbook(f, on_demand=True).sheet_by_index(0)]: the rows of
      the first sheet, or what [open_workbook] raises: IOError for a file that
      cannot be opened, XLRDError for a file that is no workbook *)
  workbooks : string -> Py.res (list (list cell))
}.

Module Models.

(** A model instance that has a row: primary key and attributes. *)
Definition instance : Type := nat * Product.t.

Record database := Db {
  products : list Product.t;
  prices : list ProductPrice.t;
  stores : list Store.t
}.

Definition set_products (f : list Product.t -> list Product.t) (d : database) : database :=
  Db (f (products d)) (prices d) (stores d).
Definition set_prices (f : list ProductPrice.t -> list ProductPrice.t) (d : database) : database :=
  Db (products d) (f (prices d)) (stores d).
Definition set_stores (f : list Store.t -> list Store.t) (d : database) : database :=
  Db (products d) (prices d) (f (stores d)).

(** The rows of [tbl] whose code is [c], with their keys, counting from [i]. *)
Fixpoint select (c : Py.value) (i : nat) (tbl : list Product.t) : list instance :=
  match tbl with
  | p :: rest =>
      if decide (Product.code p = c) then (i, p) :: select c (S i) rest
      else select c (S i) rest
  | [] => []
  end.

(** [Product.objects.get_or_create(code=c)] *)
Definition get_or_create (E : externals) (c : Py.value) : Py.M database (instance * bool) :=
  fun d =>
    match select c 0 (products d) with
    | [] =>
        let p := Product.set_code c (defaults E) in
        (Py.Ok ((length (products d), p), true), set_products (fun t => t ++ [p])%list d)
    | [ip] => (Py.Ok (ip, false), d)
    | _ => (Py.Raise Py.MultipleObjectsReturned, d)
    end.

(** [product.save()] *)
Definition save (ip : instance) : Py.M database unit :=
  Py.modify (set_products (fun t => <[fst ip := snd ip]> t)).

(** Modelled from the spec: the uniqueness constraint of [ProductPrice],
    which is declared with the model in olcc/models.py and not in the
    command. Section 3 of the spec: the combination of (product,
    effective_date) must be unique. *)
Definition duplicates (pp : ProductPrice.t) (tbl : list ProductPrice.t) : bool :=
  existsb (fun q => bool_decide (ProductPrice.product q = ProductPrice.product pp
                                 /\ ProductPrice.effective_date q = ProductPrice.effective_date pp))
          tbl.

(** [ProductPrice.objects.create(amount=.., effective_date=.., product=..)] *)
Definition create (pp : ProductPrice.t) : Py.M database unit :=
  fun d =>
    if duplicates pp (prices d) then (Py.Raise Py.IntegrityError, d)
    else (Py.Ok tt, set_prices (fun t => t ++ [pp])%list d).

(** [store.save()]: a [Store] built by [from_row] gets a row of its own. *)
Definition save_store (s : Store.t) : Py.M database unit :=
  Py.modify (set_stores (fun t => t ++ [s])%list).

(** [@transaction.commit_on_success]: the changes of a call that raises are
    rolled back. *)
Definition commit_on_success {A} (f : Py.M database A) : Py.M database A :=
  fun d =>
    match f d with
    | (Py.Ok a, d') => (Py.Ok a, d')
    | (Py.Raise e, _) => (Py.Raise e, d)
    end.

End Models.

(** ** The command line

    [optparse] as the command uses it: an option has flags, an action, a
    destination and a default; parsing starts from the defaults and lets each
    option met on the command line write its destination. A usage error
    leaves with status 2. *)
Module Options.

Inductive action :=
  | store_true
  | store
  | choice (choices : list string)
  | leave.                    (* help and version: print and exit *)

Record opt := make_option {
  flags : list string;
  act : action;
  dest : option string;
  default : Py.value
}.

Definition takes_value (o : opt) : bool :=
  match act o with store_true | leave => false | _ => true end.

Definition values : Type := gmap string Py.value.

(** [setattr(values, dest, v)] *)
Definition set_dest (o : opt) (v : Py.value) (vs : values) : values :=
  match dest o with
  | Some d => <[d := v]> vs
  | None => vs
  end.

(** [parser.get_default_values()] *)
Definition get_default_values (opts : list opt) : values :=
  foldl (fun vs o => set_dest o (default o) vs) ∅ opts.

(** [option.process(opt, value, values, parser)] *)
Definition process (o : opt) (v : option string) (vs : values) : Py.res values :=
  match act o, v with
  | store_true, _ => Py.Ok (set_dest o (Py.VBool true) vs)
  | store, Some x => Py.Ok (set_dest o (Py.VStr x) vs)
  | choice cs, Some x =>
      if bool_decide (x ∈ cs) then Py.Ok (set_dest o (Py.VStr x) vs)
      else Py.Raise (Py.SystemExit 2)
  | leave, _ => Py.Raise (Py.SystemExit 0)
  | _, None => Py.Raise (Py.SystemExit 2)
  end.

Definition has_flag (f : string) (o : opt) : bool := bool_decide (f ∈ flags o).

Definition long_flags (opts : list opt) : list string :=
  filter (fun f => Py.startswith f "--" = true) (opts ≫= flags).

(** [_match_long_opt]: the flag itself, or the only long flag it abbreviates. *)
Definition match_long_opt (opts : list opt) (f : string) : Py.res opt :=
  match filter (fun o => has_flag f o = true) opts with
  | o :: _ => Py.Ok o
  | [] =>
      match filter (fun g => Py.startswith g f = true) (long_flags opts) with
      | [g] =>
          match filter (fun o => has_flag g o = true) opts with
          | o :: _ => Py.Ok o
          | [] => Py.Raise (Py.SystemExit 2)
          end
      | _ => Py.Raise (Py.SystemExit 2)
      end
  end.

(** [arg.split("=", 1)] *)
Fixpoint split_eq (s : string) : string * option string :=
  match s with
  | String c t =>
      if Ascii.eqb c "=" then (EmptyString, Some t)
      else let '(a, b) := split_eq t in (String c a, b)
  | EmptyString => (EmptyString, None)
  end.

(** [_process_short_opts] on the letters of one argument: the values after
    the flags without a value, and the option still waiting for its value
    with what is left of the argument. *)
Fixpoint short_opts (opts : list opt) (letters : string) (vs : values)
  : Py.res (values * option (opt * string)) :=
  match letters with
  | String c t =>
      match filter (fun o => has_flag (String "-" (String c EmptyString)) o = true) opts with
      | o :: _ =>
          if takes_value o then Py.Ok (vs, Some (o, t))
          else vs' ← process o None vs; short_opts opts t vs'
      | [] => Py.Raise (Py.SystemExit 2)
      end
  | EmptyString => Py.Ok (vs, None)
  end.

(** [_process_args]: the option values and the positional arguments. *)
Fixpoint process_args (opts : list opt) (rargs : list string) (vs : values)
    (largs : list string) : Py.res (values * list string) :=
  match rargs with
  | [] => Py.Ok (vs, largs)
  | arg :: rest =>
      if String.eqb arg "--" then Py.Ok (vs, largs ++ rest)%list
      else if Py.startswith arg "--" then
        let '(name, explicit) := split_eq arg in
        o ← match_long_opt opts name;
        if takes_value o then
          match explicit, rest with
          | Some v, _ => vs' ← process o (Some v) vs; process_args opts rest vs' largs
          | None, v :: rest' => vs' ← process o (Some v) vs; process_args opts rest' vs' largs
          | None, [] => Py.Raise (Py.SystemExit 2)
          end
        else
          match explicit with
          | Some _ => Py.Raise (Py.SystemExit 2)
          | None => vs' ← process o None vs; process_args opts rest vs' largs
          end
      else
        match arg with
        | String "-" (String c t) =>
            r ← short_opts opts (String c t) vs;
            match r with
            | (vs', None) => process_args opts rest vs' largs
            | (vs', Some (o, EmptyString)) =>
                match rest with
                | v :: rest' => vs'' ← process o (Some v) vs'; process_args opts rest' vs'' largs
                | [] => Py.Raise (Py.SystemExit 2)
                end
            | (vs', Some (o, v)) => vs'' ← process o (Some v) vs'; process_args opts rest vs'' largs
            end
        | _ => process_args opts rest vs (largs ++ [arg])%list
        end
  end.

(** [parser.parse_args(args)] *)
Definition parse_args (opts : list opt) (args : list string) : Py.res (values * list string) :=
  process_args opts args (get_default_values opts) [].

(** [BaseCommand.option_list]: Django's own options. *)
Definition base_option_list : list opt :=
  [ make_option ["-v"; "--verbosity"] (choice ["0"; "1"; "2"; "3"]) (Some "verbosity")
      (Py.VStr "1");
    make_option ["--settings"] store (Some "settings") Py.VNone;
    make_option ["--pythonpath"] store (Some "pythonpath") Py.VNone;
    make_option ["--traceback"] store_true (Some "traceback") Py.VNone ].

(** The options [OptionParser] adds itself, after the command's. *)
Definition parser_option_list : list opt :=
  [ make_option ["--version"] leave None Py.VNone;
    make_option ["-h"; "--help"] leave None Py.VNone ].

(** No option of a list writes anything but True to the destination [d]. *)
Definition only_enables (d : string) (o : opt) : Prop :=
  dest o = Some d -> act o = store_true.

Definition enabled (d : string) (vs : values) : Prop :=
  vs !! d = Some (Py.VBool true).

End Options.

(** ** The command *)
Module Command.
Import Py Models.

Definition IMPORT_TYPES : list string := ["csv_prices"; "prices"; "stores"].

Definition option_list : list Options.opt :=
  (Options.base_option_list ++
   [ Options.make_option ["--quiet"] Options.store_true (Some "quiet") (VBool false);
     Options.make_option ["--import-type"] (Options.choice IMPORT_TYPES) (Some "import_type")
       (VStr "prices");
     Options.make_option ["--geocode"] Options.store_true (Some "geocode") (VBool true) ])%list.

(** [create_parser]: the options the parser of the command knows. *)
Definition create_parser : list Options.opt :=
  (option_list ++ Options.parser_option_list)%list.

(** The attributes [handle] sets on the command object. *)
Record self := Self {
  quiet : value;
  geocode : value;
  import_type : value
}.

(** What a run does besides writing to the database: the text it prints,
    the calls to the geocoder and the pauses of [time.sleep(.35)]. *)
Inductive event :=
  | Geocode (address : string)
  | Sleep.

Record world := World {
  db : database;
  out : list string;
  trace : list event
}.

Definition on_db {A} (m : M database A) : M world A := fun w =>
  let '(r, d) := m (db w) in (r, World d (out w) (trace w)).

Definition write (text : string) : M world unit :=
  modify (fun w => World (db w) (out w ++ [text])%list (trace w)).

Definition emit (e : event) : M world unit :=
  modify (fun w => World (db w) (out w) (trace w ++ [e])%list).

Definition nl : string := String (ascii_of_nat 10) EmptyString.
Definition tab : string := String (ascii_of_nat 9) EmptyString.

(** The [print] statement. *)
Definition print (msg : string) : M world unit := write (msg ++ nl).

Definition uprint (self : self) (msg : string) : M world unit :=
  when (negb (truthy (quiet self))) (write (msg ++ nl)).

(** [row.get(k)] on a dict of strings. *)
Definition get (row : gmap string string) (k : string) : value :=
  match row !! k with
  | Some s => VStr s
  | None => VNone
  end.

(** [dict(zip(keys, values))] *)
Definition dict_zip (keys values : list string) : gmap string string :=
  foldl (fun m kv => <[fst kv := snd kv]> m) ∅ (zip keys values).

(** ['(\d+) (YRS?|MOS?)'], capturing both groups. *)
Definition age_re : matcher (string * string) := fun s =>
  '(g1, r1) ← digit_runs s;
  '(_, r2) ← chr " " r1;
  '(g2, r3) ← alt (cat (chr "Y") (cat (chr "R") (opt (chr "S"))))
                  (cat (chr "M") (cat (chr "O") (opt (chr "S")))) r2;
  [((g1, g2), r3)].

(** Lines 73-77: the age of the product from the row's age text. *)
Definition assign_age (a : value) (product : Product.t) : res Product.t :=
  s ← as_str a;
  match re_search age_re s with
  | None => Raise AttributeError      (* m is None *)
  | Some (g1, g2) =>
      if startswith g2 "MO" then
        n ← int_float g1; Ok (Product.set_age (VInt (n / 12)) product)
      else if startswith g2 "YR" then Ok (Product.set_age (VStr g1) product)
      else Ok product
  end.

(** Lines 58-77: the attributes the row overwrites. *)
Definition update_product (row : gmap string string) (created : bool)
    (product : Product.t) : res Product.t :=
  let product := if created then Product.set_title (get row "title") product else product in
  let product := if truthy (get row "status")
                 then Product.set_status (get row "status") product else product in
  let product := if truthy (get row "size")
                 then Product.set_size (get row "size") product else product in
  product ← (if truthy (get row "per_case")
             then n ← float_of (get row "per_case") ≫= py_int;
                  Ok (Product.set_bottles_per_case (VInt n) product)
             else Ok product);
  let product := if truthy (get row "proof")
                 then Product.set_proof (get row "proof") product else product in
  if truthy (get row "age") then assign_age (get row "age") product else Ok product.

(** Lines 92-96: the first day of the month after [today]. *)
Definition next_month (today : date) : res date :=
  match date_new (year today) (month today + 1) 1 with
  | Raise ValueError =>
      if (month today =? 12)%Z then date_new (year today + 1) 1 1
      else Raise UnboundLocalError
  | r => r
  end.

(** Which of the three ways to date a price the row selects (lines 85-91). *)
Inductive date_source :=
  | FromEffectiveDate
  | FromYearMonth
  | FromToday.

Definition date_source_of (row : gmap string string) : date_source :=
  if truthy (get row "price_effective_date") then FromEffectiveDate
  else if truthy (get row "year") && truthy (get row "month") then FromYearMonth
  else FromToday.

(** Lines 83-99: the effective date of the new price. *)
Definition price_date (today : date) (row : gmap string string) : res date :=
  match date_source_of row with
  | FromEffectiveDate => s ← as_str (get row "price_effective_date"); strptime_mdY s
  | FromYearMonth =>
      y ← float_of (get row "year") ≫= py_int;
      m ← float_of (get row "month") ≫= py_int;
      date_new y m 1
  | FromToday => next_month today
  end.

Definition price_char (c : ascii) : bool := is_digit c || Ascii.eqb c ".".

(** Line 104: [re.sub('[^0-9\.]', '', row.get('price'))] *)
Definition price_amount (v : value) : res string :=
  s ← as_str v; Ok (re_sub_cls (fun c => negb (price_char c)) "" s).

(** Lines 102-109: the new price record; a duplicate is passed over. *)
Definition create_price (row : gmap string string) (d : date) (pk : nat) : M database unit :=
  try_except
    (price <- lift (price_amount (get row "price")) ;;
     create (ProductPrice.mk price d pk))
    (fun e => match e with IntegrityError => Some (ret tt) | _ => None end).

Definition product_from_row (E : externals) (today : date) (row : gmap string string)
  : M database (option instance * bool) :=
  commit_on_success
    (if is_code_valid E (get row "code") then
       r <- get_or_create E (get row "code") ;;
       let '((pk, product), created) := r in
       product <- lift (update_product row created product) ;;
       save (pk, product) ;;;
       d <- lift (price_date today row) ;;
       create_price row d pk ;;;
       ret (Some (pk, product), created)
     else ret (None, false)).

Definition keys : list string :=
  ["code"; "status"; "title"; "size"; "age"; "proof"; "per_case"; "price";
   "price_effective_date"].

(** Lines 131-139 and 164-172: one row of a price list. *)
Definition import_product (E : externals) (self : self) (today : date)
    (obj : gmap string string) (count : nat) : M world nat :=
  try_except
    (r <- on_db (product_from_row E today obj) ;;
     match r with
     | (Some (_, product), _) =>
         uprint self ("[" ++ py_str (Product.code product) ++ "]: "
                          ++ py_str (Product.title product)) ;;;
         ret (S count)
     | (None, _) => ret count
     end)
    (fun e =>
       match e with
       | MultipleObjectsReturned =>
           Some (match obj !! "code" with
                 | Some c => print ("Product code '" ++ c ++ "' returned multiple results!") ;;;
                             ret count
                 | None => raise KeyError
                 end)
       | _ => None
       end).

(** Lines 141-144 and 174-177. *)
Definition report (self : self) (count : nat) : M world unit :=
  uprint self (nl ++ "Imported '" ++ pretty count ++ "' new product records and/or prices!") ;;;
  when (count <? 1)%nat (uprint self (nl ++ "Did you specify the correct import type?")).

Fixpoint csv_rows (E : externals) (self : self) (today : date)
    (csvreader : list (list string)) (count : nat) : M world nat :=
  match csvreader with
  | [] => ret count
  | row :: rest =>
      if (length row =? 0)%nat then csv_rows E self today rest count
      else
        let values := map strip row in
        let obj := dict_zip keys values in
        count' <- import_product E self today obj count ;;
        csv_rows E self today rest count'
  end.

Definition import_csv_prices (E : externals) (self : self) (today : date)
    (csvreader : list (list string)) : M world unit :=
  count <- csv_rows E self today csvreader 0 ;;
  report self count.

(** [str(s)] of a cell; text outside ASCII cannot be encoded. *)
Definition str_cell (E : externals) (c : cell) : res string :=
  match c with
  | CText s =>
      if forallb (fun a => (nat_of_ascii a <? 128)%nat) (list_ascii_of_string s)
      then Ok s else Raise UnicodeEncodeError
  | CFloat x => Ok (str_float E x)
  | CInt z => Ok (pretty z)
  end.

(** ["%s" % c] *)
Definition fmt_cell (E : externals) (c : cell) : string :=
  match c with
  | CText s => s
  | CFloat x => str_float E x
  | CInt z => pretty z
  end.

Fixpoint str_strip_all (E : externals) (cells : list cell) : res (list string) :=
  match cells with
  | [] => Ok []
  | c :: rest => s ← str_cell E c; ss ← str_strip_all E rest; Ok (strip s :: ss)
  end.

Fixpoint sheet_rows (E : externals) (self : self) (today : date)
    (sheet : list (list cell)) (count : nat) : M world nat :=
  match sheet with
  | [] => ret count
  | values :: rest =>
      values <- lift (str_strip_all E values) ;;
      let obj := dict_zip keys values in
      count' <- import_product E self today obj count ;;
      sheet_rows E self today rest count'
  end.

Definition import_prices (E : externals) (self : self) (today : date)
    (sheet : list (list cell)) : M world unit :=
  count <- sheet_rows E self today sheet 0 ;;
  report self count.

(** [isinstance(store_key, (int, long, float))] *)
Definition is_number (c : cell) : bool :=
  match c with
  | CText _ => false
  | CFloat _ | CInt _ => true
  end.

(** Lines 195-208: the geocoding of one store. The result is the store as
    the statements leave it: with the address and the position when the
    geocoder answered, as it was when the [except] clause ran. *)
Definition locate (E : externals) (store : Store.t) : M world Store.t :=
  store' <- try_except
    (emit (Geocode (Store.address_raw store)) ;;;
     r <- lift (geocode_service E (Store.address_raw store)) ;;
     let '(address, pos) := r in
     let store := Store.located (strip address) (fst pos) (snd pos) store in
     on_db (save_store store) ;;;
     ret store)
    (fun e =>
       if is_ValueError e
       then Some (print ("Multiple addresses returned for store "
                           ++ fmt_cell E (Store.key store) ++ "!") ;;;
                  ret store)
       else None) ;;
  emit Sleep ;;;
  ret store'.

Fixpoint import_stores (E : externals) (self : self) (sheet : list (list cell))
  : M world unit :=
  match sheet with
  | [] => ret tt
  | values :: rest =>
      store_key <- lift (match values with c :: _ => Ok c | [] => Raise IndexError end) ;;
      when (is_number store_key)
        (let store := from_row E values in
         store <- (if truthy (geocode self) then locate E store else ret store) ;;
         uprint self (str_store E store)) ;;;
      import_stores E self rest
  end.

(** What [getattr(self, 'import_%s' % self.import_type)] can find. *)
Inductive import_method :=
  | import_csv_prices_method
  | import_prices_method
  | import_stores_method
  | import_type_attribute.    (* 'import_type': the string, not a method *)

Definition getattr_import (name : string) : res import_method :=
  if String.eqb name "import_csv_prices" then Ok import_csv_prices_method
  else if String.eqb name "import_prices" then Ok import_prices_method
  else if String.eqb name "import_stores" then Ok import_stores_method
  else if String.eqb name "import_type" then Ok import_type_attribute
  else Raise AttributeError.

Definition options_get (options : gmap string value) (k : string) (default : value) : value :=
  match options !! k with
  | Some v => v
  | None => default
  end.

Definition handle (E : externals) (today : date) (args : list string)
    (options : gmap string value) : M world unit :=
  let self := Self (options_get options "quiet" (VBool false))
                   (options_get options "geocode" (VBool true))
                   (options_get options "import_type" VNone) in
  try_except
    (filename <- lift (match args with f :: _ => Ok f | [] => Raise IndexError end) ;;
     import_method <-
       try_except (lift (getattr_import ("import_" ++ py_str (import_type self))))
         (fun e =>
            match e with
            | AttributeError =>
                Some (raise (CommandError ("Import type '" ++ py_str (import_type self)
                                             ++ "' not implemented!")))
            | _ => None
            end) ;;
     uprint self ("Importing '" ++ py_str (import_type self) ++ "' from: "
                    ++ nl ++ tab ++ filename) ;;;
     csv <- lift (match import_type self with
                  | VStr t => Ok (startswith t "csv")
                  | _ => Raise AttributeError
                  end) ;;
     if csv : bool then
       match csv_files E filename with
       | None => raise (IOError filename)
       | Some csvreader =>
           match import_method with
           | import_csv_prices_method => import_csv_prices E self today csvreader
           | import_type_attribute => raise TypeError
           | _ => raise AttributeError      (* a reader has no nrows *)
           end
       end
     else
       match workbooks E filename with
       | Raise e => raise e
       | Ok sheet =>
           match import_method with
           | import_prices_method => import_prices E self today sheet
           | import_stores_method => import_stores E self sheet
           | _ => raise TypeError           (* not iterable, or not callable *)
           end
       end)
    (fun e =>
       match e with
       | IndexError => Some (raise (CommandError "You must specify a filename!"))
       | IOError f => Some (raise (CommandError ("No such file: '" ++ f ++ "'")))
       | _ => None
       end).

(** The addresses sent to the geocoder, in order. *)
Definition geocoded (tr : list event) : list string :=
  omap (fun e => match e with Geocode a => Some a | Sleep => None end) tr.

(** The rows [import_stores] takes for stores. *)
Definition store_rows (sheet : list (list cell)) : list (list cell) :=
  List.filter (fun values => match values with c :: _ => is_number c | [] => false end) sheet.

(** [run_from_argv]: the words after the command's name are parsed with
    [option_list] and passed to [handle]. *)
Definition run_from_argv (E : externals) (today : date) (argv : list string) : M world unit :=
  parsed <- lift (Options.parse_args create_parser argv) ;;
  handle E today (snd parsed) (fst parsed).

End Command.

Import Py Models Command.


(** ** What the statements below observe *)

(** The codes of the stored products, in the order of their keys. *)
Definition codes (d : database) : list value := map Product.code (products d).

(** The exceptions reading a row's cells can raise. *)
Definition is_cell_error (e : exn) : bool :=
  match e with
  | TypeError | AttributeError | ValueError | OverflowError | UnboundLocalError => true
  | _ => false
  end.

(** Text that [str] can encode. *)
Definition is_ascii (s : string) : bool :=
  forallb (fun a => (nat_of_ascii a <? 128)%nat) (list_ascii_of_string s).

Definition unencodable (c : cell) : bool :=
  match c with
  | CText s => negb (is_ascii s)
  | _ => false
  end.

(** The store as geocoding leaves it, when the geocoder answers. *)
Definition located_by (E : externals) (store : Store.t) : option Store.t :=
  match geocode_service E (Store.address_raw store) with
  | Ok (address, pos) => Some (Store.located (strip address) (fst pos) (snd pos) store)
  | Raise _ => None
  end.

(** A price with a date of the calendar and an amount of digits and dots. *)
Definition well_formed_price (q : ProductPrice.t) : bool :=
  valid_date (ProductPrice.effective_date q)
  && forallb price_char (list_ascii_of_string (ProductPrice.amount q)).

(** Two worlds that differ at most in what has been printed. *)
Definition same_but_out (w w' : world) : Prop := db w = db w' /\ trace w = trace w'.

(** The lines a quiet run can still print. *)
Definition is_report (line : string) : Prop :=
  exists c, line = (("Product code '" ++ c ++ "' returned multiple results!") ++ nl)%string.

Definition printed (w w' : world) : Prop :=
  exists lines, out w' = (out w ++ lines)%list /\ Forall is_report lines.

(** Option values as [handle] expects them: an import type of
    [IMPORT_TYPES] and a boolean for quiet. *)
Definition well_typed (vs : Options.values) : Prop :=
  (exists t, t ∈ IMPORT_TYPES /\ vs !! "import_type"%string = Some (VStr t)) /\
  (exists q, vs !! "quiet"%string = Some (VBool q)).

(** The first line [handle] prints. *)
Definition header (t filename : string) : string :=
  (("Importing '" ++ t ++ "' from: " ++ nl ++ tab ++ filename) ++ nl)%string.

(** The rows of a CSV file that are not empty and have a valid code. *)
Definition valid_rows (E : externals) (csvreader : list (list string)) : list (list string) :=
  List.filter (fun row => negb (length row =? 0)%nat
                          && is_code_valid E (get (dict_zip keys (map strip row)) "code"%string))
              csvreader.

(** The title stored for a code. *)
Definition title_of (d : database) (c : value) : value :=
  match select c 0 (products d) with
  | (_, p) :: _ => Product.title p
  | [] => VNone
  end.

(** The line [import_csv_prices] prints for a row it has imported (line
    137), with the title as the tables [d] have it. *)
Definition product_line (d : database) (row : list string) : string :=
  let c := get (dict_zip keys (map strip row)) "code"%string in
  (("[" ++ py_str c ++ "]: " ++ py_str (title_of d c)) ++ nl)%string.

(** The lines [report] prints for a count. *)
Definition summary (count : nat) : list string :=
  ((nl ++ "Imported '" ++ pretty count ++ "' new product records and/or prices!") ++ nl)%string
  :: (if (count <? 1)%nat
      then [((nl ++ "Did you specify the correct import type?") ++ nl)%string]
      else []).

(** The attributes of a product that a row can overwrite. *)
Inductive attr := a_status | a_size | a_bottles | a_proof | a_age.

Definition field (a : attr) (p : Product.t) : value :=
  match a with
  | a_status => Product.status p
  | a_size => Product.size p
  | a_bottles => Product.bottles_per_case p
  | a_proof => Product.proof p
  | a_age => Product.age p
  end.

(** The row [r] gives attribute [a] one value, whatever product it is
    written into; or it leaves the attribute as it finds it. *)
Definition fixes (r : gmap string string) (a : attr) : Prop :=
  exists v, forall c p p', update_product r c p = Ok p' -> field a p' = v.

Definition keeps (r : gmap string string) (a : attr) : Prop :=
  forall c p p', update_product r c p = Ok p' -> field a p' = field a p.

(** A row of [rows] for the code [c] is still to give attribute [a] its
    value. *)
Definition pending (E : externals) (rows : list (gmap string string)) (c : value)
    (a : attr) : Prop :=
  exists r, r ∈ rows /\ is_code_valid E (get r "code"%string) = true /\
            get r "code"%string = c /\ fixes r a.

(** The product under the key [pk], or the one [get_or_create] starts
    from. *)
Definition base (E : externals) (d : database) (pk : nat) : Product.t :=
  default (defaults E) (products d !! pk).

(** The dicts [import_csv_prices] builds from the rows of a file. *)
Definition objs (csvreader : list (list string)) : list (gmap string string) :=
  map (fun row => dict_zip keys (map strip row))
      (List.filter (fun row => negb (length row =? 0)%nat) csvreader).

(** The tables after the rows of a price list, if no row raises anything
    but MultipleObjectsReturned. *)
Fixpoint db_rows (E : externals) (today : date) (rows : list (gmap string string))
    (d : database) : option database :=
  match rows with
  | [] => Some d
  | obj :: rest =>
      match product_from_row E today obj d with
      | (Ok _, d') => db_rows E today rest d'
      | (Raise MultipleObjectsReturned, d') => db_rows E today rest d'
      | (Raise _, _) => None
      end
  end.

(** [e] is [d] with some of what [rows] will write already written, and
    with the prices and the new products of [dn]. *)
Definition ahead (E : externals) (rows : list (gmap string string))
    (d dn e : database) : Prop :=
  prices e = prices dn /\ stores e = stores dn /\
  map Product.code (products e) = map Product.code (products dn) /\
  map Product.title (products e) = map Product.title (products dn) /\
  forall pk q a,
    products e !! pk = Some q ->
    field a q = field a (base E d pk) \/
    (length (select (Product.code q) 0 (products d)) <= 1 /\
     pending E rows (Product.code q) a).

(** [d'] has the stores of [d], its prices and more, and its products with
    their codes and titles under their keys, and more. *)
Definition grows (d d' : database) : Prop :=
  stores d' = stores d /\
  (exists pn, prices d' = (prices d ++ pn)%list) /\
  (exists cn, map Product.code (products d') = (map Product.code (products d) ++ cn)%list) /\
  (exists tn, map Product.title (products d') = (map Product.title (products d) ++ tn)%list).

(** ** A sample installation, used to run the command on concrete rows *)
Module Sample.

(** Codes are the non-empty digit strings. *)
Definition code_ok (v : value) : bool :=
  match v with
  | VStr s => all_digits s && negb (String.eqb s "")
  | _ => false
  end.

Definition E : externals := {|
  is_code_valid := code_ok;
  defaults := Product.mk VNone VNone VNone VNone VNone VNone VNone;
  from_row := fun cs =>
    Store.mk (match cs with c :: _ => c | [] => CInt 0 end)
             (match cs with _ :: CText a :: _ => a | _ => "" end) VNone None None;
  str_float := fun _ => "42.0";
  str_store := Store.address_raw;
  geocode_service := fun a => Ok (a, (Finite false 45 0, Finite true 122 0));
  csv_files := fun f => if String.eqb f "prices.csv"
                        then Some [["1234"; "A"; "Rye"; "750 ML"; "18 MOS"; "80"; "12.0"; "$21.95"]]
                        else None;
  workbooks := fun f => if String.eqb f "stores.xls"
                        then Ok [[CText "Store Key"; CText "Address"];
                                 [CFloat (Finite false 42 0); CText "1 Main St"]]
                        else if String.eqb f "notes.txt" then Raise XLRDError
                        else Raise (IOError f)
|}.

Definition empty : database := Db [] [] [].
Definition today : date := Date 2011 12 15.
Definition start : world := World empty [] [].
Definition loud : self := Self (VBool false) (VBool true) (VStr "csv_prices").

Definition rye : list string :=
  ["1234"; "A"; "Rye"; "750 ML"; "18 MOS"; "80"; "12.0"; "$21.95"; "11/01/2011"].

(** The product and the tables after [rye] has been imported. *)
Definition rye_product : Product.t :=
  Product.mk (VStr "1234") (VStr "Rye") (VStr "A") (VStr "750 ML") (VInt 12)
             (VStr "80") (VInt 1).
Definition with_rye : database :=
  Db [rye_product] [ProductPrice.mk "21.95" (Date 2011 11 1) 0] [].
Definition later : date := Date 2012 3 1.

(** The row [rye] at another price. *)
Definition repriced : list string :=
  ["1234"; "A"; "Rye"; "750 ML"; "18 MOS"; "80"; "12.0"; "$22.95"; "11/01/2011"].

Definition store_sheet : list (list cell) :=
  [[CText "Store Key"; CText "Address"];
   [CFloat (Finite false 42 0); CText "1 Main St"]].
Definition geocoding : self := Self (VBool false) (VBool true) (VStr "stores").
Definition not_geocoding : self := Self (VBool false) (VBool false) (VStr "stores").

(** A second row for the product of [rye]: a new status, the other
    attributes blank, a later price. *)
Definition blank : list string :=
  ["1234"; "B"; "Other"; ""; ""; ""; ""; "$22.95"; "12/01/2011"].
Definition relisted : Product.t :=
  Product.mk (VStr "1234") (VStr "Rye") (VStr "B") (VStr "750 ML") (VInt 12)
             (VStr "80") (VInt 1).
Definition after_blank : database :=
  Db [relisted]
     [ProductPrice.mk "21.95" (Date 2011 11 1) 0; ProductPrice.mk "22.95" (Date 2011 12 1) 0]
     [].

(** Two products with one code. *)
Definition twice : database := Db [rye_product; rye_product] [] [].
Definition doubled : world := World twice [] [].

(** A row whose age has no unit. *)
Definition old : list string := ["1234"; "A"; "Rye"; "750 ML"; "old"].

(** A row of a sheet with a title outside ASCII. *)
Definition cafe : list cell :=
  [CText "1234"; CText "A"; CText (String (ascii_of_nat 233) EmptyString)].

Definition hushed : self := Self (VBool true) (VBool true) (VStr "csv_prices").

(** The installation with a geocoder that fails. *)
Definition offline : externals := {|
  is_code_valid := is_code_valid E;
  defaults := defaults E;
  from_row := from_row E;
  str_float := str_float E;
  str_store := str_store E;
  geocode_service := fun _ => Raise KeyError;
  csv_files := csv_files E;
  workbooks := workbooks E
|}.

(** The installation with a geocoder that cannot encode an address. *)
Definition garbled : externals := {|
  is_code_valid := is_code_valid E;
  defaults := defaults E;
  from_row := from_row E;
  str_float := str_float E;
  str_store := str_store E;
  geocode_service := fun _ => Raise UnicodeEncodeError;
  csv_files := csv_files E;
  workbooks := workbooks E
|}.


End Sample.

(** ** Sanity checks of the built-ins *)
Section Checks.

Example int_float_decimal : int_float "12.0" = Ok 12%Z.
Proof. vm_compute. reflexivity. Qed.

Example int_float_truncates : int_float "-2.99" = Ok (-2)%Z.
Proof. vm_compute. reflexivity. Qed.

Example int_float_exponent : int_float "1e3" = Ok 1000%Z.
Proof. vm_compute. reflexivity. Qed.

Example int_float_rounds_up : int_float "0.99999999999999999999" = Ok 1%Z.
Proof. vm_compute. reflexivity. Qed.

Example int_float_ties_to_even : int_float "9007199254740995" = Ok 9007199254740996%Z.
Proof. vm_compute. reflexivity. Qed.

Example int_float_text : int_float "abc" = Raise ValueError.
Proof. vm_compute. reflexivity. Qed.

Example int_float_inf : int_float "1e400" = Raise OverflowError.
Proof. vm_compute. reflexivity. Qed.

Example strptime_plain : strptime_mdY "01/02/2011" = Ok (Date 2011 1 2).
Proof. vm_compute. reflexivity. Qed.

Example strptime_short : strptime_mdY "1/2/2011" = Ok (Date 2011 1 2).
Proof. vm_compute. reflexivity. Qed.

Example strptime_leap_day : strptime_mdY "2/29/2012" = Ok (Date 2012 2 29).
Proof. vm_compute. reflexivity. Qed.

Example strptime_no_such_day : strptime_mdY "2/30/2011" = Raise ValueError.
Proof. vm_compute. reflexivity. Qed.

Example strptime_unconverted : strptime_mdY "2/9/20121" = Raise ValueError.
Proof. vm_compute. reflexivity. Qed.

Example age_search_leftmost : re_search age_re "x 12a 5 YRSS" = Some ("5", "YRS").
Proof. vm_compute. reflexivity. Qed.

End Checks.

(** ** Rows with an invalid code *)
Section InvalidCode.

(** C1: a row whose code fails [is_code_valid] gives (None, False) and leaves
    every table as it was: no Product and no ProductPrice is created or
    changed, and nothing is raised. *)
Theorem invalid_code_is_skipped (E : externals) (today : date)
    (row : gmap string string) (d : database) :
  is_code_valid E (get row "code") = false ->
  product_from_row E today row d = (Ok (None, false), d).
Proof.
  intros Hcode. unfold product_from_row, commit_on_success.
  rewrite Hcode. reflexivity.
Qed.

Lemma invalid_code_is_skipped_witness :
  is_code_valid Sample.E (get (dict_zip keys ["Item Code"; "Status"]) "code") = false /\
  product_from_row Sample.E Sample.today (dict_zip keys ["Item Code"; "Status"]) Sample.empty
    = (Ok (None, false), Sample.empty).
Proof.
  split; [vm_compute; reflexivity|].
  apply (invalid_code_is_skipped Sample.E Sample.today
           (dict_zip keys ["Item Code"; "Status"]) Sample.empty).
  vm_compute. reflexivity.
Defined.

End InvalidCode.

(** ** The price amount *)
Section PriceAmount.

Lemma append_nil_l (s : string) : "" ++ s = s.
Proof. reflexivity. Qed.

Lemma append_cons (c : ascii) (s t : string) : String c s ++ t = String c (s ++ t).
Proof. reflexivity. Qed.

Lemma re_sub_cls_deletes (keep : ascii -> bool) (s : string) :
  list_ascii_of_string (re_sub_cls (fun c => negb (keep c)) "" s)
  = List.filter keep (list_ascii_of_string s).
Proof.
  induction s as [|c t IH]; simpl; [reflexivity|].
  destruct (keep c); simpl.
  - rewrite append_nil_l, IH. reflexivity.
  - rewrite append_nil_l. exact IH.
Qed.

Lemma price_char_spec (c : ascii) :
  price_char c = true <-> is_digit c = true \/ c = "."%char.
Proof.
  unfold price_char. rewrite orb_true_iff, Ascii.eqb_eq. reflexivity.
Qed.

(** C6: the amount is the raw price with every character other than a digit
    or a dot deleted, whatever the string is: nothing is validated, so
    "$12,34.56 " gives "1234.56" and a string with several dots keeps them
    all. *)
Theorem price_amount_keeps_digits_and_dots :
  (forall s : string,
      price_amount (VStr s)
      = Ok (string_of_list_ascii (List.filter price_char (list_ascii_of_string s)))) /\
  price_amount (VStr "$12,34.56 ") = Ok "1234.56" /\
  price_amount (VStr "1.2.3") = Ok "1.2.3".
Proof.
  split; [|split; reflexivity].
  intros s. unfold price_amount. simpl. f_equal.
  rewrite <- re_sub_cls_deletes.
  symmetry. apply string_of_list_ascii_of_string.
Qed.

End PriceAmount.

(** ** The keys of a price row *)
Section RowKeys.

Lemma foldl_insert_lookup_None (k : string) (kvs : list (string * string))
    (m : gmap string string) :
  m !! k = None -> k ∉ kvs.*1 ->
  foldl (fun m kv => <[fst kv := snd kv]> m) m kvs !! k = None.
Proof.
  revert m. induction kvs as [|[k0 v0] kvs IH]; intros m Hm Hk; simpl; [exact Hm|].
  simpl in Hk. apply not_elem_of_cons in Hk as [Hne Hk].
  apply IH; [|exact Hk].
  rewrite lookup_insert_ne; [exact Hm|]. simpl. congruence.
Qed.

Lemma fst_zip_subseteq (ks vs : list string) (k : string) :
  k ∈ (zip ks vs).*1 -> k ∈ ks.
Proof.
  revert vs. induction ks as [|k0 ks IH]; intros [|v vs] Hin; simpl in Hin;
    try (apply elem_of_nil in Hin; contradiction).
  apply elem_of_cons in Hin as [->|Hin]; [left|right; eapply IH; exact Hin].
Qed.

(** A key that is not listed is not in the dict. *)
Lemma dict_zip_lookup_None (ks vs : list string) (k : string) :
  k ∉ ks -> dict_zip ks vs !! k = None.
Proof.
  intros Hk. unfold dict_zip. apply foldl_insert_lookup_None.
  - apply lookup_empty.
  - intros Hin. apply Hk. eapply fst_zip_subseteq. exact Hin.
Qed.

Lemma year_not_a_key : "year" ∉ keys.
Proof.
  unfold keys. intros H.
  repeat (apply elem_of_cons in H as [H|H]; [discriminate H|]).
  apply elem_of_nil in H. exact H.
Qed.

Lemma month_not_a_key : "month" ∉ keys.
Proof.
  unfold keys. intros H.
  repeat (apply elem_of_cons in H as [H|H]; [discriminate H|]).
  apply elem_of_nil in H. exact H.
Qed.

(** C9: the dict the price importers build by zipping [keys] with the row's
    values never has the keys 'year' and 'month', whatever the values are,
    so [product_from_row] never dates such a row from (year, month, 1). *)
Theorem price_rows_never_use_year_month (values : list string) :
  dict_zip keys values !! "year" = None /\
  dict_zip keys values !! "month" = None /\
  date_source_of (dict_zip keys values) <> FromYearMonth.
Proof.
  pose proof (dict_zip_lookup_None keys values "year" year_not_a_key) as Hy.
  pose proof (dict_zip_lookup_None keys values "month" month_not_a_key) as Hm.
  split; [exact Hy|]. split; [exact Hm|].
  unfold date_source_of, get. rewrite Hy, Hm. simpl.
  destruct (truthy _); discriminate.
Qed.

End RowKeys.

(** ** What a call of [product_from_row] that returns went through *)
Section Upsert.

(** What a successful call went through. *)
Lemma product_from_row_Ok (E : externals) (today : date) (row : gmap string string)
    (d d' : database) (r : option instance * bool) :
  product_from_row E today row d = (Ok r, d') ->
  (is_code_valid E (get row "code") = false /\ r = (None, false) /\ d' = d) \/
  (is_code_valid E (get row "code") = true /\
   exists pk p0 p created d0 dt,
     r = (Some (pk, p), created) /\
     get_or_create E (get row "code") d = (Ok ((pk, p0), created), d0) /\
     update_product row created p0 = Ok p /\
     price_date today row = Ok dt /\
     create_price row dt pk (set_products (fun t => <[pk := p]> t) d0) = (Ok tt, d')).
Proof.
  unfold product_from_row, commit_on_success.
  destruct (is_code_valid E (get row "code")) eqn:Hcode.
  - intros H. right. split; [reflexivity|].
    unfold seq, lift, ret, save, modify in H.
    destruct (get_or_create E (get row "code") d) as [[[[pk p0] created]|e] d0] eqn:Hget;
      [|discriminate H].
    destruct (update_product row created p0) as [p|e] eqn:Hup; [|discriminate H].
    simpl in H.
    destruct (price_date today row) as [dt|e] eqn:Hdt; [|discriminate H].
    destruct (create_price row dt pk _) as [[[]|e] d1] eqn:Hcr; [|discriminate H].
    injection H as <- <-.
    exists pk, p0, p, created, d0, dt. auto.
  - intros H. left. unfold ret in H. injection H as <- <-. auto.
Qed.

Lemma create_price_Ok (row : gmap string string) (dt : date) (pk : nat) (d d' : database) :
  create_price row dt pk d = (Ok tt, d') ->
  exists amt,
    price_amount (get row "price") = Ok amt /\
    ((duplicates (ProductPrice.mk amt dt pk) (prices d) = true /\ d' = d) \/
     (duplicates (ProductPrice.mk amt dt pk) (prices d) = false /\
      d' = set_prices (fun t => t ++ [ProductPrice.mk amt dt pk])%list d)).
Proof.
  unfold create_price, try_except, seq, lift, create, ret.
  destruct (price_amount (get row "price")) as [amt|e] eqn:Hamt.
  - destruct (duplicates _ _) eqn:Hdup; intros H; injection H as <-; exists amt; auto.
  - assert (e = TypeError) as ->.
    { unfold price_amount in Hamt. destruct (get row "price"); simpl in Hamt; congruence. }
    discriminate.
Qed.

Lemma duplicates_true (pp : ProductPrice.t) (tbl : list ProductPrice.t) :
  duplicates pp tbl = true <->
  exists q, q ∈ tbl /\ ProductPrice.product q = ProductPrice.product pp
            /\ ProductPrice.effective_date q = ProductPrice.effective_date pp.
Proof.
  unfold duplicates. rewrite existsb_exists. split.
  - intros (q & Hin & Hq). apply bool_decide_eq_true in Hq.
    exists q. rewrite list_elem_of_In. tauto.
  - intros (q & Hin & Hq). exists q. rewrite bool_decide_eq_true, <- list_elem_of_In. tauto.
Qed.

(** After a price step that returned, the table has a price of that product
    for that date. *)
Lemma create_price_has_price (row : gmap string string) (dt : date) (pk : nat)
    (d d' : database) :
  create_price row dt pk d = (Ok tt, d') ->
  exists q, q ∈ prices d' /\ ProductPrice.product q = pk /\ ProductPrice.effective_date q = dt.
Proof.
  intros H. apply create_price_Ok in H as (amt & _ & [[Hdup ->]|[_ ->]]).
  - apply duplicates_true in Hdup as (q & Hin & Hp & Hd). exists q. auto.
  - exists (ProductPrice.mk amt dt pk). simpl. split; [|auto].
    apply elem_of_app. right. apply list_elem_of_singleton. reflexivity.
Qed.
End Upsert.

Section EffectiveDate.
Local Open Scope Z_scope.

Lemma fits_c_int_small (z : Z) : -10000 <= z <= 10000 -> fits_c_int z = true.
Proof.
  intros H. unfold fits_c_int.
  change (2 ^ 31) with 2147483648.
  apply andb_true_intro. split; [apply Z.leb_le|apply Z.ltb_lt]; lia.
Qed.

Lemma days_in_month_bounds (y m : Z) : 28 <= days_in_month y m <= 31.
Proof.
  unfold days_in_month.
  destruct (m =? 2); [destruct (is_leap y); lia|].
  destruct (_ || _)%bool; lia.
Qed.

Lemma date_new_Ok (y m d : Z) :
  MINYEAR <= y <= MAXYEAR -> 1 <= m <= 12 -> 1 <= d <= days_in_month y m ->
  date_new y m d = Ok (Date y m d).
Proof.
  unfold MINYEAR, MAXYEAR. intros Hy Hm Hd.
  pose proof (days_in_month_bounds y m) as Hb.
  unfold date_new, MINYEAR, MAXYEAR.
  rewrite !fits_c_int_small by lia. simpl.
  replace (1 <=? y) with true by (symmetry; apply Z.leb_le; lia).
  replace (y <=? 9999) with true by (symmetry; apply Z.leb_le; lia).
  replace (1 <=? m) with true by (symmetry; apply Z.leb_le; lia).
  replace (m <=? 12) with true by (symmetry; apply Z.leb_le; lia).
  replace (1 <=? d) with true by (symmetry; apply Z.leb_le; lia).
  replace (d <=? days_in_month y m) with true by (symmetry; apply Z.leb_le; lia).
  reflexivity.
Qed.

Lemma date_new_month_13 (y : Z) :
  MINYEAR <= y <= MAXYEAR -> date_new y 13 1 = Raise ValueError.
Proof.
  unfold MINYEAR, MAXYEAR. intros Hy.
  unfold date_new, MINYEAR, MAXYEAR.
  rewrite !fits_c_int_small by lia. simpl.
  replace (1 <=? y) with true by (symmetry; apply Z.leb_le; lia).
  replace (y <=? 9999) with true by (symmetry; apply Z.leb_le; lia).
  reflexivity.
Qed.

Lemma valid_date_bounds (t : date) :
  valid_date t = true ->
  MINYEAR <= year t <= MAXYEAR /\ 1 <= month t <= 12 /\
  1 <= day t <= days_in_month (year t) (month t).
Proof.
  unfold valid_date. rewrite !andb_true_iff, !Z.leb_le. tauto.
Qed.

(** The first day of the month after [today], December rolling over to
    January of the next year. *)
Lemma next_month_following (today : date) :
  valid_date today = true ->
  year today < MAXYEAR \/ month today < 12 ->
  next_month today
  = Ok (if month today =? 12 then Date (year today + 1) 1 1
        else Date (year today) (month today + 1) 1).
Proof.
  intros Hv Hlast. apply valid_date_bounds in Hv as (Hy & Hm & _).
  unfold next_month.
  destruct (Z.eqb_spec (month today) 12) as [H12|H12].
  - rewrite H12. change (12 + 1) with 13. rewrite date_new_month_13 by exact Hy.
    apply date_new_Ok; unfold MINYEAR, MAXYEAR in *; try lia.
    pose proof (days_in_month_bounds (year today + 1) 1). lia.
  - rewrite date_new_Ok; [reflexivity|exact Hy|lia|].
    pose proof (days_in_month_bounds (year today) (month today + 1)). lia.
Qed.

(** C5: when the row has no price_effective_date and not both of year and
    month, the effective date is the first day of the calendar month after
    the current date (January 1 of the next year when the current month is
    December), and that is the date of the price a returning call leaves in
    the table. The current date is any date of [datetime.date] whose
    following month begins on a date of [datetime.date] too (its years end
    with 9999). *)
Theorem default_effective_date_is_first_of_next_month
    (E : externals) (today : date) (row : gmap string string) :
  let first := if month today =? 12 then Date (year today + 1) 1 1
               else Date (year today) (month today + 1) 1 in
  valid_date today = true ->
  valid_date first = true ->
  truthy (get row "price_effective_date") = false ->
  truthy (get row "year") && truthy (get row "month") = false ->
  price_date today row = Ok first /\
  forall d d' pk p created,
    product_from_row E today row d = (Ok (Some (pk, p), created), d') ->
    exists q, q ∈ prices d' /\ ProductPrice.product q = pk
              /\ ProductPrice.effective_date q = first.
Proof.
  intros first Hv Hfirst Hped Hym.
  assert (Hlast : year today < MAXYEAR \/ month today < 12).
  { apply valid_date_bounds in Hfirst as (Hy & Hm & _). subst first.
    destruct (month today =? 12); simpl in Hy, Hm; [left|right]; lia. }
  assert (Hdate : price_date today row = Ok first).
  { unfold price_date, date_source_of. rewrite Hped, Hym.
    apply next_month_following; assumption. }
  split; [exact Hdate|].
  intros d d' pk p created Hrun.
  apply product_from_row_Ok in Hrun as [(_ & Hr & _)|(_ & Hex)]; [discriminate Hr|].
  destruct Hex as (pk' & p0 & p' & c' & d0 & dt & Hr & _ & _ & Hdt & Hcr).
  injection Hr as -> -> ->.
  rewrite Hdate in Hdt. injection Hdt as <-.
  eapply create_price_has_price. exact Hcr.
Qed.

End EffectiveDate.


Lemma default_effective_date_is_first_of_next_month_witness :
  price_date Sample.today (dict_zip keys ["1234"; "A"; "Rye"]) = Ok (Date 2012 1 1).
Proof.
  apply (default_effective_date_is_first_of_next_month Sample.E Sample.today
           (dict_zip keys ["1234"; "A"; "Rye"])).
  - vm_compute. reflexivity.
  - vm_compute. reflexivity.
  - vm_compute. reflexivity.
  - vm_compute. reflexivity.
Defined.

(** ** The age of a product *)
Section Digits.

Ltac by_cases_on_byte c :=
  destruct c as [[] [] [] [] [] [] [] []]; try discriminate; try reflexivity.

Lemma digit_not_space (c : ascii) : is_digit c = true -> is_space c = false.
Proof. by_cases_on_byte c. Qed.

Lemma digit_no_sign (c : ascii) (t : string) :
  is_digit c = true -> take_sign (String c t) = (false, String c t).
Proof. by_cases_on_byte c. Qed.

Lemma digit_not_a_word (c : ascii) (t : string) :
  is_digit c = true ->
  String.eqb (lowercase (String c t)) "inf" = false /\
  String.eqb (lowercase (String c t)) "infinity" = false /\
  String.eqb (lowercase (String c t)) "nan" = false.
Proof. by_cases_on_byte c; intros _; repeat split; reflexivity. Qed.

Lemma append_nil_r (s : string) : s ++ "" = s.
Proof. induction s as [|c t IH]; [reflexivity|]. rewrite append_cons, IH. reflexivity. Qed.

Lemma rstrip_digits (ds : string) : all_digits ds = true -> rstrip ds = ds.
Proof.
  induction ds as [|c t IH]; [reflexivity|]. simpl.
  intros H. apply andb_true_iff in H as [Hc Ht].
  rewrite (IH Ht), (digit_not_space c Hc). destruct t; reflexivity.
Qed.

Lemma strip_digits (ds : string) : all_digits ds = true -> strip ds = ds.
Proof.
  intros H. unfold strip.
  destruct ds as [|c t]; [reflexivity|].
  simpl in H. apply andb_true_iff in H as [Hc Ht].
  simpl lstrip. rewrite (digit_not_space c Hc).
  apply rstrip_digits. simpl. rewrite Hc, Ht. reflexivity.
Qed.

Lemma span_digits_all (ds : string) : all_digits ds = true -> span_digits ds = (ds, "").
Proof.
  induction ds as [|c t IH]; [reflexivity|]. simpl.
  intros H. apply andb_true_iff in H as [Hc Ht].
  rewrite Hc, (IH Ht). reflexivity.
Qed.

Lemma decimal_from_nonneg (ds : string) (acc : Z) : (0 <= acc -> 0 <= decimal_from acc ds)%Z.
Proof.
  revert acc. induction ds as [|c t IH]; intros acc Hacc; simpl; [exact Hacc|].
  apply IH. unfold digit_value. lia.
Qed.

(** [float] of a string of digits is the nearest binary64 to its number. *)
Lemma py_float_digits (ds : string) :
  all_digits ds = true -> ds <> "" ->
  py_float ds = Ok (round_b64 false (decimal ds) 1).
Proof.
  intros Hds Hne. unfold py_float. rewrite (strip_digits ds Hds).
  destruct ds as [|c t]; [contradiction|].
  pose proof Hds as Hc. simpl in Hc. apply andb_true_iff in Hc as [Hc _].
  rewrite (digit_no_sign c t Hc).
  destruct (digit_not_a_word c t Hc) as (-> & -> & ->). simpl orb. cbv iota.
  rewrite (span_digits_all _ Hds). rewrite append_nil_r.
  simpl take_exponent. cbv iota beta.
  change (0 - Z.of_nat (String.length ""))%Z with 0%Z.
  simpl Z.leb. cbv iota. rewrite Z.pow_0_r, Z.mul_1_r. reflexivity.
Qed.

End Digits.

Section Rounding.
Local Open Scope Z_scope.

Lemma div_half_even_1 (a : Z) : div_half_even a 1 = a.
Proof.
  unfold div_half_even. rewrite Z.div_1_r, Z.mod_1_r. reflexivity.
Qed.

Lemma floor_log2_ratio_1 (n : Z) : 0 < n -> floor_log2_ratio n 1 = Z.log2 n.
Proof.
  intros Hn. unfold floor_log2_ratio.
  change (Z.log2 1) with 0. rewrite Z.sub_0_r.
  pose proof (Z.log2_nonneg n) as H0.
  replace (0 <=? Z.log2 n) with true by (symmetry; apply Z.leb_le; exact H0).
  rewrite Z.mul_1_l.
  replace (2 ^ Z.log2 n <=? n) with true; [reflexivity|].
  symmetry. apply Z.leb_le. apply Z.log2_spec. exact Hn.
Qed.

Lemma pow2_53_lt_1024 : 2 ^ 53 < 2 ^ 1024.
Proof. apply Z.pow_lt_mono_r; lia. Qed.

(** An integer of at most 53 bits is a binary64 itself. *)
Lemma round_b64_exact (n : Z) :
  0 <= n < 2 ^ 53 -> py_int (round_b64 false n 1) = Ok n.
Proof.
  intros [H0 H53]. unfold round_b64.
  destruct (Z.eqb_spec n 0) as [->|Hn0]; [reflexivity|].
  rewrite floor_log2_ratio_1 by lia.
  assert (Hlog : Z.log2 n < 53) by (apply Z.log2_lt_pow2; lia).
  pose proof (Z.log2_nonneg n) as Hlog0.
  pose proof pow2_53_lt_1024 as Hbig.
  set (e := Z.max (Z.log2 n - 52) (-1074)).
  assert (He : -1074 <= e <= 0) by (unfold e; lia).
  destruct (Z.leb_spec 0 e) as [Hpos|Hneg].
  - assert (e = 0) as -> by lia.
    rewrite Z.pow_0_r, Z.mul_1_l, div_half_even_1, Z.shiftl_0_r.
    replace (2 ^ 1024 <=? n) with false by (symmetry; apply Z.leb_gt; lia).
    simpl. rewrite Z.shiftl_0_r. reflexivity.
  - rewrite div_half_even_1.
    assert (Hshift : Z.shiftl (n * 2 ^ (- e)) e = n).
    { replace e with (- (- e)) at 2 by lia.
      rewrite Z.shiftl_opp_r, Z.shiftr_div_pow2 by lia.
      apply Z.div_mul. apply Z.pow_nonzero; lia. }
    rewrite Hshift.
    replace (2 ^ 1024 <=? n) with false by (symmetry; apply Z.leb_gt; lia).
    simpl. rewrite Hshift. reflexivity.
Qed.

Lemma round_b64_2_53 : py_int (round_b64 false (2 ^ 53) 1) = Ok (2 ^ 53).
Proof. vm_compute. reflexivity. Qed.

Lemma int_float_digits (ds : string) :
  all_digits ds = true -> ds <> "" -> decimal ds <= 2 ^ 53 ->
  int_float ds = Ok (decimal ds).
Proof.
  intros Hds Hne Hle. unfold int_float.
  rewrite (py_float_digits ds Hds Hne). simpl.
  pose proof (decimal_from_nonneg ds 0 (Z.le_refl 0)) as H0. fold (decimal ds) in H0.
  destruct (Z.eq_dec (decimal ds) (2 ^ 53)) as [->|Hne53].
  - exact round_b64_2_53.
  - apply round_b64_exact. lia.
Qed.

End Rounding.

Section AgeText.

Lemma re_search_first {A} (p : matcher A) (s r : string) (a : A) :
  re_match p s = Some (a, r) -> re_search p s = Some a.
Proof. intros H. destruct s; simpl; rewrite H; reflexivity. Qed.

(** The first way [\d+] matches is the whole run of digits. *)
Lemma digit_runs_longest (ds r : string) :
  all_digits ds = true -> ds <> "" -> digit_runs r = [] ->
  exists more, digit_runs (ds ++ r) = (ds, r) :: more.
Proof.
  intros Hds Hne Hr. induction ds as [|c t IH]; [contradiction|].
  simpl in Hds. apply andb_true_iff in Hds as [Hc Ht].
  rewrite append_cons. simpl. rewrite Hc.
  destruct t as [|c' t'].
  - rewrite append_nil_l, Hr. simpl. eexists. reflexivity.
  - destruct (IH Ht ltac:(discriminate)) as [more ->].
    simpl. eexists. reflexivity.
Qed.

(** The unit after the space: the text captured starts with the two letters
    met, and may take a following S. *)
Ltac first_age_match ds Hds Hne :=
  match goal with
  | |- context [ds ++ ?r] =>
      destruct (digit_runs_longest ds r Hds Hne eq_refl) as [more Hruns];
      eexists; split;
      [ eapply re_search_first; unfold re_match, age_re; rewrite Hruns; reflexivity
      | repeat split; reflexivity ]
  end.

Lemma age_re_months (ds rest : string) :
  all_digits ds = true -> ds <> "" ->
  exists g2, re_search age_re (ds ++ " MO" ++ rest) = Some (ds, g2)
             /\ startswith g2 "MO" = true.
Proof.
  intros Hds Hne.
  change (" MO" ++ rest) with (String " " (String "M" (String "O" rest))).
  destruct rest as [|c t]; [|destruct c as [[] [] [] [] [] [] [] []]];
    first_age_match ds Hds Hne.
Qed.

Lemma age_re_years (ds rest : string) :
  all_digits ds = true -> ds <> "" ->
  exists g2, re_search age_re (ds ++ " YR" ++ rest) = Some (ds, g2)
             /\ startswith g2 "MO" = false /\ startswith g2 "YR" = true.
Proof.
  intros Hds Hne.
  change (" YR" ++ rest) with (String " " (String "Y" (String "R" rest))).
  destruct rest as [|c t]; [|destruct c as [[] [] [] [] [] [] [] []]];
    first_age_match ds Hds Hne.
Qed.

(** C3 (as amended): for an age text that is a number, a space and MO or YR
    (with anything after, so MOS and YRS too), months give the number divided
    by 12, rounded down, as long as the number is at most 2^53, and years
    give the digits of the number as a string. *)
Theorem age_from_months_or_years (ds rest : string) (p : Product.t) :
  all_digits ds = true -> ds <> "" ->
  ((decimal ds <= 2 ^ 53)%Z ->
   assign_age (VStr (ds ++ " MO" ++ rest)) p
   = Ok (Product.set_age (VInt (decimal ds / 12)) p)) /\
  assign_age (VStr (ds ++ " YR" ++ rest)) p = Ok (Product.set_age (VStr ds) p).
Proof.
  intros Hds Hne. split.
  - intros Hle.
    destruct (age_re_months ds rest Hds Hne) as (g2 & Hm & Hmo).
    unfold assign_age. simpl. rewrite Hm, Hmo.
    rewrite (int_float_digits ds Hds Hne Hle). reflexivity.
  - destruct (age_re_years ds rest Hds Hne) as (g2 & Hm & Hmo & Hyr).
    unfold assign_age. simpl. rewrite Hm, Hmo, Hyr. reflexivity.
Qed.

Lemma age_from_months_or_years_witness :
  assign_age (VStr "18 MOS") (defaults Sample.E)
  = Ok (Product.set_age (VInt 1) (defaults Sample.E)) /\
  assign_age (VStr "18 YRS") (defaults Sample.E)
  = Ok (Product.set_age (VStr "18") (defaults Sample.E)).
Proof.
  destruct (age_from_months_or_years "18" "S" (defaults Sample.E)) as [Hmo Hyr].
  - reflexivity.
  - discriminate.
  - split; [|exact Hyr]. apply Hmo. vm_compute. discriminate.
Defined.

(** The two ages the spec gives as examples. *)
Example age_examples :
  assign_age (VStr "18 MOS") (defaults Sample.E)
  = Ok (Product.set_age (VInt 1) (defaults Sample.E)) /\
  assign_age (VStr "12 YRS") (defaults Sample.E)
  = Ok (Product.set_age (VStr "12") (defaults Sample.E)).
Proof. split; vm_compute; reflexivity. Qed.

(** C3 as stated fails above 2^53: [float] rounds 36028797018963972 to
    36028797018963968, so the months are divided after rounding. *)
Lemma age_in_months_rounds_through_float :
  all_digits "36028797018963972" = true /\
  assign_age (VStr "36028797018963972 MOS") (defaults Sample.E)
  = Ok (Product.set_age (VInt 3002399751580330) (defaults Sample.E)) /\
  (decimal "36028797018963972" / 12 = 3002399751580331)%Z /\
  assign_age (VStr "36028797018963972 MOS") (defaults Sample.E)
  <> Ok (Product.set_age (VInt (decimal "36028797018963972" / 12)) (defaults Sample.E)).
Proof.
  split; [reflexivity|]. split; [vm_compute; reflexivity|].
  split; [vm_compute; reflexivity|]. vm_compute. discriminate.
Qed.

End AgeText.

(** ** Finding and updating a product *)
Section Lookup.

Lemma select_lookup (c : value) (t : list Product.t) (k j : nat) (q : Product.t) :
  (j, q) ∈ select c k t ->
  k <= j /\ t !! (j - k) = Some q /\ Product.code q = c.
Proof.
  revert k. induction t as [|p rest IH]; intros k Hin; simpl in Hin.
  - apply elem_of_nil in Hin. contradiction.
  - destruct (decide (Product.code p = c)) as [Hc|Hc].
    + apply elem_of_cons in Hin as [Heq|Hin].
      * injection Heq as -> ->. rewrite Nat.sub_diag. auto.
      * apply IH in Hin as (Hle & Hl & Hq).
        replace (j - k) with (S (j - S k)) by lia. split; [lia|]. auto.
    + apply IH in Hin as (Hle & Hl & Hq).
      replace (j - k) with (S (j - S k)) by lia. split; [lia|]. auto.
Qed.

Lemma select_app (c : value) (t t' : list Product.t) (k : nat) :
  select c k (t ++ t') = (select c k t ++ select c (k + length t) t')%list.
Proof.
  revert k. induction t as [|p rest IH]; intros k; simpl.
  - rewrite Nat.add_0_r. reflexivity.
  - rewrite IH. replace (S k + length rest) with (k + S (length rest)) by lia.
    destruct (decide (Product.code p = c)); reflexivity.
Qed.

(** Writing a row back under the same code leaves it the only match. *)
Lemma select_insert (c : value) (t : list Product.t) (k pk : nat) (p0 p1 : Product.t) :
  Product.code p1 = c ->
  select c k t = [(pk, p0)] ->
  select c k (<[pk - k := p1]> t) = [(pk, p1)].
Proof.
  intros Hc1. revert k. induction t as [|p rest IH]; intros k Hsel; simpl in Hsel.
  - discriminate Hsel.
  - destruct (decide (Product.code p = c)) as [Hc|Hc].
    + injection Hsel as -> -> Hrest. rewrite Nat.sub_diag. simpl.
      rewrite decide_True by exact Hc1. rewrite Hrest. reflexivity.
    + assert (Hin : (pk, p0) ∈ select c (S k) rest) by (rewrite Hsel; left).
      apply select_lookup in Hin as (Hle & _ & _).
      replace (pk - k) with (S (pk - S k)) by lia. simpl.
      rewrite decide_False by exact Hc. apply IH. exact Hsel.
Qed.

Lemma assign_age_keeps (a : value) (p p' : Product.t) :
  assign_age a p = Ok p' ->
  Product.code p' = Product.code p /\ Product.title p' = Product.title p.
Proof.
  unfold assign_age. destruct (as_str a) as [s|e]; simpl; [|discriminate].
  destruct (re_search age_re s) as [[g1 g2]|]; [|discriminate].
  destruct (startswith g2 "MO").
  - destruct (int_float g1) as [n|e]; simpl; [|discriminate].
    intros H. injection H as <-. auto.
  - destruct (startswith g2 "YR"); intros H; injection H as <-; auto.
Qed.

(** The row never changes the code, and sets the title only of a product
    that was just created. *)
Lemma update_product_keeps (row : gmap string string) (created : bool)
    (p p' : Product.t) :
  update_product row created p = Ok p' ->
  Product.code p' = Product.code p /\
  Product.title p' = if created then get row "title" else Product.title p.
Proof.
  unfold update_product.
  destruct (truthy (get row "per_case")).
  - destruct (float_of (get row "per_case") ≫= py_int) as [n|e]; simpl; [|discriminate].
    destruct (truthy (get row "age")).
    + intros H. apply assign_age_keeps in H as [-> ->].
      destruct created, (truthy (get row "status")), (truthy (get row "size")),
        (truthy (get row "proof")); auto.
    + intros H. injection H as <-.
      destruct created, (truthy (get row "status")), (truthy (get row "size")),
        (truthy (get row "proof")); auto.
  - simpl. destruct (truthy (get row "age")).
    + intros H. apply assign_age_keeps in H as [-> ->].
      destruct created, (truthy (get row "status")), (truthy (get row "size")),
        (truthy (get row "proof")); auto.
    + intros H. injection H as <-.
      destruct created, (truthy (get row "status")), (truthy (get row "size")),
        (truthy (get row "proof")); auto.
Qed.

Lemma create_price_products (row : gmap string string) (dt : date) (pk : nat)
    (d d' : database) (r : res unit) :
  create_price row dt pk d = (r, d') -> products d' = products d.
Proof.
  unfold create_price, try_except, seq, lift, create, ret.
  destruct (price_amount (get row "price")) as [amt|e].
  - destruct (duplicates _ _); intros H; injection H as <- <-; reflexivity.
  - destruct e; intros H; injection H as <- <-; reflexivity.
Qed.

Lemma product_from_row_Raise (E : externals) (today : date) (row : gmap string string)
    (d d' : database) (e : exn) :
  product_from_row E today row d = (Raise e, d') -> d' = d.
Proof.
  unfold product_from_row, commit_on_success.
  destruct (is_code_valid E (get row "code")).
  - destruct (seq _ _ d) as [[r|e'] d1]; intros H; [discriminate H|].
    injection H as _ <-. reflexivity.
  - unfold ret. discriminate.
Qed.

(** What [get_or_create] returns and leaves behind. *)
Lemma get_or_create_Ok (E : externals) (c : value) (d d0 : database)
    (pk : nat) (p0 : Product.t) (created : bool) :
  get_or_create E c d = (Ok ((pk, p0), created), d0) ->
  Product.code p0 = c /\
  ((created = true /\ select c 0 (products d) = [] /\ pk = length (products d) /\
    d0 = set_products (fun t => t ++ [p0])%list d) \/
   (created = false /\ select c 0 (products d) = [(pk, p0)] /\ d0 = d)).
Proof.
  unfold get_or_create.
  destruct (select c 0 (products d)) as [|[j q] [|x rest]] eqn:Hsel; intros H;
    [| |discriminate H].
  - injection H as <- <- <- <-. split; [reflexivity|]. left. auto.
  - injection H as <- <- <- <-.
    assert (Hin : (j, q) ∈ select c 0 (products d)) by (rewrite Hsel; left).
    apply select_lookup in Hin as (_ & _ & Hc). split; [exact Hc|]. right. auto.
Qed.

End Lookup.

(** ** The title *)
Section Title.

(** C2: a call of [product_from_row] leaves the title (and the code) of
    every product that is already stored as it was, whatever the row says
    and whether the call returns or raises: the title is only assigned to a
    product the call itself creates. *)
Theorem title_is_write_once (E : externals) (today : date) (row : gmap string string)
    (d : database) (i : nat) (p : Product.t) :
  products d !! i = Some p ->
  exists p', products (snd (product_from_row E today row d)) !! i = Some p' /\
             Product.title p' = Product.title p /\
             Product.code p' = Product.code p.
Proof.
  intros Hi.
  destruct (product_from_row E today row d) as [[r|e] d'] eqn:Hrun; simpl.
  - apply product_from_row_Ok in Hrun as [(_ & _ & ->)|(_ & Hex)]; [eauto|].
    destruct Hex as (pk & p0 & p1 & created & d0 & dt & _ & Hget & Hup & _ & Hcr).
    apply create_price_products in Hcr. rewrite Hcr. simpl.
    apply update_product_keeps in Hup as [Hcode Htitle].
    apply get_or_create_Ok in Hget as [Hc0 [(-> & _ & -> & ->)|(-> & Hsel & ->)]].
    + exists p. simpl. split; [|auto].
      pose proof (lookup_lt_Some _ _ _ Hi) as Hlt.
      rewrite list_lookup_insert_ne by lia.
      rewrite lookup_app_l by exact Hlt. exact Hi.
    + assert (Hin : (pk, p0) ∈ select (get row "code") 0 (products d))
        by (rewrite Hsel; left).
      apply select_lookup in Hin as (_ & Hpk & _). rewrite Nat.sub_0_r in Hpk.
      destruct (decide (i = pk)) as [->|Hne].
      * rewrite Hi in Hpk. injection Hpk as ->.
        exists p1. split; [|auto].
        apply list_lookup_insert_eq. eapply lookup_lt_Some. exact Hi.
      * exists p. rewrite list_lookup_insert_ne by congruence. auto.
  - apply product_from_row_Raise in Hrun as ->. eauto.
Qed.

Lemma title_is_write_once_witness :
  exists p', products (snd (product_from_row Sample.E Sample.today
                              (dict_zip keys ["1234"; "A"; "Bourbon"; ""; ""; ""; ""; "9.95"])
                              Sample.with_rye)) !! 0%nat = Some p' /\
             Product.title p' = Product.title Sample.rye_product /\
             Product.code p' = Product.code Sample.rye_product.
Proof.
  apply (title_is_write_once Sample.E Sample.today
           (dict_zip keys ["1234"; "A"; "Bourbon"; ""; ""; ""; ""; "9.95"])
           Sample.with_rye 0 Sample.rye_product).
  reflexivity.
Defined.

(** X1: the title is the row's when the call creates the product, and the
    product gets a key that had no row before. *)
Lemma title_set_on_creation (E : externals) (today : date) (row : gmap string string)
    (d d' : database) (pk : nat) (p : Product.t) :
  product_from_row E today row d = (Ok (Some (pk, p), true), d') ->
  Product.title p = get row "title" /\ products d' !! pk = Some p /\
  products d !! pk = None.
Proof.
  intros Hrun.
  apply product_from_row_Ok in Hrun as [(_ & Hr & _)|(_ & Hex)]; [discriminate Hr|].
  destruct Hex as (pk' & p0 & p' & c' & d0 & dt & Hr & Hget & Hup & _ & Hcr).
  injection Hr as <- <- <-.
  apply create_price_products in Hcr. rewrite Hcr. simpl.
  apply update_product_keeps in Hup as [_ Htitle].
  apply get_or_create_Ok in Hget as [_ [(_ & _ & -> & ->)|(Hf & _)]]; [|discriminate Hf].
  split; [exact Htitle|]. simpl. split.
  - apply list_lookup_insert_eq. rewrite length_app. simpl. lia.
  - apply lookup_ge_None. lia.
Qed.

Lemma title_set_on_creation_witness :
  Product.title Sample.rye_product = get (dict_zip keys Sample.rye) "title" /\
  products Sample.with_rye !! 0%nat = Some Sample.rye_product /\
  products Sample.empty !! 0%nat = None.
Proof.
  apply (title_set_on_creation Sample.E Sample.today (dict_zip keys Sample.rye)
           Sample.empty Sample.with_rye 0 Sample.rye_product).
  vm_compute. reflexivity.
Defined.

End Title.

(** ** Importing a price twice *)
Section Reimport.

Lemma assign_age_total (a : value) (p p' p2 : Product.t) :
  assign_age a p = Ok p' -> exists p2', assign_age a p2 = Ok p2'.
Proof.
  unfold assign_age. destruct (as_str a) as [s|e]; simpl; [|discriminate].
  destruct (re_search age_re s) as [[g1 g2]|]; [|discriminate].
  destruct (startswith g2 "MO").
  - destruct (int_float g1) as [n|e]; simpl; [|discriminate]. eauto.
  - destruct (startswith g2 "YR"); eauto.
Qed.

(** Whether the row's attributes can be read does not depend on the product
    they are assigned to. *)
Lemma update_product_total (row : gmap string string) (c c2 : bool)
    (p p' p2 : Product.t) :
  update_product row c p = Ok p' -> exists p2', update_product row c2 p2 = Ok p2'.
Proof.
  unfold update_product.
  destruct (truthy (get row "per_case")).
  - destruct (float_of (get row "per_case") ≫= py_int) as [n|e]; simpl; [|discriminate].
    destruct (truthy (get row "age")); [|eauto].
    intros H. eapply assign_age_total. exact H.
  - simpl. destruct (truthy (get row "age")); [|eauto].
    intros H. eapply assign_age_total. exact H.
Qed.

(** After a call that returned a product, its code selects that row alone,
    and the table has a price of it for the date of the call. *)
Lemma product_from_row_leaves (E : externals) (today : date) (row : gmap string string)
    (d d' : database) (pk : nat) (p : Product.t) (created : bool) :
  product_from_row E today row d = (Ok (Some (pk, p), created), d') ->
  is_code_valid E (get row "code") = true /\
  select (get row "code") 0 (products d') = [(pk, p)] /\
  (exists c0 p0, update_product row c0 p0 = Ok p) /\
  exists dt amt q,
    price_date today row = Ok dt /\
    price_amount (get row "price") = Ok amt /\
    q ∈ prices d' /\ ProductPrice.product q = pk /\ ProductPrice.effective_date q = dt.
Proof.
  intros Hrun.
  apply product_from_row_Ok in Hrun as [(_ & Hr & _)|(Hvalid & Hex)]; [discriminate Hr|].
  destruct Hex as (pk' & p0 & p' & c' & d0 & dt & Hr & Hget & Hup & Hdt & Hcr).
  injection Hr as <- <- <-.
  split; [exact Hvalid|].
  pose proof (create_price_products _ _ _ _ _ _ Hcr) as Hprods. simpl in Hprods.
  pose proof (update_product_keeps _ _ _ _ Hup) as [Hcode _].
  split; [|split; [eauto|]].
  - rewrite Hprods.
    apply get_or_create_Ok in Hget as [Hc0 [(-> & Hsel & -> & ->)|(-> & Hsel & ->)]].
    + simpl. rewrite insert_app_r_alt, Nat.sub_diag by lia. simpl.
      rewrite select_app, Hsel. simpl.
      rewrite decide_True by congruence. reflexivity.
    + rewrite <- (Nat.sub_0_r pk) at 1. apply (select_insert _ _ _ _ p0); [congruence|exact Hsel].
  - pose proof (create_price_Ok _ _ _ _ _ Hcr) as (amt & Hamt & _).
    apply create_price_has_price in Hcr as (q & Hq).
    exists dt, amt, q. auto.
Qed.

(** What the age text does to a product does not depend on the product. *)
Lemma assign_age_shape (a : value) (p p' : Product.t) :
  assign_age a p = Ok p' ->
  (p' = p /\ forall p2, assign_age a p2 = Ok p2) \/
  (exists v, p' = Product.set_age v p /\ forall p2, assign_age a p2 = Ok (Product.set_age v p2)).
Proof.
  unfold assign_age. destruct (as_str a) as [s|e]; simpl; [|discriminate].
  destruct (re_search age_re s) as [[g1 g2]|]; [|discriminate].
  destruct (startswith g2 "MO").
  - destruct (int_float g1) as [n|e]; simpl; [|discriminate].
    intros H. injection H as <-. right. eauto.
  - destruct (startswith g2 "YR"); intros H; injection H as <-; [right|left]; eauto.
Qed.

(** Assigning the row's attributes a second time changes nothing. *)
Lemma update_product_again (row : gmap string string) (c : bool) (p p' : Product.t) :
  update_product row c p = Ok p' -> update_product row false p' = Ok p'.
Proof.
  unfold update_product.
  destruct (truthy (get row "per_case")).
  - destruct (float_of (get row "per_case") ≫= py_int) as [n|e]; simpl; [|discriminate].
    destruct (truthy (get row "age")).
    + intros H. apply assign_age_shape in H as [[-> H]|(v & -> & H)]; rewrite H; f_equal;
        destruct p, c, (truthy (get row "status")), (truthy (get row "size")),
          (truthy (get row "proof")); reflexivity.
    + intros H. injection H as <-. f_equal.
      destruct p, c, (truthy (get row "status")), (truthy (get row "size")),
        (truthy (get row "proof")); reflexivity.
  - simpl. destruct (truthy (get row "age")).
    + intros H. apply assign_age_shape in H as [[-> H]|(v & -> & H)]; rewrite H; f_equal;
        destruct p, c, (truthy (get row "status")), (truthy (get row "size")),
          (truthy (get row "proof")); reflexivity.
    + intros H. injection H as <-. f_equal.
      destruct p, c, (truthy (get row "status")), (truthy (get row "size")),
        (truthy (get row "proof")); reflexivity.
Qed.

(** A price that is already there for the product and the date is passed
    over: the call returns the product, and only its row is written. *)
Lemma existing_price_is_passed_over (E : externals) (today : date)
    (row : gmap string string) (d : database) (pk : nat) (p p' : Product.t)
    (dt : date) (amt : string) :
  is_code_valid E (get row "code") = true ->
  select (get row "code") 0 (products d) = [(pk, p)] ->
  update_product row false p = Ok p' ->
  price_date today row = Ok dt ->
  price_amount (get row "price") = Ok amt ->
  (exists q, q ∈ prices d /\ ProductPrice.product q = pk
             /\ ProductPrice.effective_date q = dt) ->
  product_from_row E today row d
  = (Ok (Some (pk, p'), false), set_products (fun t => <[pk := p']> t) d).
Proof.
  intros Hvalid Hsel Hup Hdt Hamt Hq.
  unfold product_from_row, commit_on_success. rewrite Hvalid.
  unfold seq at 1. unfold get_or_create. rewrite Hsel.
  unfold seq at 1. unfold lift at 1. rewrite Hup.
  unfold seq at 1. unfold save, modify. simpl fst. simpl snd.
  unfold seq at 1. unfold lift at 1. rewrite Hdt.
  unfold seq at 1.
  assert (Hcr : create_price row dt pk (set_products (fun t => <[pk := p']> t) d)
                = (Ok tt, set_products (fun t => <[pk := p']> t) d)).
  { unfold create_price, try_except, seq, lift, create. rewrite Hamt.
    replace (duplicates _ _) with true; [reflexivity|].
    symmetry. apply duplicates_true. exact Hq. }
  rewrite Hcr. reflexivity.
Qed.

End Reimport.

(** ** Rows that are too short to have a price *)
Section ShortRows.

Lemma zip_take_keys (ks vs : list string) (n : nat) :
  length vs <= n -> zip ks vs = zip (take n ks) vs.
Proof.
  revert ks vs. induction n as [|n IH]; intros ks vs Hlen.
  - destruct vs; [|simpl in Hlen; lia]. destruct ks; reflexivity.
  - destruct ks as [|k ks]; [reflexivity|]. destruct vs as [|v vs]; [reflexivity|].
    simpl. f_equal. apply IH. simpl in Hlen. lia.
Qed.

Lemma short_row_has_no_price (values : list string) :
  length values < 8 ->
  dict_zip keys values !! "price" = None /\
  dict_zip keys values !! "price_effective_date" = None.
Proof.
  intros Hlen. unfold dict_zip.
  rewrite (zip_take_keys keys values 7) by lia.
  split; apply dict_zip_lookup_None; unfold keys; simpl; intros H;
    repeat (apply elem_of_cons in H as [H|H]; [discriminate H|]);
    apply elem_of_nil in H; exact H.
Qed.

Lemma get_or_create_Raise (E : externals) (c : value) (d d0 : database) (e : exn) :
  get_or_create E c d = (Raise e, d0) ->
  e = MultipleObjectsReturned /\ 2 <= length (select c 0 (products d)).
Proof.
  unfold get_or_create.
  destruct (select c 0 (products d)) as [|ip [|x rest]]; intros H; try discriminate H.
  injection H as <- _. simpl. split; [reflexivity|lia].
Qed.

Lemma raises_false_Ok {A} (r : res A) : raises r = false -> exists a, r = Ok a.
Proof. destruct r; [eauto|discriminate]. Qed.

(** Without a price the call raises, and everything it did is rolled back. *)
Lemma no_price_raises (E : externals) (today : date) (obj : gmap string string)
    (d : database) :
  is_code_valid E (get obj "code") = true ->
  obj !! "price" = None ->
  obj !! "price_effective_date" = None ->
  obj !! "year" = None ->
  exists e,
    product_from_row E today obj d = (Raise e, d) /\
    (length (select (get obj "code") 0 (products d)) <= 1 ->
     raises (update_product obj false (defaults E)) = false ->
     raises (next_month today) = false ->
     e = TypeError).
Proof.
  intros Hvalid Hprice Hped Hyear.
  assert (Hdate : price_date today obj = next_month today).
  { unfold price_date, date_source_of, get. rewrite Hped, Hyear. reflexivity. }
  assert (Hcreate : forall dt pk d1, create_price obj dt pk d1 = (Raise TypeError, d1)).
  { intros dt pk d1. unfold create_price, try_except, seq, lift, get.
    rewrite Hprice. reflexivity. }
  unfold product_from_row, commit_on_success. rewrite Hvalid.
  unfold seq at 1.
  destruct (get_or_create E (get obj "code") d) as [[[[pk p0] created]|e] d0] eqn:Hget.
  - unfold seq at 1. unfold lift at 1.
    destruct (update_product obj created p0) as [p1|e1] eqn:Hup.
    + unfold seq at 1. unfold save, modify. unfold seq at 1. unfold lift at 1.
      rewrite Hdate. destruct (next_month today) as [dt|e2] eqn:Hnm.
      * unfold seq at 1. rewrite Hcreate. exists TypeError. auto.
      * exists e2. split; [reflexivity|]. intros _ _ Hr. discriminate Hr.
    + exists e1. split; [reflexivity|]. intros _ Hr _.
      apply raises_false_Ok in Hr as [p' Hp'].
      destruct (update_product_total obj false created _ _ p0 Hp') as [p2 Hp2].
      congruence.
  - exists e. split; [reflexivity|]. intros Hlen _ _.
    apply get_or_create_Raise in Hget as [_ H2]. lia.
Qed.

(** An exception other than MultipleObjectsReturned leaves the loop: the
    rows after it are not read. *)
Lemma csv_rows_abort (E : externals) (self : self) (today : date) (row : list string)
    (rest : list (list string)) (count : nat) (w : world) (e : exn) :
  row <> [] -> e <> MultipleObjectsReturned ->
  product_from_row E today (dict_zip keys (map strip row)) (db w) = (Raise e, db w) ->
  csv_rows E self today (row :: rest) count w = (Raise e, w).
Proof.
  intros Hrow He Hrun. destruct w as [d o tr]. simpl in Hrun.
  destruct row as [|v vs]; [contradiction|].
  cbn [csv_rows length Nat.eqb].
  unfold seq at 1. unfold import_product, try_except.
  unfold seq at 1. unfold on_db. cbn [db out trace]. rewrite Hrun.
  destruct e; try reflexivity. contradiction.
Qed.

(** C10 (as amended): a row with a valid code and fewer than 8 columns
    makes [product_from_row] raise, with everything rolled back. The
    exception is the TypeError of [re.sub] on None whenever the steps before
    the price go through (at most one product has the code, per_case and age
    can be read, the next month exists); otherwise it is the exception of
    the earlier step. Unless it is MultipleObjectsReturned, the loop of
    [import_csv_prices] does not catch it: the run ends at that row, with
    the world as it was before the row. *)
Theorem short_row_aborts_the_run (E : externals) (self : self) (today : date)
    (row : list string) (rest : list (list string)) (count : nat) (w : world) :
  length row < 8 ->
  is_code_valid E (get (dict_zip keys (map strip row)) "code") = true ->
  exists e,
    product_from_row E today (dict_zip keys (map strip row)) (db w) = (Raise e, db w) /\
    (length (select (get (dict_zip keys (map strip row)) "code") 0 (products (db w))) <= 1 ->
     raises (update_product (dict_zip keys (map strip row)) false (defaults E)) = false ->
     raises (next_month today) = false ->
     e = TypeError) /\
    (row <> [] -> e <> MultipleObjectsReturned ->
     csv_rows E self today (row :: rest) count w = (Raise e, w)).
Proof.
  intros Hlen Hvalid.
  assert (Hlen' : length (map strip row) < 8) by (rewrite length_map; exact Hlen).
  destruct (short_row_has_no_price _ Hlen') as [Hprice Hped].
  pose proof (dict_zip_lookup_None keys (map strip row) "year" year_not_a_key) as Hyear.
  destruct (no_price_raises E today _ (db w) Hvalid Hprice Hped Hyear) as (e & Hrun & Htype).
  exists e. split; [exact Hrun|]. split; [exact Htype|].
  intros Hrow He. apply csv_rows_abort; assumption.
Qed.

Lemma short_row_aborts_the_run_witness :
  exists e,
    product_from_row Sample.E Sample.today (dict_zip keys (map strip ["1234"; "A"; "Rye"]))
      (db Sample.start) = (Raise e, db Sample.start) /\
    (length (select (get (dict_zip keys (map strip ["1234"; "A"; "Rye"])) "code") 0
               (products (db Sample.start))) <= 1 ->
     raises (update_product (dict_zip keys (map strip ["1234"; "A"; "Rye"])) false
               (defaults Sample.E)) = false ->
     raises (next_month Sample.today) = false ->
     e = TypeError) /\
    (["1234"; "A"; "Rye"] <> [] -> e <> MultipleObjectsReturned ->
     csv_rows Sample.E Sample.loud Sample.today (["1234"; "A"; "Rye"] :: [Sample.rye]) 0
       Sample.start = (Raise e, Sample.start)).
Proof.
  apply (short_row_aborts_the_run Sample.E Sample.loud Sample.today
           ["1234"; "A"; "Rye"] [Sample.rye] 0 Sample.start).
  - simpl. lia.
  - vm_compute. reflexivity.
Defined.

(** C10 as stated fails: a short row need not reach the price. Seven columns
    with a per_case that is no number raise the ValueError of [float]. *)
Lemma short_row_can_raise_ValueError :
  length ["1234"; "A"; "Rye"; "750 ML"; ""; "80"; "a dozen"] < 8 /\
  is_code_valid Sample.E
    (get (dict_zip keys (map strip ["1234"; "A"; "Rye"; "750 ML"; ""; "80"; "a dozen"])) "code")
  = true /\
  product_from_row Sample.E Sample.today
    (dict_zip keys (map strip ["1234"; "A"; "Rye"; "750 ML"; ""; "80"; "a dozen"]))
    Sample.empty
  = (Raise ValueError, Sample.empty) /\
  product_from_row Sample.E Sample.today
    (dict_zip keys (map strip ["1234"; "A"; "Rye"; "750 ML"; ""; "80"; "a dozen"]))
    Sample.empty
  <> (Raise TypeError, Sample.empty).
Proof.
  split; [simpl; lia|]. split; [vm_compute; reflexivity|].
  split; [vm_compute; reflexivity|]. vm_compute. discriminate.
Qed.

End ShortRows.

(** ** The --geocode option *)
Section GeocodeOption.
Import Options.

Lemma parser_options_only_enable : Forall (only_enables "geocode") create_parser.
Proof.
  unfold create_parser, option_list, base_option_list, parser_option_list. simpl.
  repeat (apply Forall_cons; split;
          [unfold only_enables; simpl; first [discriminate|reflexivity]|]).
  apply Forall_nil. exact I.
Qed.

Lemma defaults_enabled : enabled "geocode" (get_default_values create_parser).
Proof. vm_compute. reflexivity. Qed.

Lemma process_keeps (o : opt) (v : option string) (vs vs' : values) :
  only_enables "geocode" o -> enabled "geocode" vs ->
  process o v vs = Ok vs' -> enabled "geocode" vs'.
Proof.
  unfold only_enables, enabled, process, set_dest, values in *. intros Ho Hvs.
  destruct (dest o) as [d|] eqn:Hdest.
  - destruct (decide (d = "geocode")) as [->|Hd].
    + rewrite (Ho eq_refl). intros H. injection H as <-. apply lookup_insert_eq.
    + destruct (act o) as [| |cs|], v as [x|]; try discriminate;
        try (destruct (bool_decide (x ∈ cs)); [|discriminate]);
        intros H; injection H as <-; rewrite lookup_insert_ne by exact Hd; exact Hvs.
  - destruct (act o) as [| |cs|], v as [x|]; try discriminate;
      try (destruct (bool_decide (x ∈ cs)); [|discriminate]);
      intros H; injection H as <-; exact Hvs.
Qed.

Lemma match_long_opt_in (opts : list opt) (f : string) (o : opt) :
  match_long_opt opts f = Ok o -> o ∈ opts.
Proof.
  unfold match_long_opt.
  destruct (filter _ opts) as [|o1 l1] eqn:H1.
  - destruct (filter _ (long_flags opts)) as [|g [|g' l2]]; try discriminate.
    destruct (filter (fun o0 => has_flag g o0 = true) opts) as [|o2 l3] eqn:H2; [discriminate|].
    intros H. injection H as <-.
    assert (Hin : o2 ∈ o2 :: l3) by left. rewrite <- H2 in Hin.
    apply list_elem_of_filter in Hin as [_ Hin]. exact Hin.
  - intros H. injection H as <-.
    assert (Hin : o1 ∈ o1 :: l1) by left. rewrite <- H1 in Hin.
    apply list_elem_of_filter in Hin as [_ Hin]. exact Hin.
Qed.

Lemma short_opts_keeps (opts : list opt) (letters : string) (vs vs' : values)
    (r : option (opt * string)) :
  Forall (only_enables "geocode") opts -> enabled "geocode" vs ->
  short_opts opts letters vs = Ok (vs', r) ->
  enabled "geocode" vs' /\ forall o t, r = Some (o, t) -> o ∈ opts.
Proof.
  intros Hopts. revert vs. induction letters as [|c t IH]; intros vs Hvs; simpl.
  - intros H. injection H as <- <-. split; [exact Hvs|discriminate].
  - destruct (filter _ opts) as [|o l] eqn:Hf; [discriminate|].
    assert (Hin : o ∈ opts).
    { assert (Hin : o ∈ o :: l) by left. rewrite <- Hf in Hin.
      apply list_elem_of_filter in Hin as [_ Hin]. exact Hin. }
    destruct (takes_value o).
    + intros H. injection H as <- <-. split; [exact Hvs|].
      intros o' t' H. injection H as <- _. exact Hin.
    + destruct (process o None vs) as [vs1|e] eqn:Hp; simpl; [|discriminate].
      apply IH. eapply process_keeps; [|exact Hvs|exact Hp].
      rewrite Forall_forall in Hopts. apply Hopts. exact Hin.
Qed.

Lemma process_args_keeps (opts : list opt) (rargs : list string) (vs vs' : values)
    (largs args : list string) :
  Forall (only_enables "geocode") opts -> enabled "geocode" vs ->
  process_args opts rargs vs largs = Ok (vs', args) -> enabled "geocode" vs'.
Proof.
  intros Hopts. pose proof Hopts as Hall. rewrite Forall_forall in Hall.
  assert (Hgen : forall n rargs, length rargs < n -> forall vs largs,
             enabled "geocode" vs -> process_args opts rargs vs largs = Ok (vs', args) ->
             enabled "geocode" vs');
    [|apply (Hgen (S (length rargs))); lia].
  clear rargs vs largs.
  induction n as [|n IH]; intros rargs Hlen; [lia|].
  intros vs largs Hvs. destruct rargs as [|arg rest]; cbn [process_args].
  - intros H. injection H as <- _. exact Hvs.
  - destruct (String.eqb arg "--"); [intros H; injection H as <- _; exact Hvs|].
    destruct (startswith arg "--").
    + destruct (split_eq arg) as [name explicit].
      destruct (match_long_opt opts name) as [o|e] eqn:Hm; simpl; [|discriminate].
      apply match_long_opt_in in Hm. pose proof (Hall o Hm) as Ho.
      destruct (takes_value o).
      * destruct explicit as [v|].
        -- destruct (process o (Some v) vs) as [vs1|e] eqn:Hp; simpl; [|discriminate].
           apply IH; [simpl in Hlen; lia|]. eapply process_keeps; eauto.
        -- destruct rest as [|v rest']; [discriminate|].
           destruct (process o (Some v) vs) as [vs1|e] eqn:Hp; simpl; [|discriminate].
           apply IH; [simpl in Hlen; lia|]. eapply process_keeps; eauto.
      * destruct explicit as [v|]; [discriminate|].
        destruct (process o None vs) as [vs1|e] eqn:Hp; simpl; [|discriminate].
        apply IH; [simpl in Hlen; lia|]. eapply process_keeps; eauto.
    + destruct arg as [|a s]; [apply IH; [simpl in Hlen; lia|exact Hvs]|].
      destruct (Ascii.eqb_spec a "-") as [->|Hna].
      * destruct s as [|c t]; [apply IH; [simpl in Hlen; lia|exact Hvs]|].
        destruct (short_opts opts (String c t) vs) as [[vs1 r]|e] eqn:Hs; simpl;
          [|discriminate].
        apply short_opts_keeps in Hs as [Hvs1 Hr]; [|exact Hopts|exact Hvs].
        destruct r as [[o [|c' t']]|].
        -- destruct rest as [|v rest']; [discriminate|].
           pose proof (Hall o (Hr _ _ eq_refl)) as Ho.
           destruct (process o (Some v) vs1) as [vs2|e] eqn:Hp; simpl; [|discriminate].
           apply IH; [simpl in Hlen; lia|]. eapply process_keeps; eauto.
        -- pose proof (Hall o (Hr _ _ eq_refl)) as Ho.
           destruct (process o _ vs1) as [vs2|e] eqn:Hp; simpl; [|discriminate].
           apply IH; [simpl in Hlen; lia|]. eapply process_keeps; eauto.
        -- apply IH; [simpl in Hlen; lia|exact Hvs1].
      * destruct a as [[] [] [] [] [] [] [] []];
          try (exfalso; apply Hna; reflexivity);
          (apply IH; [simpl in Hlen; lia|exact Hvs]).
Qed.

(** Whatever the command line, the options [handle] receives have geocode
    set to True. *)
Lemma geocode_always_on (argv : list string) (vs : values) (args : list string) :
  parse_args create_parser argv = Ok (vs, args) ->
  options_get vs "geocode" (VBool true) = VBool true.
Proof.
  intros H. unfold parse_args in H.
  apply process_args_keeps in H; [|exact parser_options_only_enable|exact defaults_enabled].
  unfold enabled, values in H. unfold options_get. rewrite H. reflexivity.
Qed.

End GeocodeOption.

(** ** Geocoding of stores *)
Section Stores.

Lemma geocoded_app (tr tr' : list event) :
  geocoded (tr ++ tr') = (geocoded tr ++ geocoded tr')%list.
Proof. unfold geocoded. apply omap_app. Qed.

Lemma write_trace (text : string) (w : world) :
  write text w = (Ok tt, World (db w) (out w ++ [text])%list (trace w)).
Proof. reflexivity. Qed.

Lemma uprint_trace (self : self) (msg : string) (w : world) :
  exists w', uprint self msg w = (Ok tt, w') /\ trace w' = trace w /\ db w' = db w.
Proof.
  unfold uprint, when. destruct (negb (truthy (quiet self))).
  - eexists. split; [apply write_trace|]. auto.
  - eexists. split; [reflexivity|]. auto.
Qed.

(** What [locate] does, by the answer of the geocoder. *)
Lemma locate_cases (E : externals) (store : Store.t) (w : world) :
  locate E store w
  = match geocode_service E (Store.address_raw store) with
    | Ok (address, pos) =>
        let s := Store.located (strip address) (fst pos) (snd pos) store in
        (Ok s,
         World (set_stores (fun t => t ++ [s])%list (db w)) (out w)
               (trace w ++ [Geocode (Store.address_raw store)] ++ [Sleep])%list)
    | Raise e =>
        if is_ValueError e
        then (Ok store,
              World (db w)
                    (out w ++ [(("Multiple addresses returned for store "
                                   ++ fmt_cell E (Store.key store) ++ "!") ++ nl)%string])%list
                    (trace w ++ [Geocode (Store.address_raw store)] ++ [Sleep])%list)
        else (Raise e,
              World (db w) (out w) (trace w ++ [Geocode (Store.address_raw store)])%list)
    end.
Proof.
  unfold locate, seq, try_except, emit, modify, lift, on_db, save_store, print, write, modify,
    ret.
  cbn [db out trace].
  destruct (geocode_service E (Store.address_raw store)) as [[address pos]|e].
  - cbn. rewrite <- app_assoc. reflexivity.
  - destruct (is_ValueError e); cbn; rewrite <- ?app_assoc; reflexivity.
Qed.

(** One call to the geocoder per store located, whatever it answers. *)
Lemma locate_trace (E : externals) (store : Store.t) (w w' : world) (r : res Store.t) :
  locate E store w = (r, w') ->
  geocoded (trace w') = (geocoded (trace w) ++ [Store.address_raw store])%list.
Proof.
  rewrite locate_cases.
  destruct (geocode_service E (Store.address_raw store)) as [[address pos]|e].
  - intros H. injection H as _ <-. cbn [trace]. rewrite geocoded_app. reflexivity.
  - destruct (is_ValueError e); intros H; injection H as _ <-; cbn [trace];
      rewrite geocoded_app; reflexivity.
Qed.

(** X2: with geocode set, a run that returns has asked the geocoder about
    every row whose first cell is a number, once each and in order. *)
Lemma stores_geocoded_when_enabled (E : externals) (self : self)
    (sheet : list (list cell)) (w w' : world) :
  truthy (geocode self) = true ->
  import_stores E self sheet w = (Ok tt, w') ->
  geocoded (trace w')
  = (geocoded (trace w)
       ++ map (fun values => Store.address_raw (from_row E values)) (store_rows sheet))%list.
Proof.
  intros Hon. revert w. induction sheet as [|values rest IH]; intros w; cbn [import_stores].
  - intros H. injection H as <-. cbn. rewrite app_nil_r. reflexivity.
  - destruct values as [|c cs]; [discriminate|].
    unfold seq at 1. unfold lift at 1. cbn [store_rows List.filter].
    destruct (is_number c).
    + unfold seq at 1. unfold when at 1. rewrite Hon. unfold seq at 1.
      destruct (locate E (from_row E (c :: cs)) w) as [[s|e] w1] eqn:Hloc; [|discriminate].
      apply locate_trace in Hloc.
      destruct (uprint_trace self (str_store E s) w1) as (w2 & Hpr & Htr & _).
      rewrite Hpr. intros H. apply IH in H. rewrite H, Htr, Hloc.
      cbn [map]. rewrite <- app_assoc. reflexivity.
    + unfold seq at 1. unfold when at 1. unfold ret at 1. apply IH.
Qed.

(** X3: with geocode unset (possible only when [handle] is called with the
    option given by hand), the geocoder is never asked, whether the run
    returns or raises. *)
Lemma stores_not_geocoded_when_disabled (E : externals) (self : self)
    (sheet : list (list cell)) (w w' : world) (r : res unit) :
  truthy (geocode self) = false ->
  import_stores E self sheet w = (r, w') ->
  trace w' = trace w.
Proof.
  intros Hoff. revert w. induction sheet as [|values rest IH]; intros w; cbn [import_stores].
  - intros H. injection H as _ <-. reflexivity.
  - destruct values as [|c cs]; [intros H; injection H as _ <-; reflexivity|].
    unfold seq at 1. unfold lift at 1.
    destruct (is_number c).
    + unfold seq at 1. unfold when at 1. rewrite Hoff. unfold seq at 1. unfold ret at 1.
      destruct (uprint_trace self (str_store E (from_row E (c :: cs))) w)
        as (w2 & Hpr & Htr & _).
      rewrite Hpr. intros H. apply IH in H. congruence.
    + unfold seq at 1. unfold when at 1. unfold ret at 1. apply IH.
Qed.

Lemma stores_geocoded_when_enabled_witness :
  geocoded (trace (snd (import_stores Sample.E Sample.geocoding Sample.store_sheet Sample.start)))
  = (geocoded (trace Sample.start)
       ++ map (fun values => Store.address_raw (from_row Sample.E values))
              (store_rows Sample.store_sheet))%list.
Proof.
  apply (stores_geocoded_when_enabled Sample.E Sample.geocoding Sample.store_sheet
           Sample.start).
  - reflexivity.
  - vm_compute. reflexivity.
Defined.

Lemma stores_not_geocoded_when_disabled_witness :
  trace (snd (import_stores Sample.E Sample.not_geocoding Sample.store_sheet Sample.start))
  = trace Sample.start.
Proof.
  apply (stores_not_geocoded_when_disabled Sample.E Sample.not_geocoding Sample.store_sheet
           Sample.start _ (fst (import_stores Sample.E Sample.not_geocoding Sample.store_sheet
                                  Sample.start))).
  - reflexivity.
  - vm_compute. reflexivity.
Defined.

(** X4: a row whose first cell is text (a header, a blank line) is passed
    over. *)
Lemma text_row_is_skipped (E : externals) (self : self) (c : cell) (cs : list cell)
    (rest : list (list cell)) (w : world) :
  is_number c = false ->
  import_stores E self ((c :: cs) :: rest) w = import_stores E self rest w.
Proof.
  intros Hc. cbn [import_stores]. unfold seq at 1. unfold lift at 1.
  rewrite Hc. reflexivity.
Qed.

Lemma text_row_is_skipped_witness :
  import_stores Sample.E Sample.geocoding Sample.store_sheet Sample.start
  = import_stores Sample.E Sample.geocoding [[CFloat (Finite false 42 0); CText "1 Main St"]]
      Sample.start.
Proof.
  apply (text_row_is_skipped Sample.E Sample.geocoding (CText "Store Key") [CText "Address"]
           [[CFloat (Finite false 42 0); CText "1 Main St"]] Sample.start).
  reflexivity.
Defined.

(** The store import of the spec's example: the header row gives nothing,
    the row of store 42 is geocoded, saved and printed. *)
Example header_skipped_store_42_imported :
  import_stores Sample.E Sample.geocoding Sample.store_sheet Sample.start
  = (Ok tt,
     World (Db [] [] [Store.mk (CFloat (Finite false 42 0)) "1 Main St" (VStr "1 Main St")
                        (Some (Finite false 45 0)) (Some (Finite true 122 0))])
           ["1 Main St" ++ nl]
           [Geocode "1 Main St"; Sleep]).
Proof. vm_compute. reflexivity. Qed.

(** C8: no command line turns geocoding off. The options parsed from any
    argument list have geocode = True ([store_true] on top of default=True),
    and a stores import run with and without --geocode does the same: it
    asks the geocoder about every store row. *)
Theorem geocode_flag_changes_nothing :
  (forall argv : list string,
      match Options.parse_args create_parser argv with
      | Ok (vs, _) => options_get vs "geocode" (VBool true) = VBool true
      | Raise _ => True
      end) /\
  run_from_argv Sample.E Sample.today ["stores.xls"; "--import-type"; "stores"] Sample.start
  = run_from_argv Sample.E Sample.today ["stores.xls"; "--import-type"; "stores"; "--geocode"]
      Sample.start /\
  trace (snd (run_from_argv Sample.E Sample.today ["stores.xls"; "--import-type"; "stores"]
                Sample.start))
  = [Geocode "1 Main St"; Sleep].
Proof.
  split; [|split; vm_compute; reflexivity].
  intros argv.
  destruct (Options.parse_args create_parser argv)
    as [[vs args]|e] eqn:H; [|exact I].
  eapply geocode_always_on. exact H.
Qed.

End Stores.

(** ** Age texts that do not match *)
Section UnmatchedAge.

Lemma unmatched_age_raises (s : string) (p : Product.t) :
  re_search age_re s = None -> assign_age (VStr s) p = Raise AttributeError.
Proof. intros H. unfold assign_age. simpl. rewrite H. reflexivity. Qed.

(** C7 fails on the code: an age text without a match makes [m] None, and
    [m.group(2)] raises AttributeError. The row is rolled back, the loop does
    not catch the exception, and the rows after it are not imported. *)
Theorem unmatched_age_stops_the_import :
  re_search age_re "OLD" = None /\
  product_from_row Sample.E Sample.today
    (dict_zip keys ["1234"; "A"; "Rye"; "750 ML"; "OLD"; "80"; "12.0"; "$21.95"]) Sample.empty
  = (Raise AttributeError, Sample.empty) /\
  import_csv_prices Sample.E Sample.loud Sample.today
    [["1234"; "A"; "Rye"; "750 ML"; "OLD"; "80"; "12.0"; "$21.95"]; Sample.rye] Sample.start
  = (Raise AttributeError, Sample.start).
Proof. repeat split; vm_compute; reflexivity. Qed.

End UnmatchedAge.

(** ** A whole price list *)
Section PriceList.

(** The spec's end-to-end example: of a CSV file with one row with a valid
    code and one with an invalid code, one Product and one ProductPrice are
    created and the count reported is 1. *)
Example one_valid_row_of_two :
  import_csv_prices Sample.E Sample.loud Sample.today
    [["Item Code"; "Status"; "Description"]; Sample.rye] Sample.start
  = (Ok tt,
     World Sample.with_rye
           ["[1234]: Rye" ++ nl;
            nl ++ "Imported '1' new product records and/or prices!" ++ nl]
           []).
Proof. vm_compute. reflexivity. Qed.

End PriceList.

(** ** What a call of [product_from_row] leaves alone *)
Section Frame.

(** The tables after a call, in terms of the tables before. *)
Lemma product_from_row_tables (E : externals) (today : date) (row : gmap string string)
    (d d' : database) (r : res (option instance * bool)) :
  product_from_row E today row d = (r, d') ->
  d' = d \/
  exists pk p created dt,
    r = Ok (Some (pk, p), created) /\
    Product.code p = get row "code" /\
    price_date today row = Ok dt /\
    stores d' = stores d /\
    ((created = true /\ select (get row "code") 0 (products d) = [] /\
      pk = length (products d) /\ products d' = (products d ++ [p])%list) \/
     (created = false /\ (exists p0, select (get row "code") 0 (products d) = [(pk, p0)]) /\
      products d' = <[pk := p]> (products d))) /\
    (prices d' = prices d \/
     exists amt, price_amount (get row "price") = Ok amt /\
                 duplicates (ProductPrice.mk amt dt pk) (prices d) = false /\
                 prices d' = (prices d ++ [ProductPrice.mk amt dt pk])%list).
Proof.
  intros Hrun. destruct r as [r|e].
  - apply product_from_row_Ok in Hrun as [(_ & _ & ->)|(_ & Hex)]; [left; reflexivity|].
    right. destruct Hex as (pk & p0 & p & created & d0 & dt & -> & Hget & Hup & Hdt & Hcr).
    exists pk, p, created, dt. split; [reflexivity|].
    pose proof (update_product_keeps _ _ _ _ Hup) as [Hcode _].
    apply get_or_create_Ok in Hget as [Hc0 Hget].
    split; [congruence|]. split; [exact Hdt|].
    apply create_price_Ok in Hcr as (amt & Hamt & Hcr).
    assert (Hd0 : stores d0 = stores d /\ prices d0 = prices d).
    { destruct Hget as [(_ & _ & _ & ->)|(_ & _ & ->)]; auto. }
    destruct Hd0 as [Hst Hpr].
    assert (Hprod : products d' = <[pk := p]> (products d0) /\ stores d' = stores d0).
    { destruct Hcr as [[_ ->]|[_ ->]]; auto. }
    destruct Hprod as [Hprod Hst'].
    split; [congruence|]. split.
    + destruct Hget as [(-> & Hsel & -> & ->)|(-> & Hsel & ->)].
      * left. repeat split; [exact Hsel|]. rewrite Hprod. simpl.
        rewrite insert_app_r_alt, Nat.sub_diag by lia. reflexivity.
      * right. repeat split; [eauto|exact Hprod].
    + destruct Hcr as [[_ ->]|[Hdup ->]]; simpl; rewrite Hpr; [left; reflexivity|].
      right. exists amt. simpl in Hdup. rewrite Hpr in Hdup. auto.
  - apply product_from_row_Raise in Hrun. left. exact Hrun.
Qed.

(** X5: whatever the row, a call leaves the stores alone, keeps every stored
    price and adds at most one, adds at most one product, and does not touch
    a product whose code is not the row's. *)
Theorem product_from_row_frame (E : externals) (today : date) (row : gmap string string)
    (d : database) :
  let d' := snd (product_from_row E today row d) in
  stores d' = stores d /\
  prices d `prefix_of` prices d' /\
  length (prices d') <= S (length (prices d)) /\
  length (products d) <= length (products d') <= S (length (products d)) /\
  forall i p, products d !! i = Some p -> Product.code p <> get row "code" ->
              products d' !! i = Some p.
Proof.
  destruct (product_from_row E today row d) as [r d'] eqn:Hrun. simpl.
  apply product_from_row_tables in Hrun as [->|Hex].
  - repeat split; try reflexivity; try lia. auto.
  - destruct Hex as (pk & p & created & dt & _ & Hcode & _ & Hst & Hprod & Hpr).
    split; [exact Hst|].
    assert (Hprices : prices d `prefix_of` prices d' /\
                      length (prices d') <= S (length (prices d))).
    { destruct Hpr as [->|(amt & _ & _ & ->)].
      - split; [reflexivity|lia].
      - split; [apply prefix_app_r; reflexivity|]. rewrite length_app. simpl. lia. }
    destruct Hprices as [Hpre Hlen]. split; [exact Hpre|]. split; [exact Hlen|].
    destruct Hprod as [(_ & _ & _ & ->)|(_ & (p0 & Hsel) & ->)].
    + rewrite length_app. simpl. split; [lia|].
      intros i q Hi _. apply lookup_app_l_Some. exact Hi.
    + rewrite length_insert. split; [lia|].
      intros i q Hi Hne.
      assert (Hin : (pk, p0) ∈ select (get row "code") 0 (products d))
        by (rewrite Hsel; left).
      apply select_lookup in Hin as (_ & Hl & Hc0). rewrite Nat.sub_0_r in Hl.
      rewrite list_lookup_insert_ne; [exact Hi|].
      intros ->. rewrite Hi in Hl. injection Hl as ->. contradiction.
Qed.

End Frame.

(** ** Product codes stay unique *)
Section UniqueCodes.

Lemma select_not_in (c : value) (t : list Product.t) (k : nat) :
  c ∉ map Product.code t -> select c k t = [].
Proof.
  revert k. induction t as [|p rest IH]; intros k Hc; simpl; [reflexivity|].
  simpl in Hc. apply not_elem_of_cons in Hc as [Hne Hc].
  rewrite decide_False by congruence. apply IH. exact Hc.
Qed.

Lemma select_nil_not_in (c : value) (t : list Product.t) (k : nat) :
  select c k t = [] -> c ∉ map Product.code t.
Proof.
  revert k. induction t as [|p rest IH]; intros k Hsel; simpl; [apply not_elem_of_nil|].
  simpl in Hsel. destruct (decide (Product.code p = c)) as [Hc|Hc]; [discriminate|].
  apply not_elem_of_cons. split; [congruence|]. eapply IH. exact Hsel.
Qed.

(** With unique codes a code selects at most one row. *)
Lemma select_unique (c : value) (t : list Product.t) (k : nat) :
  NoDup (map Product.code t) -> length (select c k t) <= 1.
Proof.
  revert k. induction t as [|p rest IH]; intros k Hnd; simpl; [lia|].
  simpl in Hnd. apply NoDup_cons in Hnd as [Hp Hnd].
  destruct (decide (Product.code p = c)) as [Hc|Hc].
  - rewrite select_not_in by congruence. simpl. lia.
  - apply IH. exact Hnd.
Qed.

Lemma codes_insert_same (t : list Product.t) (pk : nat) (p0 p : Product.t) :
  t !! pk = Some p0 -> Product.code p = Product.code p0 ->
  map Product.code (<[pk := p]> t) = map Product.code t.
Proof.
  intros Hl Hc. rewrite list_fmap_insert, Hc. apply list_insert_id.
  rewrite list_lookup_fmap, Hl. reflexivity.
Qed.

Lemma product_from_row_codes (E : externals) (today : date) (row : gmap string string)
    (d d' : database) (r : res (option instance * bool)) :
  product_from_row E today row d = (r, d') ->
  codes d' = codes d \/
  (((get row "code") ∉ codes d) /\ codes d' = (codes d ++ [get row "code"])%list).
Proof.
  intros Hrun. unfold codes.
  apply product_from_row_tables in Hrun as [->|Hex]; [left; reflexivity|].
  destruct Hex as (pk & p & created & dt & _ & Hcode & _ & _ & Hprod & _).
  destruct Hprod as [(_ & Hsel & _ & ->)|(_ & (p0 & Hsel) & ->)].
  - right. split; [eapply select_nil_not_in; exact Hsel|].
    rewrite map_app. simpl. rewrite Hcode. reflexivity.
  - left.
    assert (Hin : (pk, p0) ∈ select (get row "code") 0 (products d))
      by (rewrite Hsel; left).
    apply select_lookup in Hin as (_ & Hl & Hc0). rewrite Nat.sub_0_r in Hl.
    eapply codes_insert_same; [exact Hl|congruence].
Qed.

End UniqueCodes.

(** ** The exceptions of a row *)
Section RowErrors.

Lemma py_float_error (s : string) (e : exn) : py_float s = Raise e -> e = ValueError.
Proof.
  unfold py_float. destruct (take_sign (strip s)) as [neg body].
  destruct (_ || _); [discriminate|]. destruct (String.eqb _ "nan"); [discriminate|].
  destruct (span_digits body) as [ip r1].
  destruct (match r1 with String "."%char t => span_digits t | _ => (EmptyString, r1) end)
    as [fp r2].
  destruct (ip ++ fp); [congruence|].
  destruct (take_exponent r2) as [ex r3]. destruct r3; [discriminate|congruence].
Qed.

Lemma py_int_error (x : float) (e : exn) : py_int x = Raise e -> is_cell_error e = true.
Proof. destruct x; simpl; intros H; try discriminate H; injection H as <-; reflexivity. Qed.

Lemma float_of_error (v : value) (e : exn) : float_of v = Raise e -> is_cell_error e = true.
Proof.
  destruct v as [|b|z|s]; simpl.
  - intros H. injection H as <-. reflexivity.
  - discriminate.
  - destruct (if (z <? 0)%Z then _ else _); intros H; try discriminate H.
    injection H as <-. reflexivity.
  - intros H. apply py_float_error in H as ->. reflexivity.
Qed.

Lemma int_of_float_error (v : value) (e : exn) :
  float_of v ≫= py_int = Raise e -> is_cell_error e = true.
Proof.
  destruct (float_of v) as [x|e'] eqn:Hf; simpl.
  - apply py_int_error.
  - intros H. injection H as <-. eapply float_of_error. exact Hf.
Qed.

Lemma assign_age_error (a : value) (p : Product.t) (e : exn) :
  assign_age a p = Raise e -> is_cell_error e = true.
Proof.
  unfold assign_age. destruct a as [|b|z|s]; simpl;
    try (intros H; injection H as <-; reflexivity).
  destruct (re_search age_re s) as [[g1 g2]|]; [|intros H; injection H as <-; reflexivity].
  destruct (startswith g2 "MO").
  - unfold int_float. destruct (py_float g1) as [x|e'] eqn:Hf; simpl.
    + destruct (py_int x) as [n|e''] eqn:Hi; simpl; [discriminate|].
      intros H. injection H as <-. eapply py_int_error. exact Hi.
    + intros H. injection H as <-. apply py_float_error in Hf as ->. reflexivity.
  - destruct (startswith g2 "YR"); discriminate.
Qed.

Lemma update_product_error (row : gmap string string) (created : bool) (p : Product.t)
    (e : exn) :
  update_product row created p = Raise e -> is_cell_error e = true.
Proof.
  unfold update_product.
  destruct (truthy (get row "per_case")).
  - destruct (float_of (get row "per_case") ≫= py_int) as [n|e'] eqn:Hn; simpl.
    + destruct (truthy (get row "age")); [apply assign_age_error|discriminate].
    + intros H. injection H as <-. eapply int_of_float_error. exact Hn.
  - simpl. destruct (truthy (get row "age")); [apply assign_age_error|discriminate].
Qed.

Lemma date_new_error (y m d : Z) (e : exn) :
  date_new y m d = Raise e -> is_cell_error e = true.
Proof.
  unfold date_new.
  repeat (match goal with |- context [if ?b then _ else _] => destruct b end);
    intros H; try discriminate H; injection H as <-; reflexivity.
Qed.

Lemma price_date_error (today : date) (row : gmap string string) (e : exn) :
  price_date today row = Raise e -> is_cell_error e = true.
Proof.
  unfold price_date. destruct (date_source_of row).
  - destruct (as_str (get row "price_effective_date")) as [s|e'] eqn:Hs; simpl.
    + unfold strptime_mdY. destruct (re_match re_mdY s) as [[[[m dd] y] rest]|].
      * destruct rest; [apply date_new_error|].
        intros H. injection H as <-. reflexivity.
      * intros H. injection H as <-. reflexivity.
    + intros H. injection H as <-.
      destruct (get row "price_effective_date"); simpl in Hs; try discriminate Hs;
        injection Hs as <-; reflexivity.
  - destruct (float_of (get row "year") ≫= py_int) as [y|e'] eqn:Hy; simpl;
      [|intros H; injection H as <-; eapply int_of_float_error; exact Hy].
    destruct (float_of (get row "month") ≫= py_int) as [m|e'] eqn:Hm; simpl;
      [|intros H; injection H as <-; eapply int_of_float_error; exact Hm].
    apply date_new_error.
  - unfold next_month.
    destruct (date_new (year today) (month today + 1) 1) as [dt|e'] eqn:Hd; [discriminate|].
    pose proof (date_new_error _ _ _ _ Hd) as He'.
    destruct e'; try discriminate He'; try (intros H; injection H as <-; reflexivity).
    destruct (month today =? 12)%Z; [apply date_new_error|].
    intros H. injection H as <-. reflexivity.
Qed.

Lemma create_price_error (row : gmap string string) (dt : date) (pk : nat)
    (d d' : database) (e : exn) :
  create_price row dt pk d = (Raise e, d') -> e = TypeError.
Proof.
  unfold create_price, try_except, seq, lift, create, ret.
  destruct (price_amount (get row "price")) as [amt|e'] eqn:Hamt.
  - destruct (duplicates _ _); discriminate.
  - assert (e' = TypeError) as ->.
    { unfold price_amount in Hamt. destruct (get row "price"); simpl in Hamt; congruence. }
    intros H. injection H as <- _. reflexivity.
Qed.

(** What a call that raises has met. *)
Lemma product_from_row_errors (E : externals) (today : date) (row : gmap string string)
    (d d' : database) (e : exn) :
  product_from_row E today row d = (Raise e, d') ->
  is_code_valid E (get row "code") = true /\
  ((e = MultipleObjectsReturned /\ 2 <= length (select (get row "code") 0 (products d))) \/
   (is_cell_error e = true /\ length (select (get row "code") 0 (products d)) <= 1)).
Proof.
  unfold product_from_row, commit_on_success.
  destruct (is_code_valid E (get row "code")); [|discriminate].
  intros Hrun. split; [reflexivity|].
  unfold seq at 1 in Hrun.
  destruct (get_or_create E (get row "code") d) as [[[[pk p0] created]|e0] d0] eqn:Hget.
  - right.
    assert (Hlen : length (select (get row "code") 0 (products d)) <= 1).
    { apply get_or_create_Ok in Hget as [_ [(_ & -> & _)|(_ & -> & _)]]; simpl; lia. }
    split; [|exact Hlen].
    unfold seq at 1 in Hrun. unfold lift at 1 in Hrun.
    destruct (update_product row created p0) as [p|e1] eqn:Hup.
    + unfold seq at 1 in Hrun. unfold save, modify in Hrun.
      unfold seq at 1 in Hrun. unfold lift at 1 in Hrun.
      destruct (price_date today row) as [dt|e2] eqn:Hdt.
      * unfold seq at 1 in Hrun.
        destruct (create_price row dt pk _) as [[[]|e3] d3] eqn:Hcr.
        -- discriminate Hrun.
        -- injection Hrun as <- _. apply create_price_error in Hcr as ->. reflexivity.
      * injection Hrun as <- _. eapply price_date_error. exact Hdt.
    + injection Hrun as <- _. eapply update_product_error. exact Hup.
  - left. injection Hrun as <- _.
    apply get_or_create_Raise in Hget. exact Hget.
Qed.

(** X6: with unique codes before a call, the codes are unique after it and
    the call does not raise MultipleObjectsReturned. *)
Theorem unique_codes_are_kept (E : externals) (today : date) (row : gmap string string)
    (d : database) :
  NoDup (codes d) ->
  NoDup (codes (snd (product_from_row E today row d))) /\
  fst (product_from_row E today row d) <> Raise MultipleObjectsReturned.
Proof.
  intros Hnd. destruct (product_from_row E today row d) as [r d'] eqn:Hrun. simpl. split.
  - apply product_from_row_codes in Hrun as [->|[Hnew ->]]; [exact Hnd|].
    apply NoDup_app. split; [exact Hnd|]. split.
    + intros c Hc Hin. apply list_elem_of_singleton in Hin as ->. contradiction.
    + apply NoDup_singleton.
  - intros ->. apply product_from_row_errors in Hrun as [_ [[_ Hlen]|[He _]]].
    + pose proof (select_unique (get row "code") (products d) 0 Hnd). lia.
    + discriminate He.
Qed.

Lemma unique_codes_are_kept_witness :
  NoDup (codes (snd (product_from_row Sample.E Sample.today (dict_zip keys Sample.blank)
                       Sample.with_rye))) /\
  fst (product_from_row Sample.E Sample.today (dict_zip keys Sample.blank) Sample.with_rye)
  <> Raise MultipleObjectsReturned.
Proof.
  apply (unique_codes_are_kept Sample.E Sample.today (dict_zip keys Sample.blank)
           Sample.with_rye).
  apply NoDup_singleton.
Defined.

(** X7: MultipleObjectsReturned is raised exactly for a valid code that at
    least two stored products have; IntegrityError never leaves the call. *)
Theorem multiple_objects_exactly_for_shared_codes (E : externals) (today : date)
    (row : gmap string string) (d : database) :
  (fst (product_from_row E today row d) = Raise MultipleObjectsReturned <->
   is_code_valid E (get row "code") = true /\
   2 <= length (select (get row "code") 0 (products d))) /\
  fst (product_from_row E today row d) <> Raise IntegrityError.
Proof.
  split; [split|].
  - destruct (product_from_row E today row d) as [r d'] eqn:Hrun. simpl. intros ->.
    apply product_from_row_errors in Hrun as [Hv [[_ Hlen]|[He _]]]; [auto|discriminate He].
  - intros [Hv Hlen]. unfold product_from_row, commit_on_success. rewrite Hv.
    unfold seq at 1. unfold get_or_create.
    destruct (select (get row "code") 0 (products d)) as [|x [|y rest]];
      simpl in Hlen; try lia. reflexivity.
  - destruct (product_from_row E today row d) as [r d'] eqn:Hrun. simpl. intros ->.
    apply product_from_row_errors in Hrun as [_ [[He _]|[He _]]]; discriminate He.
Qed.

End RowErrors.

(** ** A second row for the same product and date *)
Section SameProductAndDate.

(** C4: after an import that returned a product, a row with the same code
    whose effective date is the same (whatever else it holds, a new price
    included) adds no price and does not raise IntegrityError: the
    duplicate is passed over. If its cells can be read, the call returns
    that product with created = False and only the product's row is written;
    for the same row again nothing changes at all. *)
Theorem second_import_adds_no_price (E : externals) (t1 t2 : date)
    (row1 row2 : gmap string string) (d d1 : database) (pk : nat) (p : Product.t)
    (created : bool) :
  product_from_row E t1 row1 d = (Ok (Some (pk, p), created), d1) ->
  get row2 "code" = get row1 "code" ->
  price_date t2 row2 = price_date t1 row1 ->
  prices (snd (product_from_row E t2 row2 d1)) = prices d1 /\
  fst (product_from_row E t2 row2 d1) <> Raise IntegrityError /\
  (forall p2 amt,
      update_product row2 false p = Ok p2 ->
      price_amount (get row2 "price") = Ok amt ->
      product_from_row E t2 row2 d1
      = (Ok (Some (pk, p2), false), set_products (fun t => <[pk := p2]> t) d1)) /\
  (row2 = row1 -> product_from_row E t2 row2 d1 = (Ok (Some (pk, p), false), d1)).
Proof.
  intros Hfirst Hcode Hsame.
  apply product_from_row_leaves in Hfirst
    as (Hvalid & Hsel & (c0 & p0 & Hup) & dt & amt1 & q & Hdt & Hamt1 & Hq).
  rewrite <- Hsame in Hdt. rewrite <- Hcode in Hvalid, Hsel.
  assert (Hpass : forall p2 amt,
             update_product row2 false p = Ok p2 ->
             price_amount (get row2 "price") = Ok amt ->
             product_from_row E t2 row2 d1
             = (Ok (Some (pk, p2), false), set_products (fun t => <[pk := p2]> t) d1)).
  { intros p2 amt Hup2 Hamt.
    exact (existing_price_is_passed_over E t2 row2 d1 pk p p2 dt amt Hvalid Hsel Hup2 Hdt
             Hamt (ex_intro _ q Hq)). }
  split; [|split; [|split; [exact Hpass|]]].
  - destruct (product_from_row E t2 row2 d1) as [[r|e] d'] eqn:Hrun; simpl.
    + apply product_from_row_Ok in Hrun as [(Hv & _)|(_ & Hex)]; [congruence|].
      destruct Hex as (pk' & p0' & p2 & c' & d0 & dt' & _ & Hget & Hup2 & _ & Hcr).
      apply get_or_create_Ok in Hget as [_ [(_ & Hnil & _)|(-> & Hone & ->)]];
        [rewrite Hsel in Hnil; discriminate Hnil|].
      rewrite Hsel in Hone. injection Hone as <- <-.
      apply create_price_Ok in Hcr as (amt & Hamt & _).
      pose proof (Hpass p2 amt Hup2 Hamt) as Heq.
      assert (Hd' : d' = set_products (fun t => <[pk := p2]> t) d1).
      { destruct (product_from_row E t2 row2 d1) as [r0 d0'] eqn:Hagain.
        injection Heq as _ <-.
        unfold product_from_row, commit_on_success in Hagain. reflexivity. }
      rewrite Hd'. reflexivity.
    + apply product_from_row_Raise in Hrun. rewrite Hrun. reflexivity.
  - intros Hraise.
    destruct (product_from_row E t2 row2 d1) as [r d'] eqn:Hrun. simpl in Hraise. subst r.
    apply product_from_row_errors in Hrun as [_ [[He _]|[He _]]]; discriminate He.
  - intros ->.
    rewrite (Hpass p amt1 (update_product_again _ _ _ _ Hup) Hamt1).
    f_equal. destruct d1 as [ps prs sts]. unfold set_products. simpl. f_equal.
    apply list_insert_id.
    assert (Hin : (pk, p) ∈ select (get row1 "code") 0 ps)
      by (simpl in Hsel; rewrite Hsel; left).
    apply select_lookup in Hin as (_ & Hl & _). rewrite Nat.sub_0_r in Hl. exact Hl.
Qed.

Lemma second_import_adds_no_price_witness :
  prices (snd (product_from_row Sample.E Sample.later (dict_zip keys Sample.repriced)
                 Sample.with_rye)) = prices Sample.with_rye /\
  fst (product_from_row Sample.E Sample.later (dict_zip keys Sample.repriced) Sample.with_rye)
  <> Raise IntegrityError /\
  (forall p2 amt,
      update_product (dict_zip keys Sample.repriced) false Sample.rye_product = Ok p2 ->
      price_amount (get (dict_zip keys Sample.repriced) "price") = Ok amt ->
      product_from_row Sample.E Sample.later (dict_zip keys Sample.repriced) Sample.with_rye
      = (Ok (Some (0%nat, p2), false),
         set_products (fun t => <[0%nat := p2]> t) Sample.with_rye)) /\
  (dict_zip keys Sample.repriced = dict_zip keys Sample.rye ->
   product_from_row Sample.E Sample.later (dict_zip keys Sample.repriced) Sample.with_rye
   = (Ok (Some (0%nat, Sample.rye_product), false), Sample.with_rye)).
Proof.
  apply (second_import_adds_no_price Sample.E Sample.today Sample.later
           (dict_zip keys Sample.rye) (dict_zip keys Sample.repriced)
           Sample.empty Sample.with_rye 0 Sample.rye_product true).
  - vm_compute. reflexivity.
  - vm_compute. reflexivity.
  - vm_compute. reflexivity.
Defined.

(** The same product and date at another price: the second row is passed
    over, and the stored price stays the first. *)
Example repriced_row_is_passed_over :
  product_from_row Sample.E Sample.later (dict_zip keys Sample.repriced) Sample.with_rye
  = (Ok (Some (0%nat, Sample.rye_product), false), Sample.with_rye).
Proof. vm_compute. reflexivity. Qed.

End SameProductAndDate.

(** ** What the row writes into the product *)
Section Merge.

Lemma assign_age_other (a : value) (p p' : Product.t) :
  assign_age a p = Ok p' ->
  Product.status p' = Product.status p /\ Product.size p' = Product.size p /\
  Product.proof p' = Product.proof p /\
  Product.bottles_per_case p' = Product.bottles_per_case p.
Proof.
  intros H. apply assign_age_shape in H as [[-> _]|(v & -> & _)]; auto.
Qed.

(** Each attribute after [update_product]: the row's cell when it is not
    blank, the attribute as it was otherwise. *)
Lemma update_product_attributes (row : gmap string string) (created : bool)
    (p p' : Product.t) :
  update_product row created p = Ok p' ->
  Product.status p'
  = (if truthy (get row "status") then get row "status" else Product.status p) /\
  Product.size p'
  = (if truthy (get row "size") then get row "size" else Product.size p) /\
  Product.proof p'
  = (if truthy (get row "proof") then get row "proof" else Product.proof p) /\
  (if truthy (get row "per_case")
   then exists n, float_of (get row "per_case") ≫= py_int = Ok n
                  /\ Product.bottles_per_case p' = VInt n
   else Product.bottles_per_case p' = Product.bottles_per_case p) /\
  (truthy (get row "age") = false -> Product.age p' = Product.age p).
Proof.
  unfold update_product.
  destruct (truthy (get row "per_case")).
  - destruct (float_of (get row "per_case") ≫= py_int) as [n|e]; simpl; [|discriminate].
    destruct (truthy (get row "age")).
    + intros H. apply assign_age_other in H as (-> & -> & -> & ->).
      destruct created, (truthy (get row "status")), (truthy (get row "size")),
        (truthy (get row "proof")); simpl; repeat split; eauto; discriminate.
    + intros H. injection H as <-.
      destruct created, (truthy (get row "status")), (truthy (get row "size")),
        (truthy (get row "proof")); simpl; repeat split; eauto.
  - simpl. destruct (truthy (get row "age")).
    + intros H. apply assign_age_other in H as (-> & -> & -> & ->).
      destruct created, (truthy (get row "status")), (truthy (get row "size")),
        (truthy (get row "proof")); simpl; repeat split; eauto; discriminate.
    + intros H. injection H as <-.
      destruct created, (truthy (get row "status")), (truthy (get row "size")),
        (truthy (get row "proof")); simpl; repeat split; eauto.
Qed.

(** X8: on a product that exists, status, size and proof become the row's
    cell when it is not blank and stay as stored when it is; bottles_per_case
    becomes int(float(per_case)) or stays; a blank age keeps the age. *)
Theorem blank_cells_keep_stored_attributes (E : externals) (today : date)
    (row : gmap string string) (d d' : database) (pk : nat) (p' : Product.t) :
  product_from_row E today row d = (Ok (Some (pk, p'), false), d') ->
  exists p,
    products d !! pk = Some p /\ products d' !! pk = Some p' /\
    Product.status p'
    = (if truthy (get row "status") then get row "status" else Product.status p) /\
    Product.size p'
    = (if truthy (get row "size") then get row "size" else Product.size p) /\
    Product.proof p'
    = (if truthy (get row "proof") then get row "proof" else Product.proof p) /\
    (if truthy (get row "per_case")
     then exists n, float_of (get row "per_case") ≫= py_int = Ok n
                    /\ Product.bottles_per_case p' = VInt n
     else Product.bottles_per_case p' = Product.bottles_per_case p) /\
    (truthy (get row "age") = false -> Product.age p' = Product.age p).
Proof.
  intros Hrun.
  apply product_from_row_Ok in Hrun as [(_ & Hr & _)|(_ & Hex)]; [discriminate Hr|].
  destruct Hex as (pk' & p0 & p1 & c' & d0 & dt & Hr & Hget & Hup & _ & Hcr).
  injection Hr as <- <- <-.
  apply create_price_products in Hcr. simpl in Hcr.
  apply get_or_create_Ok in Hget as [_ [(Hf & _)|(_ & Hsel & ->)]]; [discriminate Hf|].
  assert (Hin : (pk, p0) ∈ select (get row "code") 0 (products d)) by (rewrite Hsel; left).
  apply select_lookup in Hin as (_ & Hl & _). rewrite Nat.sub_0_r in Hl.
  exists p0. split; [exact Hl|]. split.
  - rewrite Hcr. apply list_lookup_insert_eq. eapply lookup_lt_Some. exact Hl.
  - apply update_product_attributes in Hup. exact Hup.
Qed.

Lemma blank_cells_keep_stored_attributes_witness :
  exists p,
    products Sample.with_rye !! 0%nat = Some p /\
    products Sample.after_blank !! 0%nat = Some Sample.relisted /\
    Product.status Sample.relisted
    = (if truthy (get (dict_zip keys Sample.blank) "status")
       then get (dict_zip keys Sample.blank) "status" else Product.status p) /\
    Product.size Sample.relisted
    = (if truthy (get (dict_zip keys Sample.blank) "size")
       then get (dict_zip keys Sample.blank) "size" else Product.size p) /\
    Product.proof Sample.relisted
    = (if truthy (get (dict_zip keys Sample.blank) "proof")
       then get (dict_zip keys Sample.blank) "proof" else Product.proof p) /\
    (if truthy (get (dict_zip keys Sample.blank) "per_case")
     then exists n, float_of (get (dict_zip keys Sample.blank) "per_case") ≫= py_int = Ok n
                    /\ Product.bottles_per_case Sample.relisted = VInt n
     else Product.bottles_per_case Sample.relisted = Product.bottles_per_case p) /\
    (truthy (get (dict_zip keys Sample.blank) "age") = false ->
     Product.age Sample.relisted = Product.age p).
Proof.
  apply (blank_cells_keep_stored_attributes Sample.E Sample.today (dict_zip keys Sample.blank)
           Sample.with_rye Sample.after_blank 0 Sample.relisted).
  vm_compute. reflexivity.
Defined.

End Merge.

(** ** The prices in the table *)
Section Prices.

Lemma date_new_valid (y m dd : Z) (dt : date) :
  date_new y m dd = Ok dt -> valid_date dt = true.
Proof.
  unfold date_new, valid_date.
  destruct (negb (fits_c_int y && fits_c_int m && fits_c_int dd)); [discriminate|].
  destruct ((MINYEAR <=? y)%Z && (y <=? MAXYEAR)%Z) eqn:Hy; [|discriminate].
  destruct ((1 <=? m)%Z && (m <=? 12)%Z) eqn:Hm; [|discriminate].
  destruct ((1 <=? dd)%Z && (dd <=? days_in_month y m)%Z) eqn:Hd; [|discriminate].
  simpl. intros H. injection H as <-. simpl.
  apply andb_true_iff in Hy as [-> ->]. apply andb_true_iff in Hm as [-> ->].
  apply andb_true_iff in Hd as [-> ->]. reflexivity.
Qed.

(** Whatever the row and the clock say, a date that is found is a date of
    the calendar. *)
Lemma price_date_valid (today : date) (row : gmap string string) (dt : date) :
  price_date today row = Ok dt -> valid_date dt = true.
Proof.
  unfold price_date. destruct (date_source_of row).
  - destruct (as_str (get row "price_effective_date")) as [s|e]; simpl; [|discriminate].
    unfold strptime_mdY. destruct (re_match re_mdY s) as [[[[m dd] y] rest]|]; [|discriminate].
    destruct rest; [apply date_new_valid|discriminate].
  - destruct (float_of (get row "year") ≫= py_int) as [y|e]; simpl; [|discriminate].
    destruct (float_of (get row "month") ≫= py_int) as [m|e]; simpl; [|discriminate].
    apply date_new_valid.
  - unfold next_month.
    destruct (date_new (year today) (month today + 1) 1) as [d1|e] eqn:Hd.
    + intros H. injection H as <-. eapply date_new_valid. exact Hd.
    + destruct e; try discriminate.
      destruct (month today =? 12)%Z; [apply date_new_valid|discriminate].
Qed.

Lemma price_amount_chars (v : value) (amt : string) :
  price_amount v = Ok amt -> forallb price_char (list_ascii_of_string amt) = true.
Proof.
  unfold price_amount. destruct v as [| | |s]; simpl; try discriminate.
  intros H. injection H as <-. rewrite re_sub_cls_deletes.
  apply forallb_forall. intros c Hc. apply filter_In in Hc as [_ Hc]. exact Hc.
Qed.

(** X9: if every stored price has a date of the calendar and an amount of
    digits and dots only, so has every price after a call. *)
Theorem prices_stay_well_formed (E : externals) (today : date) (row : gmap string string)
    (d : database) :
  forallb well_formed_price (prices d) = true ->
  forallb well_formed_price (prices (snd (product_from_row E today row d))) = true.
Proof.
  intros Hd. destruct (product_from_row E today row d) as [r d'] eqn:Hrun. simpl.
  apply product_from_row_tables in Hrun as [->|Hex]; [exact Hd|].
  destruct Hex as (pk & p & created & dt & _ & _ & Hdt & _ & _ & [->|(amt & Hamt & _ & ->)]);
    [exact Hd|].
  rewrite forallb_app, Hd. simpl. unfold well_formed_price. simpl.
  rewrite (price_date_valid _ _ _ Hdt), (price_amount_chars _ _ Hamt). reflexivity.
Qed.

Lemma prices_stay_well_formed_witness :
  forallb well_formed_price
    (prices (snd (product_from_row Sample.E Sample.today (dict_zip keys Sample.blank)
                    Sample.with_rye))) = true.
Proof.
  apply (prices_stay_well_formed Sample.E Sample.today (dict_zip keys Sample.blank)
           Sample.with_rye).
  vm_compute. reflexivity.
Defined.

End Prices.

(** ** Columns and keys *)
Section Columns.

Lemma foldl_insert_lookup_other (k : string) (kvs : list (string * string))
    (m : gmap string string) :
  k ∉ kvs.*1 ->
  foldl (fun m kv => <[fst kv := snd kv]> m) m kvs !! k = m !! k.
Proof.
  revert m. induction kvs as [|[k0 v0] kvs IH]; intros m Hk; simpl; [reflexivity|].
  simpl in Hk. apply not_elem_of_cons in Hk as [Hne Hk].
  rewrite IH by exact Hk. apply lookup_insert_ne. simpl. congruence.
Qed.

Lemma foldl_zip_lookup (ks vs : list string) (i : nat) (k : string)
    (m : gmap string string) :
  NoDup ks -> ks !! i = Some k -> m !! k = None ->
  foldl (fun m kv => <[fst kv := snd kv]> m) m (zip ks vs) !! k = vs !! i.
Proof.
  revert vs i m. induction ks as [|k0 ks IH]; intros vs i m Hnd Hi Hm; [discriminate Hi|].
  apply NoDup_cons in Hnd as [Hk0 Hnd].
  destruct vs as [|v vs]; [simpl; rewrite Hm; destruct i; reflexivity|].
  simpl. destruct i as [|i]; simpl in Hi.
  - injection Hi as ->. rewrite foldl_insert_lookup_other.
    + simpl. apply lookup_insert_eq.
    + intros Hin. apply Hk0. eapply fst_zip_subseteq. exact Hin.
  - change ((v :: vs) !! S i) with (vs !! i).
    apply IH; [exact Hnd|exact Hi|].
    rewrite lookup_insert_ne; [exact Hm|]. simpl.
    intros ->. apply Hk0. eapply list_elem_of_lookup_2. exact Hi.
Qed.

Lemma keys_NoDup : NoDup keys.
Proof.
  unfold keys.
  repeat (apply NoDup_cons; split;
          [intros H; repeat (apply elem_of_cons in H as [H|H]; [discriminate H|]);
           apply elem_of_nil in H; exact H|]).
  apply NoDup_nil. exact I.
Qed.

(** X10: the dict of a row holds the i-th value under the i-th key, and
    nothing under the keys the row is too short for. *)
Theorem columns_are_read_by_position (values : list string) (i : nat) (k : string) :
  keys !! i = Some k ->
  get (dict_zip keys values) k
  = match values !! i with Some v => VStr v | None => VNone end.
Proof.
  intros Hi. unfold get, dict_zip.
  rewrite (foldl_zip_lookup keys values i k ∅ keys_NoDup Hi (lookup_empty k)).
  reflexivity.
Qed.

Lemma columns_are_read_by_position_witness :
  get (dict_zip keys ["1234"; "A"; "Rye"]) "title"
  = match ["1234"; "A"; "Rye"] !! 2%nat with Some v => VStr v | None => VNone end.
Proof.
  apply (columns_are_read_by_position ["1234"; "A"; "Rye"] 2 "title").
  reflexivity.
Defined.

End Columns.

(** ** The row loop of the price imports *)
Section RowLoop.

(** The four ways a row can end, read off [import_product]. *)
Lemma import_product_skipped (E : externals) (self : self) (today : date)
    (obj : gmap string string) (count : nat) (w : world) (created : bool) (d' : database) :
  product_from_row E today obj (db w) = (Ok (None, created), d') ->
  import_product E self today obj count w = (Ok count, World d' (out w) (trace w)).
Proof.
  intros Hrun. unfold import_product, try_except. unfold seq at 1. unfold on_db.
  rewrite Hrun. reflexivity.
Qed.

Lemma import_product_counted (E : externals) (self : self) (today : date)
    (obj : gmap string string) (count : nat) (w : world) (pk : nat) (p : Product.t)
    (created : bool) (d' : database) :
  product_from_row E today obj (db w) = (Ok (Some (pk, p), created), d') ->
  import_product E self today obj count w
  = (Ok (S count),
     World d'
       (if truthy (quiet self) then out w
        else out w ++ [(("[" ++ py_str (Product.code p) ++ "]: "
                           ++ py_str (Product.title p)) ++ nl)%string])%list
       (trace w)).
Proof.
  intros Hrun. unfold import_product, try_except. unfold seq at 1. unfold on_db.
  rewrite Hrun. unfold seq, uprint, when, write, modify, ret.
  destruct (truthy (quiet self)); reflexivity.
Qed.

Lemma import_product_reported (E : externals) (self : self) (today : date)
    (obj : gmap string string) (count : nat) (w : world) (c : string) (d' : database) :
  product_from_row E today obj (db w) = (Raise MultipleObjectsReturned, d') ->
  obj !! "code" = Some c ->
  import_product E self today obj count w
  = (Ok count,
     World d'
       (out w ++ [(("Product code '" ++ c ++ "' returned multiple results!") ++ nl)%string])%list
       (trace w)).
Proof.
  intros Hrun Hc. unfold import_product, try_except. unfold seq at 1. unfold on_db.
  rewrite Hrun, Hc. reflexivity.
Qed.

Lemma import_product_raised (E : externals) (self : self) (today : date)
    (obj : gmap string string) (count : nat) (w : world) (e : exn) (d' : database) :
  product_from_row E today obj (db w) = (Raise e, d') ->
  e <> MultipleObjectsReturned ->
  import_product E self today obj count w = (Raise e, World d' (out w) (trace w)).
Proof.
  intros Hrun He. unfold import_product, try_except. unfold seq at 1. unfold on_db.
  rewrite Hrun. destruct e; try reflexivity. contradiction.
Qed.

Lemma world_eta (w : world) : World (db w) (out w) (trace w) = w.
Proof. destruct w. reflexivity. Qed.

Lemma first_column_is_code (v : string) (vs : list string) :
  dict_zip keys (v :: vs) !! "code" = Some v.
Proof.
  unfold dict_zip. apply (foldl_zip_lookup keys (v :: vs) 0 "code" ∅ keys_NoDup eq_refl).
  apply lookup_empty.
Qed.

(** X11: a row whose valid code two stored products share prints the
    'returned multiple results' line, even when quiet, changes no table and
    no count, and the import goes on with the next row. *)
Theorem shared_code_is_reported_and_passed (E : externals) (self : self) (today : date)
    (v : string) (vs : list string) (rest : list (list string)) (count : nat) (w : world) :
  is_code_valid E (VStr (strip v)) = true ->
  2 <= length (select (VStr (strip v)) 0 (products (db w))) ->
  csv_rows E self today ((v :: vs) :: rest) count w
  = csv_rows E self today rest count
      (World (db w)
         (out w ++ [(("Product code '" ++ strip v
                        ++ "' returned multiple results!") ++ nl)%string])%list
         (trace w)).
Proof.
  intros Hvalid Hlen. cbn [csv_rows length Nat.eqb map].
  pose proof (first_column_is_code (strip v) (map strip vs)) as Hcode.
  assert (Hget : get (dict_zip keys (strip v :: map strip vs)) "code" = VStr (strip v))
    by (unfold get; rewrite Hcode; reflexivity).
  assert (Hrun : product_from_row E today (dict_zip keys (strip v :: map strip vs)) (db w)
                 = (Raise MultipleObjectsReturned, db w)).
  { unfold product_from_row, commit_on_success. rewrite Hget, Hvalid.
    unfold seq at 1. unfold get_or_create.
    destruct (select (VStr (strip v)) 0 (products (db w))) as [|x [|y l]];
      simpl in Hlen; try lia. reflexivity. }
  unfold seq at 1.
  rewrite (import_product_reported E self today _ count w (strip v) (db w) Hrun Hcode).
  reflexivity.
Qed.

Lemma shared_code_is_reported_and_passed_witness :
  csv_rows Sample.E Sample.hushed Sample.today [["1234 "; "A"]] 0 Sample.doubled
  = csv_rows Sample.E Sample.hushed Sample.today [] 0
      (World (db Sample.doubled)
         (out Sample.doubled
            ++ [(("Product code '" ++ strip "1234 "
                    ++ "' returned multiple results!") ++ nl)%string])%list
         (trace Sample.doubled)).
Proof.
  apply (shared_code_is_reported_and_passed Sample.E Sample.hushed Sample.today "1234 " ["A"]
           [] 0 Sample.doubled).
  - vm_compute. reflexivity.
  - vm_compute. lia.
Defined.

(** A row whose code is not valid, and an empty row, leave the world as it
    is. *)
Lemma csv_row_without_code (E : externals) (self : self) (today : date)
    (row : list string) (rest : list (list string)) (count : nat) (w : world) :
  row = [] \/ is_code_valid E (get (dict_zip keys (map strip row)) "code") = false ->
  csv_rows E self today (row :: rest) count w = csv_rows E self today rest count w.
Proof.
  intros [->|Hcode]; [reflexivity|].
  destruct row as [|v vs]; [reflexivity|].
  cbn [csv_rows length Nat.eqb]. unfold seq at 1.
  assert (Hrun : product_from_row E today (dict_zip keys (map strip (v :: vs))) (db w)
                 = (Ok (None, false), db w)).
  { unfold product_from_row, commit_on_success. rewrite Hcode. reflexivity. }
  rewrite (import_product_skipped E self today _ count w false (db w) Hrun), world_eta.
  reflexivity.
Qed.

(** X12: a file whose rows are empty or have no valid code changes no
    table; unless quiet, the run prints a count of 0 and the hint about the
    import type. *)
Theorem file_without_valid_codes_imports_nothing (E : externals) (self : self)
    (today : date) (csvreader : list (list string)) (w : world) :
  Forall (fun row => row = [] \/
                     is_code_valid E (get (dict_zip keys (map strip row)) "code") = false)
         csvreader ->
  import_csv_prices E self today csvreader w
  = (Ok tt,
     World (db w)
       (if truthy (quiet self) then out w
        else out w ++ [((nl ++ "Imported '0' new product records and/or prices!") ++ nl)%string;
                       ((nl ++ "Did you specify the correct import type?") ++ nl)%string])%list
       (trace w)).
Proof.
  intros Hrows. unfold import_csv_prices. unfold seq at 1.
  assert (Hloop : csv_rows E self today csvreader 0 w = (Ok 0, w)).
  { induction Hrows as [|row rest Hrow _ IH]; [reflexivity|].
    rewrite csv_row_without_code by exact Hrow. exact IH. }
  rewrite Hloop. unfold report, seq, uprint, when, write, modify, ret.
  destruct (truthy (quiet self)); simpl.
  - rewrite world_eta. reflexivity.
  - rewrite <- app_assoc. reflexivity.
Qed.

Lemma file_without_valid_codes_imports_nothing_witness :
  import_csv_prices Sample.E Sample.loud Sample.today [["Item Code"; "Status"]; []]
    Sample.start
  = (Ok tt,
     World (db Sample.start)
       (if truthy (quiet Sample.loud) then out Sample.start
        else out Sample.start
               ++ [((nl ++ "Imported '0' new product records and/or prices!") ++ nl)%string;
                   ((nl ++ "Did you specify the correct import type?") ++ nl)%string])%list
       (trace Sample.start)).
Proof.
  apply (file_without_valid_codes_imports_nothing Sample.E Sample.loud Sample.today
           [["Item Code"; "Status"]; []] Sample.start).
  constructor; [right; vm_compute; reflexivity|].
  constructor; [left; reflexivity|].
  constructor.
Defined.

End RowLoop.

(** ** Spreadsheets of prices *)
Section Sheets.

Lemma str_strip_all_text (E : externals) (row : list string) :
  forallb is_ascii row = true ->
  str_strip_all E (map CText row) = Ok (map strip row).
Proof.
  induction row as [|s row IH]; intros Hrow; [reflexivity|].
  simpl in Hrow. apply andb_true_iff in Hrow as [Hs Hrow].
  simpl. unfold is_ascii in Hs. rewrite Hs. simpl. rewrite (IH Hrow). reflexivity.
Qed.

Lemma str_strip_all_unencodable (E : externals) (cells : list cell) :
  existsb unencodable cells = true -> str_strip_all E cells = Raise UnicodeEncodeError.
Proof.
  induction cells as [|c cells IH]; intros Hc; [discriminate Hc|].
  simpl in Hc. simpl. destruct c as [s|x|z]; simpl in *.
  - unfold is_ascii in Hc.
    destruct (forallb _ (list_ascii_of_string s)); simpl in *; [|reflexivity].
    rewrite (IH Hc). reflexivity.
  - rewrite (IH Hc). reflexivity.
  - rewrite (IH Hc). reflexivity.
Qed.

(** X14: a sheet whose first row has a text cell outside ASCII raises
    UnicodeEncodeError before anything is stored or printed. *)
Theorem text_outside_ascii_stops_the_sheet (E : externals) (self : self) (today : date)
    (values : list cell) (rest : list (list cell)) (w : world) :
  existsb unencodable values = true ->
  import_prices E self today (values :: rest) w = (Raise UnicodeEncodeError, w).
Proof.
  intros Hc. unfold import_prices. unfold seq at 1. cbn [sheet_rows].
  unfold seq at 1. unfold lift at 1.
  rewrite (str_strip_all_unencodable E values Hc). reflexivity.
Qed.

Lemma text_outside_ascii_stops_the_sheet_witness :
  import_prices Sample.E Sample.loud Sample.today [Sample.cafe] Sample.start
  = (Raise UnicodeEncodeError, Sample.start).
Proof.
  apply (text_outside_ascii_stops_the_sheet Sample.E Sample.loud Sample.today Sample.cafe []
           Sample.start).
  vm_compute. reflexivity.
Defined.

(** X15: a sheet of non-empty rows of ASCII text is imported exactly as
    the CSV file with the same rows. *)
Theorem text_sheet_is_read_like_csv (E : externals) (self : self) (today : date)
    (rows : list (list string)) (w : world) :
  forallb (fun row => negb (length row =? 0)%nat && forallb is_ascii row) rows = true ->
  import_prices E self today (map (map CText) rows) w
  = import_csv_prices E self today rows w.
Proof.
  intros Hrows. unfold import_prices, import_csv_prices.
  assert (Hloop : forall count w,
             sheet_rows E self today (map (map CText) rows) count w
             = csv_rows E self today rows count w).
  { induction rows as [|row rest IH]; intros count w0; [reflexivity|].
    simpl in Hrows. apply andb_true_iff in Hrows as [Hrow Hrest].
    apply andb_true_iff in Hrow as [Hlen Hascii].
    cbn [map sheet_rows csv_rows]. apply negb_true_iff in Hlen. rewrite Hlen.
    unfold seq at 1. unfold lift at 1. rewrite (str_strip_all_text E row Hascii).
    unfold seq.
    destruct (import_product E self today _ count w0) as [[count'|e] w']; [|reflexivity].
    apply IH. exact Hrest. }
  unfold seq. rewrite Hloop. reflexivity.
Qed.

Lemma text_sheet_is_read_like_csv_witness :
  import_prices Sample.E Sample.loud Sample.today (map (map CText) [Sample.rye; Sample.blank])
    Sample.start
  = import_csv_prices Sample.E Sample.loud Sample.today [Sample.rye; Sample.blank]
      Sample.start.
Proof.
  apply (text_sheet_is_read_like_csv Sample.E Sample.loud Sample.today
           [Sample.rye; Sample.blank] Sample.start).
  vm_compute. reflexivity.
Defined.

End Sheets.

(** ** The --quiet option *)
Section Quiet.

Lemma import_product_quiet (E : externals) (s1 s2 : self) (today : date)
    (obj : gmap string string) (count : nat) (w1 w2 : world) :
  same_but_out w1 w2 ->
  fst (import_product E s1 today obj count w1) = fst (import_product E s2 today obj count w2)
  /\ same_but_out (snd (import_product E s1 today obj count w1))
                  (snd (import_product E s2 today obj count w2)).
Proof.
  intros [Hdb Htr]. unfold import_product, try_except, seq, on_db.
  rewrite <- Hdb.
  destruct (product_from_row E today obj (db w1)) as [[[[[pk p]|] created]|e] d'].
  - unfold uprint, when, write, modify, ret, same_but_out.
    destruct (negb (truthy (quiet s1))), (negb (truthy (quiet s2))); simpl; auto.
  - unfold ret, same_but_out. simpl. auto.
  - destruct e; unfold same_but_out; simpl; auto.
    destruct (obj !! "code"); unfold print, write, modify, ret, raise; simpl; auto.
Qed.

Lemma csv_rows_quiet (E : externals) (s1 s2 : self) (today : date)
    (rows : list (list string)) (count : nat) (w1 w2 : world) :
  same_but_out w1 w2 ->
  fst (csv_rows E s1 today rows count w1) = fst (csv_rows E s2 today rows count w2)
  /\ same_but_out (snd (csv_rows E s1 today rows count w1))
                  (snd (csv_rows E s2 today rows count w2)).
Proof.
  revert count w1 w2. induction rows as [|row rest IH]; intros count w1 w2 Hw.
  - simpl. auto.
  - cbn [csv_rows]. destruct (length row =? 0)%nat; [apply IH; exact Hw|].
    unfold seq.
    destruct (import_product_quiet E s1 s2 today (dict_zip keys (map strip row)) count
                w1 w2 Hw) as [Hr Hw'].
    destruct (import_product E s1 today _ count w1) as [[c1|e1] w1'],
             (import_product E s2 today _ count w2) as [[c2|e2] w2']; simpl in Hr, Hw';
      try discriminate Hr.
    + injection Hr as <-. apply IH. exact Hw'.
    + simpl. auto.
Qed.

Lemma report_quiet (s1 s2 : self) (count : nat) (w1 w2 : world) :
  same_but_out w1 w2 ->
  fst (report s1 count w1) = fst (report s2 count w2)
  /\ same_but_out (snd (report s1 count w1)) (snd (report s2 count w2)).
Proof.
  intros [Hdb Htr]. unfold report, seq, uprint, when, write, modify, ret, same_but_out.
  destruct (negb (truthy (quiet s1))), (negb (truthy (quiet s2))), (count <? 1)%nat;
    simpl; auto.
Qed.

(** X16: two runs that differ only in self.quiet (and self.geocode,
    self.import_type, which the price import does not read) end with the same
    result, the same tables and the same calls: quiet changes the output
    only. *)
Theorem quiet_changes_only_the_output (E : externals) (s1 s2 : self) (today : date)
    (csvreader : list (list string)) (w : world) :
  fst (import_csv_prices E s1 today csvreader w)
  = fst (import_csv_prices E s2 today csvreader w) /\
  db (snd (import_csv_prices E s1 today csvreader w))
  = db (snd (import_csv_prices E s2 today csvreader w)) /\
  trace (snd (import_csv_prices E s1 today csvreader w))
  = trace (snd (import_csv_prices E s2 today csvreader w)).
Proof.
  unfold import_csv_prices, seq.
  destruct (csv_rows_quiet E s1 s2 today csvreader 0 w w (conj eq_refl eq_refl)) as [Hr Hw].
  destruct (csv_rows E s1 today csvreader 0 w) as [[c1|e1] w1],
           (csv_rows E s2 today csvreader 0 w) as [[c2|e2] w2]; simpl in Hr, Hw;
    try discriminate Hr.
  - injection Hr as <-.
    destruct (report_quiet s1 s2 c1 w1 w2 Hw) as [Hr' [Hdb Htr]].
    split; [exact Hr'|]. split; [exact Hdb|exact Htr].
  - injection Hr as <-. destruct Hw as [Hdb Htr]. simpl.
    split; [reflexivity|]. split; [exact Hdb|exact Htr].
Qed.

Lemma printed_refl (w : world) : printed w w.
Proof. exists []. rewrite app_nil_r. split; [reflexivity|constructor]. Qed.

Lemma printed_trans (w1 w2 w3 : world) : printed w1 w2 -> printed w2 w3 -> printed w1 w3.
Proof.
  intros (l1 & H1 & F1) (l2 & H2 & F2). exists (l1 ++ l2)%list.
  rewrite H2, H1, app_assoc. split; [reflexivity|]. apply Forall_app. auto.
Qed.

Lemma import_product_printed (E : externals) (self : self) (today : date)
    (obj : gmap string string) (count : nat) (w : world) :
  truthy (quiet self) = true ->
  printed w (snd (import_product E self today obj count w)).
Proof.
  intros Hq. unfold import_product, try_except, seq, on_db.
  destruct (product_from_row E today obj (db w)) as [[[[[pk p]|] created]|e] d'].
  - unfold uprint, when. rewrite Hq. simpl. exists []. simpl. rewrite app_nil_r.
    split; [reflexivity|constructor].
  - simpl. exists []. simpl. rewrite app_nil_r. split; [reflexivity|constructor].
  - destruct e; simpl; try (exists []; simpl; rewrite app_nil_r; split; [reflexivity|constructor]).
    destruct (obj !! "code") as [c|]; simpl.
    + eexists. split; [reflexivity|]. constructor; [|constructor]. exists c. reflexivity.
    + exists []. simpl. rewrite app_nil_r. split; [reflexivity|constructor].
Qed.

Lemma csv_rows_printed (E : externals) (self : self) (today : date)
    (rows : list (list string)) (count : nat) (w : world) :
  truthy (quiet self) = true ->
  printed w (snd (csv_rows E self today rows count w)).
Proof.
  intros Hq. revert count w. induction rows as [|row rest IH]; intros count w.
  - apply printed_refl.
  - cbn [csv_rows]. destruct (length row =? 0)%nat; [apply IH|].
    unfold seq.
    pose proof (import_product_printed E self today (dict_zip keys (map strip row)) count w Hq)
      as Hp.
    destruct (import_product E self today _ count w) as [[c|e] w']; simpl in Hp.
    + eapply printed_trans; [exact Hp|apply IH].
    + exact Hp.
Qed.

(** X17: a quiet run only appends to the output, and what it appends are
    'returned multiple results' lines. *)
Theorem quiet_run_prints_only_reports (E : externals) (self : self) (today : date)
    (csvreader : list (list string)) (w : world) :
  truthy (quiet self) = true ->
  exists lines,
    out (snd (import_csv_prices E self today csvreader w)) = (out w ++ lines)%list /\
    Forall (fun line =>
              exists c, line = (("Product code '" ++ c
                                  ++ "' returned multiple results!") ++ nl)%string)
           lines.
Proof.
  intros Hq. unfold import_csv_prices, seq.
  pose proof (csv_rows_printed E self today csvreader 0 w Hq) as Hp.
  destruct (csv_rows E self today csvreader 0 w) as [[c|e] w']; simpl in Hp; [|exact Hp].
  destruct Hp as (lines & Hout & Hl). exists lines. split; [|exact Hl].
  unfold report, seq, uprint, when. rewrite Hq. simpl.
  destruct (c <? 1)%nat; exact Hout.
Qed.

Lemma quiet_run_prints_only_reports_witness :
  exists lines,
    out (snd (import_csv_prices Sample.E Sample.hushed Sample.today
                [Sample.rye; Sample.blank] Sample.doubled))
    = (out Sample.doubled ++ lines)%list /\
    Forall (fun line =>
              exists c, line = (("Product code '" ++ c
                                  ++ "' returned multiple results!") ++ nl)%string)
           lines.
Proof.
  apply (quiet_run_prints_only_reports Sample.E Sample.hushed Sample.today
           [Sample.rye; Sample.blank] Sample.doubled).
  reflexivity.
Defined.

End Quiet.

(** ** What a store import saves *)
Section StoresSaved.

Lemma locate_Ok (E : externals) (store s : Store.t) (w w' : world) :
  locate E store w = (Ok s, w') ->
  db w' = match located_by E store with
          | Some s => set_stores (fun t => t ++ [s])%list (db w)
          | None => db w
          end /\
  trace w' = (trace w ++ [Geocode (Store.address_raw store); Sleep])%list.
Proof.
  rewrite locate_cases. unfold located_by.
  destruct (geocode_service E (Store.address_raw store)) as [[address pos]|e].
  - intros H. injection H as _ <-. auto.
  - destruct (is_ValueError e); intros H; [|discriminate H].
    injection H as _ <-. auto.
Qed.

(** X18: with geocode set, a run that returns has saved, in order, the
    store of every numeric row the geocoder answered for, with the stripped
    address and the position it gave; products and prices are untouched; each
    call of the geocoder is followed by a pause. *)
Theorem stores_saved_are_the_located_ones (E : externals) (self : self)
    (sheet : list (list cell)) (w w' : world) :
  truthy (geocode self) = true ->
  import_stores E self sheet w = (Ok tt, w') ->
  products (db w') = products (db w) /\
  prices (db w') = prices (db w) /\
  stores (db w')
  = (stores (db w) ++ omap (located_by E) (map (from_row E) (store_rows sheet)))%list /\
  trace w'
  = (trace w ++ flat_map (fun values =>
                            [Geocode (Store.address_raw (from_row E values)); Sleep])
                         (store_rows sheet))%list.
Proof.
  intros Hon. revert w. induction sheet as [|values rest IH]; intros w; cbn [import_stores].
  - intros H. injection H as <-. cbn. rewrite !app_nil_r. auto.
  - destruct values as [|c cs]; [discriminate|].
    unfold seq at 1. unfold lift at 1. cbn [store_rows List.filter].
    destruct (is_number c).
    + unfold seq at 1. unfold when at 1. rewrite Hon. unfold seq at 1.
      destruct (locate E (from_row E (c :: cs)) w) as [[s|e] w1] eqn:Hloc; [|discriminate].
      apply locate_Ok in Hloc as [Hdb Htr].
      destruct (uprint_trace self (str_store E s) w1) as (w2 & Hpr & Htr2 & Hdb2).
      rewrite Hpr. intros H. apply IH in H as (Hp & Hq & Hs & Ht).
      rewrite Hp, Hq, Hs, Ht, Hdb2, Htr2, Htr, Hdb.
      cbn -[located_by store_rows].
      destruct (located_by E (from_row E (c :: cs))) as [s'|]; cbn -[located_by store_rows];
        rewrite <- ?app_assoc; auto.
    + unfold seq at 1. unfold when at 1. unfold ret at 1. apply IH.
Qed.

Lemma stores_saved_are_the_located_ones_witness :
  products (db (snd (import_stores Sample.E Sample.geocoding Sample.store_sheet Sample.start)))
  = products (db Sample.start) /\
  prices (db (snd (import_stores Sample.E Sample.geocoding Sample.store_sheet Sample.start)))
  = prices (db Sample.start) /\
  stores (db (snd (import_stores Sample.E Sample.geocoding Sample.store_sheet Sample.start)))
  = (stores (db Sample.start)
       ++ omap (located_by Sample.E)
            (map (from_row Sample.E) (store_rows Sample.store_sheet)))%list /\
  trace (snd (import_stores Sample.E Sample.geocoding Sample.store_sheet Sample.start))
  = (trace Sample.start
       ++ flat_map (fun values =>
                      [Geocode (Store.address_raw (from_row Sample.E values)); Sleep])
            (store_rows Sample.store_sheet))%list.
Proof.
  apply (stores_saved_are_the_located_ones Sample.E Sample.geocoding Sample.store_sheet
           Sample.start
           (snd (import_stores Sample.E Sample.geocoding Sample.store_sheet Sample.start))).
  - reflexivity.
  - vm_compute. reflexivity.
Defined.

(** X19: with geocode unset no table changes: a store is only saved
    after it has been geocoded. *)
Theorem nothing_is_saved_without_geocoding (E : externals) (self : self)
    (sheet : list (list cell)) (w : world) :
  truthy (geocode self) = false ->
  db (snd (import_stores E self sheet w)) = db w.
Proof.
  intros Hoff. revert w. induction sheet as [|values rest IH]; intros w; cbn [import_stores].
  - reflexivity.
  - destruct values as [|c cs]; [reflexivity|].
    unfold seq at 1. unfold lift at 1.
    destruct (is_number c).
    + unfold seq at 1. unfold when at 1. rewrite Hoff. unfold seq at 1. unfold ret at 1.
      destruct (uprint_trace self (str_store E (from_row E (c :: cs))) w)
        as (w2 & Hpr & _ & Hdb).
      rewrite Hpr, IH. exact Hdb.
    + unfold seq at 1. unfold when at 1. unfold ret at 1. apply IH.
Qed.

Lemma nothing_is_saved_without_geocoding_witness :
  db (snd (import_stores Sample.E Sample.not_geocoding Sample.store_sheet Sample.start))
  = db Sample.start.
Proof.
  apply (nothing_is_saved_without_geocoding Sample.E Sample.not_geocoding Sample.store_sheet
           Sample.start).
  reflexivity.
Defined.

(** X20: an exception of the geocoder that is not a ValueError (nor one of
    its subclasses, which [except ValueError] catches too) leaves the import
    at that store: nothing is saved or printed for it, no pause is made, the
    rows after it are not read. *)
Theorem geocoder_failure_stops_the_import (E : externals) (self : self) (c : cell)
    (cs : list cell) (rest : list (list cell)) (w : world) (e : exn) :
  is_number c = true ->
  truthy (geocode self) = true ->
  geocode_service E (Store.address_raw (from_row E (c :: cs))) = Raise e ->
  is_ValueError e = false ->
  import_stores E self ((c :: cs) :: rest) w
  = (Raise e,
     World (db w) (out w)
       (trace w ++ [Geocode (Store.address_raw (from_row E (c :: cs)))])%list).
Proof.
  intros Hc Hon Hgeo He. cbn [import_stores].
  unfold seq at 1. unfold lift at 1. rewrite Hc.
  unfold seq at 1. unfold when at 1. rewrite Hon. unfold seq at 1.
  rewrite locate_cases, Hgeo, He. reflexivity.
Qed.

Lemma geocoder_failure_stops_the_import_witness :
  import_stores Sample.offline Sample.geocoding
    [[CFloat (Finite false 42 0); CText "1 Main St"]] Sample.start
  = (Raise KeyError,
     World (db Sample.start) (out Sample.start)
       (trace Sample.start
          ++ [Geocode (Store.address_raw
                         (from_row Sample.offline
                            [CFloat (Finite false 42 0); CText "1 Main St"]))])%list).
Proof.
  apply (geocoder_failure_stops_the_import Sample.offline Sample.geocoding
           (CFloat (Finite false 42 0)) [CText "1 Main St"] [] Sample.start KeyError).
  - reflexivity.
  - reflexivity.
  - reflexivity.
  - reflexivity.
Defined.

(** X13: a store the geocoder answers for is saved with the stripped
    address and the position, a pause is made, and the line printed for it
    is the line of the store as located, not as [from_row] built it; then
    the import goes on. *)
Theorem located_store_is_saved_and_printed (E : externals) (self : self) (c : cell)
    (cs : list cell) (rest : list (list cell)) (w : world) (address : string)
    (pos : float * float) :
  is_number c = true ->
  truthy (geocode self) = true ->
  geocode_service E (Store.address_raw (from_row E (c :: cs))) = Ok (address, pos) ->
  let store := Store.located (strip address) (fst pos) (snd pos) (from_row E (c :: cs)) in
  import_stores E self ((c :: cs) :: rest) w
  = import_stores E self rest
      (World (set_stores (fun t => t ++ [store])%list (db w))
         (if truthy (quiet self) then out w
          else out w ++ [(str_store E store ++ nl)%string])%list
         (trace w ++ [Geocode (Store.address_raw (from_row E (c :: cs))); Sleep])%list).
Proof.
  intros Hc Hon Hgeo store. cbn [import_stores].
  unfold seq at 1. unfold lift at 1. rewrite Hc.
  unfold seq at 1. unfold when at 1. rewrite Hon. unfold seq at 1.
  rewrite locate_cases, Hgeo. fold store.
  unfold uprint, when, write, modify, ret.
  destruct (truthy (quiet self)); reflexivity.
Qed.

Lemma located_store_is_saved_and_printed_witness :
  import_stores Sample.E Sample.geocoding
    [[CFloat (Finite false 42 0); CText "1 Main St"]] Sample.start
  = import_stores Sample.E Sample.geocoding []
      (World (set_stores
                (fun t => t ++ [Store.located (strip "1 Main St")
                                  (fst (Finite false 45 0, Finite true 122 0))
                                  (snd (Finite false 45 0, Finite true 122 0))
                                  (from_row Sample.E
                                     [CFloat (Finite false 42 0); CText "1 Main St"])])%list
                (db Sample.start))
         (if truthy (quiet Sample.geocoding) then out Sample.start
          else out Sample.start
                 ++ [(str_store Sample.E
                        (Store.located (strip "1 Main St")
                           (fst (Finite false 45 0, Finite true 122 0))
                           (snd (Finite false 45 0, Finite true 122 0))
                           (from_row Sample.E
                              [CFloat (Finite false 42 0); CText "1 Main St"]))
                        ++ nl)%string])%list
         (trace Sample.start
            ++ [Geocode (Store.address_raw
                           (from_row Sample.E
                              [CFloat (Finite false 42 0); CText "1 Main St"]));
                Sleep])%list).
Proof.
  apply (located_store_is_saved_and_printed Sample.E Sample.geocoding
           (CFloat (Finite false 42 0)) [CText "1 Main St"] [] Sample.start "1 Main St"
           (Finite false 45 0, Finite true 122 0)).
  - reflexivity.
  - reflexivity.
  - reflexivity.
Defined.

(** X30: a ValueError of the geocoder, or an exception of one of its
    subclasses such as UnicodeEncodeError, is reported with the store's key
    even when quiet; the store is not saved, the pause is made, the store is
    printed as [from_row] built it, and the import goes on. *)
Theorem ambiguous_address_is_reported_and_passed (E : externals) (self : self) (c : cell)
    (cs : list cell) (rest : list (list cell)) (w : world) (e : exn) :
  is_number c = true ->
  truthy (geocode self) = true ->
  geocode_service E (Store.address_raw (from_row E (c :: cs))) = Raise e ->
  is_ValueError e = true ->
  import_stores E self ((c :: cs) :: rest) w
  = import_stores E self rest
      (World (db w)
         (out w
            ++ [(("Multiple addresses returned for store "
                    ++ fmt_cell E (Store.key (from_row E (c :: cs))) ++ "!") ++ nl)%string]
            ++ (if truthy (quiet self) then []
                else [(str_store E (from_row E (c :: cs)) ++ nl)%string]))%list
         (trace w ++ [Geocode (Store.address_raw (from_row E (c :: cs))); Sleep])%list).
Proof.
  intros Hc Hon Hgeo He. cbn [import_stores].
  unfold seq at 1. unfold lift at 1. rewrite Hc.
  unfold seq at 1. unfold when at 1. rewrite Hon. unfold seq at 1.
  rewrite locate_cases, Hgeo, He.
  unfold uprint, when, write, modify, ret.
  destruct (truthy (quiet self)); cbn [negb db out trace];
    rewrite <- ?app_assoc, ?app_nil_r; reflexivity.
Qed.

Lemma ambiguous_address_is_reported_and_passed_witness :
  import_stores Sample.garbled Sample.geocoding
    [[CFloat (Finite false 42 0); CText "1 Main St"]] Sample.start
  = import_stores Sample.garbled Sample.geocoding []
      (World (db Sample.start)
         (out Sample.start
            ++ [(("Multiple addresses returned for store "
                    ++ fmt_cell Sample.garbled
                         (Store.key (from_row Sample.garbled
                                       [CFloat (Finite false 42 0); CText "1 Main St"]))
                    ++ "!") ++ nl)%string]
            ++ (if truthy (quiet Sample.geocoding) then []
                else [(str_store Sample.garbled
                         (from_row Sample.garbled
                            [CFloat (Finite false 42 0); CText "1 Main St"]) ++ nl)%string]))%list
         (trace Sample.start
            ++ [Geocode (Store.address_raw
                           (from_row Sample.garbled
                              [CFloat (Finite false 42 0); CText "1 Main St"]));
                Sleep])%list).
Proof.
  apply (ambiguous_address_is_reported_and_passed Sample.garbled Sample.geocoding
           (CFloat (Finite false 42 0)) [CText "1 Main St"] [] Sample.start
           UnicodeEncodeError).
  - reflexivity.
  - reflexivity.
  - reflexivity.
  - reflexivity.
Defined.

End StoresSaved.

(** ** The options [handle] receives *)
Section ParsedOptions.
Import Options.

Variable P : values -> Prop.
Variable opts : list opt.
Hypothesis P_process :
  forall o v vs vs', o ∈ opts -> P vs -> process o v vs = Ok vs' -> P vs'.

Lemma short_opts_invariant (letters : string) (vs vs' : values) (r : option (opt * string)) :
  P vs -> short_opts opts letters vs = Ok (vs', r) ->
  P vs' /\ forall o t, r = Some (o, t) -> o ∈ opts.
Proof.
  revert vs. induction letters as [|c t IH]; intros vs Hvs; simpl.
  - intros H. injection H as <- <-. split; [exact Hvs|discriminate].
  - destruct (filter _ opts) as [|o l] eqn:Hf; [discriminate|].
    assert (Hin : o ∈ opts).
    { assert (Hin : o ∈ o :: l) by left. rewrite <- Hf in Hin.
      apply list_elem_of_filter in Hin as [_ Hin]. exact Hin. }
    destruct (takes_value o).
    + intros H. injection H as <- <-. split; [exact Hvs|].
      intros o' t' H. injection H as <- _. exact Hin.
    + destruct (process o None vs) as [vs1|e] eqn:Hp; simpl; [|discriminate].
      apply IH. eapply P_process; [exact Hin|exact Hvs|exact Hp].
Qed.

(** Parsing keeps what every option keeps. *)
Lemma process_args_invariant (rargs : list string) (vs vs' : values)
    (largs args : list string) :
  P vs -> process_args opts rargs vs largs = Ok (vs', args) -> P vs'.
Proof.
  assert (Hgen : forall n rargs, length rargs < n -> forall vs largs,
             P vs -> process_args opts rargs vs largs = Ok (vs', args) -> P vs');
    [|apply (Hgen (S (length rargs))); lia].
  clear rargs vs largs.
  induction n as [|n IH]; intros rargs Hlen; [lia|].
  intros vs largs Hvs. destruct rargs as [|arg rest]; cbn [process_args].
  - intros H. injection H as <- _. exact Hvs.
  - destruct (String.eqb arg "--"); [intros H; injection H as <- _; exact Hvs|].
    destruct (startswith arg "--").
    + destruct (split_eq arg) as [name explicit].
      destruct (match_long_opt opts name) as [o|e] eqn:Hm; simpl; [|discriminate].
      apply match_long_opt_in in Hm.
      destruct (takes_value o).
      * destruct explicit as [v|].
        -- destruct (process o (Some v) vs) as [vs1|e] eqn:Hp; simpl; [|discriminate].
           apply IH; [simpl in Hlen; lia|]. eapply P_process; eauto.
        -- destruct rest as [|v rest']; [discriminate|].
           destruct (process o (Some v) vs) as [vs1|e] eqn:Hp; simpl; [|discriminate].
           apply IH; [simpl in Hlen; lia|]. eapply P_process; eauto.
      * destruct explicit as [v|]; [discriminate|].
        destruct (process o None vs) as [vs1|e] eqn:Hp; simpl; [|discriminate].
        apply IH; [simpl in Hlen; lia|]. eapply P_process; eauto.
    + destruct arg as [|a s]; [apply IH; [simpl in Hlen; lia|exact Hvs]|].
      destruct (Ascii.eqb_spec a "-") as [->|Hna].
      * destruct s as [|c t]; [apply IH; [simpl in Hlen; lia|exact Hvs]|].
        destruct (short_opts opts (String c t) vs) as [[vs1 r]|e] eqn:Hs; simpl;
          [|discriminate].
        apply short_opts_invariant in Hs as [Hvs1 Hr]; [|exact Hvs].
        destruct r as [[o [|c' t']]|].
        -- destruct rest as [|v rest']; [discriminate|].
           destruct (process o (Some v) vs1) as [vs2|e] eqn:Hp; simpl; [|discriminate].
           apply IH; [simpl in Hlen; lia|]. eapply P_process; eauto.
        -- destruct (process o _ vs1) as [vs2|e] eqn:Hp; simpl; [|discriminate].
           apply IH; [simpl in Hlen; lia|]. eapply P_process; eauto.
        -- apply IH; [simpl in Hlen; lia|exact Hvs1].
      * destruct a as [[] [] [] [] [] [] [] []];
          try (exfalso; apply Hna; reflexivity);
          (apply IH; [simpl in Hlen; lia|exact Hvs]).
Qed.

End ParsedOptions.

Section HandleOptions.
Import Options.

Lemma process_well_typed (o : opt) (v : option string) (vs vs' : values) :
  o ∈ create_parser -> well_typed vs -> process o v vs = Ok vs' -> well_typed vs'.
Proof.
  unfold well_typed, values in *. intros Ho [(t & Ht & Hit) (q & Hq)].
  unfold create_parser, option_list, base_option_list, parser_option_list in Ho.
  simpl in Ho.
  repeat (apply elem_of_cons in Ho as [->|Ho]);
    try (apply elem_of_nil in Ho; contradiction);
    unfold process, set_dest; cbn [act dest]; unfold values; destruct v as [x|]; try discriminate;
    try (destruct (bool_decide _) eqn:Hx; [|discriminate]);
    intros H; injection H as <-;
    (split;
     [ first [ exists t; split; [exact Ht|rewrite lookup_insert_ne by discriminate; exact Hit]
             | exists x; split; [apply bool_decide_eq_true in Hx; exact Hx
                                |apply lookup_insert_eq] ]
     | first [ exists q; rewrite lookup_insert_ne by discriminate; exact Hq
             | exists true; apply lookup_insert_eq ] ]).
Qed.

Lemma defaults_well_typed : well_typed (get_default_values create_parser).
Proof.
  split.
  - exists "prices". split; [|vm_compute; reflexivity].
    unfold IMPORT_TYPES. right. left.
  - exists false. vm_compute. reflexivity.
Qed.

(** X21: whatever the command line, the parsed options hold an import
    type of IMPORT_TYPES and a boolean quiet, and getattr finds the import
    method: 'Import type not implemented' cannot come from a command line. *)
Theorem parsed_import_type_is_a_choice (argv : list string) (vs : values)
    (args : list string) :
  parse_args create_parser argv = Ok (vs, args) ->
  exists t q m,
    t ∈ IMPORT_TYPES /\
    vs !! "import_type" = Some (VStr t) /\ vs !! "quiet" = Some (VBool q) /\
    getattr_import ("import_" ++ py_str (options_get vs "import_type" VNone)) = Ok m /\
    m <> import_type_attribute.
Proof.
  intros H. unfold parse_args in H.
  apply (process_args_invariant well_typed create_parser process_well_typed) in H;
    [|exact defaults_well_typed].
  destruct H as [(t & Ht & Hit) (q & Hq)]. unfold values in *.
  unfold options_get. rewrite Hit. unfold IMPORT_TYPES in Ht.
  repeat (apply elem_of_cons in Ht as [->|Ht]); try (apply elem_of_nil in Ht; contradiction).
  - exists "csv_prices", q, import_csv_prices_method.
    split; [left|]. split; [reflexivity|]. split; [exact Hq|]. split; [reflexivity|discriminate].
  - exists "prices", q, import_prices_method.
    split; [right; left|]. split; [reflexivity|]. split; [exact Hq|].
    split; [reflexivity|discriminate].
  - exists "stores", q, import_stores_method.
    split; [right; right; left|]. split; [reflexivity|]. split; [exact Hq|].
    split; [reflexivity|discriminate].
Qed.

Lemma parsed_import_type_is_a_choice_witness :
  exists t q m,
    t ∈ IMPORT_TYPES /\
    <["import_type" := VStr "csv_prices"]> (Options.get_default_values create_parser)
      !! "import_type" = Some (VStr t) /\
    <["import_type" := VStr "csv_prices"]> (Options.get_default_values create_parser)
      !! "quiet" = Some (VBool q) /\
    getattr_import
      ("import_" ++ py_str (options_get
                              (<["import_type" := VStr "csv_prices"]>
                                 (Options.get_default_values create_parser))
                              "import_type" VNone)) = Ok m /\
    m <> import_type_attribute.
Proof.
  apply (parsed_import_type_is_a_choice ["prices.csv"; "--import-type"; "csv_prices"]
           (<["import_type" := VStr "csv_prices"]> (Options.get_default_values create_parser))
           ["prices.csv"]).
  vm_compute. reflexivity.
Defined.

End HandleOptions.


Section LoopErrors.

Lemma import_product_errors (E : externals) (self : self) (today : date)
    (obj : gmap string string) (count : nat) (w w' : world) (e : exn) :
  import_product E self today obj count w = (Raise e, w') ->
  is_cell_error e = true \/ (e = KeyError /\ obj !! "code" = None).
Proof.
  unfold import_product, try_except. unfold seq at 1. unfold on_db.
  destruct (product_from_row E today obj (db w)) as [[[[[pk p]|] created]|e0] d'] eqn:Hrun.
  - unfold seq, uprint, when, write, modify, ret.
    destruct (negb (truthy (quiet self))); discriminate.
  - discriminate.
  - apply product_from_row_errors in Hrun as [_ [[-> _]|[He0 _]]].
    + destruct (obj !! "code") as [c|]; [discriminate|].
      intros H. injection H as <- _. right. split; reflexivity.
    + destruct e0; try discriminate He0; intros H; injection H as <- _; left; reflexivity.
Qed.

Lemma report_Ok (self : self) (count : nat) (w : world) :
  fst (report self count w) = Ok tt.
Proof.
  unfold report, seq, uprint, when, write, modify, ret.
  destruct (negb (truthy (quiet self))), (count <? 1)%nat; reflexivity.
Qed.

Lemma csv_rows_errors (E : externals) (self : self) (today : date)
    (csvreader : list (list string)) (count : nat) (w w' : world) (e : exn) :
  csv_rows E self today csvreader count w = (Raise e, w') -> is_cell_error e = true.
Proof.
  revert count w. induction csvreader as [|row rest IH]; intros count w; [discriminate|].
  destruct row as [|v vs]; [apply IH|].
  cbn [csv_rows length Nat.eqb]. unfold seq at 1.
  destruct (import_product E self today _ count w) as [[count'|e0] w0] eqn:Hrow.
  - apply IH.
  - intros H. injection H as <- _.
    apply import_product_errors in Hrow as [He|[_ Hcode]]; [exact He|].
    cbn [map] in Hcode. rewrite first_column_is_code in Hcode. discriminate Hcode.
Qed.

Lemma sheet_rows_errors (E : externals) (self : self) (today : date)
    (sheet : list (list cell)) (count : nat) (w w' : world) (e : exn) :
  sheet_rows E self today sheet count w = (Raise e, w') ->
  is_cell_error e = true \/ e = KeyError \/ e = UnicodeEncodeError.
Proof.
  revert count w. induction sheet as [|values rest IH]; intros count w; [discriminate|].
  cbn [sheet_rows]. unfold seq at 1. unfold lift at 1.
  destruct (str_strip_all E values) as [vs|e0] eqn:Hvs.
  - unfold seq at 1.
    destruct (import_product E self today _ count w) as [[count'|e1] w1] eqn:Hrow.
    + apply IH.
    + intros H. injection H as <- _.
      apply import_product_errors in Hrow as [He|[-> _]]; [left; exact He|right; left; reflexivity].
  - intros H. injection H as <- _. right. right.
    assert (Hgen : forall cells, str_strip_all E cells = Raise e0 -> e0 = UnicodeEncodeError).
    { induction cells as [|c cells IHc]; [discriminate|]. simpl.
      destruct c as [s|x|z]; simpl.
      - destruct (forallb _ (list_ascii_of_string s)); simpl.
        + destruct (str_strip_all E cells); simpl; [discriminate|].
          intros H. injection H as ->. apply IHc. reflexivity.
        + intros H. injection H as <-. reflexivity.
      - destruct (str_strip_all E cells); simpl; [discriminate|].
        intros H. injection H as ->. apply IHc. reflexivity.
      - destruct (str_strip_all E cells); simpl; [discriminate|].
        intros H. injection H as ->. apply IHc. reflexivity. }
    exact (Hgen values Hvs).
Qed.

(** X22: an exception that leaves a CSV import is one of TypeError,
    AttributeError, ValueError, OverflowError and UnboundLocalError: never
    MultipleObjectsReturned, IntegrityError, KeyError or IndexError. *)
Theorem csv_import_raises_only_cell_errors (E : externals) (self : self) (today : date)
    (csvreader : list (list string)) (w : world) (e : exn) :
  fst (import_csv_prices E self today csvreader w) = Raise e ->
  is_cell_error e = true.
Proof.
  unfold import_csv_prices. unfold seq at 1.
  destruct (csv_rows E self today csvreader 0 w) as [[count|e0] w0] eqn:Hrows.
  - rewrite report_Ok. discriminate.
  - intros H. injection H as <-. eapply csv_rows_errors. exact Hrows.
Qed.

Lemma csv_import_raises_only_cell_errors_witness :
  fst (import_csv_prices Sample.E Sample.loud Sample.today [Sample.rye; Sample.old]
         Sample.start) = Raise AttributeError /\
  is_cell_error AttributeError = true.
Proof.
  split; [vm_compute; reflexivity|].
  apply (csv_import_raises_only_cell_errors Sample.E Sample.loud Sample.today
           [Sample.rye; Sample.old] Sample.start AttributeError).
  vm_compute. reflexivity.
Defined.

Lemma import_prices_errors (E : externals) (self : self) (today : date)
    (sheet : list (list cell)) (w : world) (e : exn) :
  fst (import_prices E self today sheet w) = Raise e ->
  is_cell_error e = true \/ e = KeyError \/ e = UnicodeEncodeError.
Proof.
  unfold import_prices. unfold seq at 1.
  destruct (sheet_rows E self today sheet 0 w) as [[count|e0] w0] eqn:Hrows.
  - rewrite report_Ok. discriminate.
  - intros H. injection H as <-. eapply sheet_rows_errors. exact Hrows.
Qed.

(** X23: a row that raises anything but MultipleObjectsReturned ends the
    import with that exception; the tables are as they were before the row
    (earlier rows stay imported), nothing is printed for it and the rows
    after it are not read. *)
Theorem failed_row_is_rolled_back (E : externals) (self : self) (today : date)
    (v : string) (vs : list string) (rest : list (list string)) (count : nat)
    (w : world) (e : exn) :
  fst (product_from_row E today (dict_zip keys (map strip (v :: vs))) (db w)) = Raise e ->
  e <> MultipleObjectsReturned ->
  csv_rows E self today ((v :: vs) :: rest) count w = (Raise e, w).
Proof.
  intros Hrun He. cbn [csv_rows length Nat.eqb]. unfold seq at 1.
  destruct (product_from_row E today (dict_zip keys (map strip (v :: vs))) (db w))
    as [r d'] eqn:Hrow.
  cbn [fst] in Hrun. subst r.
  pose proof (product_from_row_Raise E today _ _ _ _ Hrow) as ->.
  rewrite (import_product_raised E self today _ count w e (db w) Hrow He), world_eta.
  reflexivity.
Qed.

Lemma failed_row_is_rolled_back_witness :
  csv_rows Sample.E Sample.loud Sample.today [Sample.old; Sample.rye] 0 Sample.start
  = (Raise AttributeError, Sample.start).
Proof.
  apply (failed_row_is_rolled_back Sample.E Sample.loud Sample.today "1234"
           ["A"; "Rye"; "750 ML"; "old"] [Sample.rye] 0 Sample.start AttributeError).
  - vm_compute. reflexivity.
  - discriminate.
Defined.

End LoopErrors.

Section Handle.
Import Options.

(** X24: options without a file name give the CommandError 'You must
    specify a filename!' and nothing else happens. *)
Theorem missing_filename_is_reported (E : externals) (today : date) (argv : list string)
    (vs : values) (w : world) :
  parse_args create_parser argv = Ok (vs, []) ->
  run_from_argv E today argv w
  = (Raise (CommandError "You must specify a filename!"), w).
Proof.
  intros H. unfold run_from_argv, seq, lift. rewrite H. reflexivity.
Qed.

Lemma missing_filename_is_reported_witness :
  run_from_argv Sample.E Sample.today ["--quiet"] Sample.start
  = (Raise (CommandError "You must specify a filename!"), Sample.start).
Proof.
  apply (missing_filename_is_reported Sample.E Sample.today ["--quiet"]
           (<["quiet" := VBool true]> (Options.get_default_values create_parser))
           Sample.start).
  vm_compute. reflexivity.
Defined.

(** X25: a file that cannot be opened, so that [open] and
    [xlrd.open_workbook] raise IOError for its name, gives the CommandError
    'No such file', whatever the options; no table changes, no call is made,
    and only the first line is printed, unless quiet. (A file that opens but
    is no workbook makes xlrd raise XLRDError, which [handle] does not
    catch.) *)
Theorem unreadable_file_is_reported (E : externals) (today : date) (argv : list string)
    (vs : values) (f : string) (rest : list string) (w : world) :
  parse_args create_parser argv = Ok (vs, f :: rest) ->
  csv_files E f = None -> workbooks E f = Raise (IOError f) ->
  exists t q,
    t ∈ IMPORT_TYPES /\
    vs !! "import_type" = Some (VStr t) /\ vs !! "quiet" = Some (VBool q) /\
    run_from_argv E today argv w
    = (Raise (CommandError ("No such file: '" ++ f ++ "'")),
       World (db w) (if q then out w else out w ++ [header t f])%list (trace w)).
Proof.
  intros H Hc Hw. unfold run_from_argv, seq at 1, lift. rewrite H.
  unfold parse_args in H.
  apply (process_args_invariant well_typed create_parser process_well_typed) in H;
    [|exact defaults_well_typed].
  destruct H as [(t & Ht & Hit) (q & Hq)]. unfold values in *.
  exists t, q. split; [exact Ht|]. split; [exact Hit|]. split; [exact Hq|].
  cbn [fst snd]. unfold handle, options_get. rewrite Hit, Hq.
  unfold IMPORT_TYPES in Ht.
  repeat (apply elem_of_cons in Ht as [->|Ht]); try (apply elem_of_nil in Ht; contradiction);
    destruct q; destruct w as [d o tr];
    unfold try_except, seq, lift, uprint, when, write, modify, raise; cbn;
    rewrite ?Hc, ?Hw; reflexivity.
Qed.

Lemma unreadable_file_is_reported_witness :
  exists t q,
    t ∈ IMPORT_TYPES /\
    Options.get_default_values create_parser !! "import_type" = Some (VStr t) /\
    Options.get_default_values create_parser !! "quiet" = Some (VBool q) /\
    run_from_argv Sample.E Sample.today ["nowhere.xls"] Sample.start
    = (Raise (CommandError ("No such file: '" ++ "nowhere.xls" ++ "'")),
       World (db Sample.start)
         (if q then out Sample.start
          else out Sample.start ++ [header t "nowhere.xls"])%list
         (trace Sample.start)).
Proof.
  apply (unreadable_file_is_reported Sample.E Sample.today ["nowhere.xls"]
           (Options.get_default_values create_parser) "nowhere.xls" [] Sample.start).
  - vm_compute. reflexivity.
  - reflexivity.
  - reflexivity.
Defined.

Lemma parse_one_filename (f : string) :
  startswith f "-" = false ->
  parse_args create_parser [f] = Ok (get_default_values create_parser, [f]).
Proof.
  intros Hf. unfold parse_args. cbn [process_args].
  destruct f as [|a s]; [reflexivity|].
  destruct a as [[] [] [] [] [] [] [] []]; try reflexivity. unfold startswith in Hf. cbn in Hf. destruct s; discriminate Hf.
Qed.

(** X26: a command line of one file name and no option imports the first
    sheet of the workbook as a price list, not quiet; an exception of the
    import leaves [handle] as it is, never as a CommandError. *)
Theorem plain_run_imports_a_price_workbook (E : externals) (today : date) (f : string)
    (sheet : list (list cell)) (w : world) :
  startswith f "-" = false ->
  workbooks E f = Ok sheet ->
  run_from_argv E today [f] w
  = import_prices E (Self (VBool false) (VBool true) (VStr "prices")) today sheet
      (World (db w) (out w ++ [header "prices" f])%list (trace w)).
Proof.
  intros Hf Hw. unfold run_from_argv, seq at 1, lift.
  rewrite (parse_one_filename f Hf). cbn [fst snd].
  unfold handle.
  change (options_get (get_default_values create_parser) "quiet" (VBool false))
    with (VBool false).
  change (options_get (get_default_values create_parser) "geocode" (VBool true))
    with (VBool true).
  change (options_get (get_default_values create_parser) "import_type" VNone)
    with (VStr "prices").
  set (self := Self (VBool false) (VBool true) (VStr "prices")).
  destruct w as [d o tr].
  unfold try_except, seq, lift, uprint, when, write, modify, raise. cbn.
  rewrite Hw.
  change (getattr_import ("import_" ++ "prices")) with (Ok import_prices_method).
  cbn. fold self.
  change (("Importing '" ++ "prices" ++ "' from: " ++ nl ++ tab ++ f) ++ nl)
    with (header "prices" f).
  destruct (import_prices E self today sheet _) as [[[]|e] w'] eqn:Hrun; [reflexivity|].
  assert (He : is_cell_error e = true \/ e = KeyError \/ e = UnicodeEncodeError).
  { eapply import_prices_errors. rewrite Hrun. reflexivity. }
  destruct He as [He|[->| ->]]; [|reflexivity|reflexivity].
  destruct e; try discriminate He; reflexivity.
Qed.

Lemma plain_run_imports_a_price_workbook_witness :
  run_from_argv Sample.E Sample.today ["stores.xls"] Sample.start
  = import_prices Sample.E (Self (VBool false) (VBool true) (VStr "prices")) Sample.today
      Sample.store_sheet
      (World (db Sample.start) (out Sample.start ++ [header "prices" "stores.xls"])%list
         (trace Sample.start)).
Proof.
  apply (plain_run_imports_a_price_workbook Sample.E Sample.today "stores.xls"
           Sample.store_sheet Sample.start).
  - reflexivity.
  - reflexivity.
Defined.

(** A file that opens but is no workbook: the XLRDError of xlrd is not one
    of the exceptions [handle] turns into a CommandError. *)
Example no_workbook_is_not_reported :
  run_from_argv Sample.E Sample.today ["notes.txt"] Sample.start
  = (Raise XLRDError, World Sample.empty [header "prices" "notes.txt"] []).
Proof. vm_compute. reflexivity. Qed.

End Handle.

(** ** Importing a file a second time *)
Section Rerun.

Lemma product_eq (p q : Product.t) :
  Product.code p = Product.code q -> Product.title p = Product.title q ->
  (forall a, field a p = field a q) -> p = q.
Proof.
  intros Hc Ht Hf. destruct p, q. simpl in *.
  pose proof (Hf a_status). pose proof (Hf a_size). pose proof (Hf a_bottles).
  pose proof (Hf a_proof). pose proof (Hf a_age). simpl in *. congruence.
Qed.

(** The age after [update_product] is the age [assign_age] leaves. *)
Lemma update_product_age (r : gmap string string) (c : bool) (p p' : Product.t) :
  update_product r c p = Ok p' ->
  truthy (get r "age") = true ->
  exists pm, assign_age (get r "age") pm = Ok p' /\ Product.age pm = Product.age p.
Proof.
  unfold update_product. intros H Hage. rewrite Hage in H.
  destruct (truthy (get r "per_case")).
  - destruct (float_of (get r "per_case") ≫= py_int) as [n|e]; simpl in H; [|discriminate].
    eexists. split; [exact H|].
    destruct c, (truthy (get r "status")), (truthy (get r "size")),
      (truthy (get r "proof")); reflexivity.
  - simpl in H. eexists. split; [exact H|].
    destruct c, (truthy (get r "status")), (truthy (get r "size")),
      (truthy (get r "proof")); reflexivity.
Qed.

Lemma fixes_or_keeps (r : gmap string string) (c : bool) (p p' : Product.t) (a : attr) :
  update_product r c p = Ok p' -> fixes r a \/ keeps r a.
Proof.
  intros Hup. destruct a.
  - destruct (truthy (get r "status")) eqn:Ht.
    + left. exists (get r "status"). intros c2 q q' H; cbn [field].
      apply update_product_attributes in H as (Hs & _). rewrite Ht in Hs. exact Hs.
    + right. intros c2 q q' H; cbn [field].
      apply update_product_attributes in H as (Hs & _). rewrite Ht in Hs. exact Hs.
  - destruct (truthy (get r "size")) eqn:Ht.
    + left. exists (get r "size"). intros c2 q q' H; cbn [field].
      apply update_product_attributes in H as (_ & Hs & _). rewrite Ht in Hs. exact Hs.
    + right. intros c2 q q' H; cbn [field].
      apply update_product_attributes in H as (_ & Hs & _). rewrite Ht in Hs. exact Hs.
  - destruct (truthy (get r "per_case")) eqn:Ht.
    + pose proof (update_product_attributes _ _ _ _ Hup) as (_ & _ & _ & Hb & _).
      rewrite Ht in Hb. destruct Hb as (n & Hn & _).
      left. exists (VInt n). intros c2 q q' H; cbn [field].
      apply update_product_attributes in H as (_ & _ & _ & Hs & _). rewrite Ht in Hs.
      destruct Hs as (n' & Hn' & ->). congruence.
    + right. intros c2 q q' H; cbn [field].
      apply update_product_attributes in H as (_ & _ & _ & Hs & _). rewrite Ht in Hs.
      exact Hs.
  - destruct (truthy (get r "proof")) eqn:Ht.
    + left. exists (get r "proof"). intros c2 q q' H; cbn [field].
      apply update_product_attributes in H as (_ & _ & Hs & _). rewrite Ht in Hs. exact Hs.
    + right. intros c2 q q' H; cbn [field].
      apply update_product_attributes in H as (_ & _ & Hs & _). rewrite Ht in Hs. exact Hs.
  - destruct (truthy (get r "age")) eqn:Ht.
    + destruct (update_product_age _ _ _ _ Hup Ht) as (pm & Hpm & _).
      apply assign_age_shape in Hpm as [[_ Hall]|(v & _ & Hall)].
      * right. intros c2 q q' H; cbn [field].
        destruct (update_product_age _ _ _ _ H Ht) as (qm & Hqm & Hq).
        rewrite Hall in Hqm. injection Hqm as <-. exact Hq.
      * left. exists v. intros c2 q q' H; cbn [field].
        destruct (update_product_age _ _ _ _ H Ht) as (qm & Hqm & Hq).
        rewrite Hall in Hqm. injection Hqm as <-. reflexivity.
    + right. intros c2 q q' H; cbn [field].
      apply update_product_attributes in H as (_ & _ & _ & _ & Hs). apply Hs. exact Ht.
Qed.

(** What a code selects depends on the codes of the table only. *)
Lemma select_keys_codes (c : value) (t t' : list Product.t) (k : nat) :
  map Product.code t = map Product.code t' ->
  map fst (select c k t) = map fst (select c k t').
Proof.
  revert t' k. induction t as [|p t IH]; intros [|p' t'] k H; simpl in *;
    try discriminate H; [reflexivity|].
  injection H as Hc Ht. rewrite Hc.
  destruct (decide (Product.code p' = c)); simpl; [f_equal|]; apply IH; exact Ht.
Qed.

Lemma select_complete (c : value) (t : list Product.t) (k j : nat) (q : Product.t) :
  t !! j = Some q -> Product.code q = c -> (k + j, q) ∈ select c k t.
Proof.
  revert k j. induction t as [|p t IH]; intros k j Hl Hc; [discriminate Hl|].
  destruct j as [|j]; simpl in *.
  - injection Hl as ->. rewrite decide_True by exact Hc. rewrite Nat.add_0_r. left.
  - replace (k + S j) with (S k + j) by lia.
    destruct (decide (Product.code p = c)); [right|]; apply IH; assumption.
Qed.

Lemma select_single_key (c : value) (t : list Product.t) (pk pk' : nat)
    (q0 q : Product.t) :
  select c 0 t = [(pk, q0)] -> t !! pk' = Some q -> Product.code q = c ->
  pk' = pk /\ q = q0.
Proof.
  intros Hsel Hl Hc. pose proof (select_complete c t 0 pk' q Hl Hc) as Hin.
  rewrite Hsel in Hin. apply list_elem_of_singleton in Hin. simpl in Hin.
  injection Hin as -> ->. auto.
Qed.

Lemma select_extend (c : value) (t t' : list Product.t) (new : list value) :
  map Product.code t' = (map Product.code t ++ new)%list ->
  exists rest, map fst (select c 0 t') = (map fst (select c 0 t) ++ rest)%list /\
               (c ∉ new -> rest = []).
Proof.
  intros H.
  assert (Htake : map Product.code (take (length t) t') = map Product.code t).
  { rewrite <- firstn_map. rewrite H. rewrite take_app_length'; [reflexivity|]. rewrite length_map. reflexivity. }
  assert (Hdrop : map Product.code (drop (length t) t') = new).
  { rewrite <- skipn_map. rewrite H. rewrite drop_app_length'; [reflexivity|]. rewrite length_map. reflexivity. }
  exists (map fst (select c (0 + length (take (length t) t')) (drop (length t) t'))). split.
  - replace (select c 0 t') with (select c 0 (take (length t) t' ++ drop (length t) t'))
      by (rewrite take_drop; reflexivity).
    rewrite select_app, map_app. f_equal. apply select_keys_codes. exact Htake.
  - intros Hc. rewrite select_not_in; [reflexivity|]. rewrite Hdrop. exact Hc.
Qed.

Lemma select_keys_single (c : value) (t : list Product.t) (pk : nat) :
  map fst (select c 0 t) = [pk] -> exists q, select c 0 t = [(pk, q)] /\ t !! pk = Some q.
Proof.
  intros H. destruct (select c 0 t) as [|[j q] [|x l]] eqn:Hsel; try discriminate H.
  simpl in H. injection H as ->. exists q. split; [reflexivity|].
  assert (Hin : (pk, q) ∈ select c 0 t) by (rewrite Hsel; left).
  apply select_lookup in Hin as (_ & Hl & _). rewrite Nat.sub_0_r in Hl. exact Hl.
Qed.

Lemma map_insert_same {A B} (f : A -> B) (t : list A) (pk : nat) (p0 p : A) :
  t !! pk = Some p0 -> f p = f p0 -> map f (<[pk := p]> t) = map f t.
Proof.
  intros Hl Hc. change (map f) with (fmap (M := list) f).
  rewrite list_fmap_insert, Hc. apply list_insert_id.
  rewrite list_lookup_fmap, Hl. reflexivity.
Qed.

Lemma get_or_create_created (E : externals) (c : value) (d d0 : database) (pk : nat)
    (p0 : Product.t) :
  get_or_create E c d = (Ok ((pk, p0), true), d0) -> p0 = Product.set_code c (defaults E).
Proof.
  unfold get_or_create.
  destruct (select c 0 (products d)) as [|[j q] [|x rest]]; intros H; try discriminate H.
  injection H as _ <- _. reflexivity.
Qed.

(** One row that returns a product, in full. *)
Lemma step_Ok (E : externals) (today : date) (r : gmap string string) (d d' : database)
    (pk : nat) (p1 : Product.t) (created : bool) :
  product_from_row E today r d = (Ok (Some (pk, p1), created), d') ->
  is_code_valid E (get r "code") = true /\
  select (get r "code") 0 (products d') = [(pk, p1)] /\
  stores d' = stores d /\
  (forall q, q ∈ prices d -> q ∈ prices d') /\
  exists p0 dt amt,
    update_product r created p0 = Ok p1 /\
    price_date today r = Ok dt /\
    price_amount (get r "price") = Ok amt /\
    (exists q, q ∈ prices d' /\ ProductPrice.product q = pk
               /\ ProductPrice.effective_date q = dt) /\
    ((created = true /\ select (get r "code") 0 (products d) = [] /\
      pk = length (products d) /\ p0 = Product.set_code (get r "code") (defaults E) /\
      products d' = (products d ++ [p1])%list) \/
     (created = false /\ select (get r "code") 0 (products d) = [(pk, p0)] /\
      products d !! pk = Some p0 /\
      products d' = <[pk := p1]> (products d))).
Proof.
  intros Hrun.
  pose proof (product_from_row_leaves _ _ _ _ _ _ _ _ Hrun)
    as (Hvalid & Hsel & _ & dt & amt & q & Hdt & Hamt & Hq).
  pose proof (product_from_row_tables _ _ _ _ _ _ Hrun) as Htab.
  split; [exact Hvalid|]. split; [exact Hsel|].
  apply product_from_row_Ok in Hrun as [(_ & Hr & _)|(_ & Hex)]; [discriminate Hr|].
  destruct Hex as (pk' & p0 & p' & c' & d0 & dt' & Hr & Hget & Hup & Hdt' & Hcr).
  injection Hr as <- <- <-.
  assert (dt' = dt) by congruence. subst dt'.
  pose proof (create_price_products _ _ _ _ _ _ Hcr) as Hprods. simpl in Hprods.
  pose proof (create_price_Ok _ _ _ _ _ Hcr) as (amt' & Hamt' & Hpr).
  assert (Hst : stores d' = stores d0 /\ (forall x, x ∈ prices d0 -> x ∈ prices d')).
  { destruct Hpr as [[_ ->]|[_ ->]]; simpl; split; auto.
    intros x Hx. apply elem_of_app. left. exact Hx. }
  destruct Hst as [Hst Hsub].
  pose proof (get_or_create_Ok _ _ _ _ _ _ _ Hget) as [Hc0 Hcase].
  assert (Hd0 : stores d0 = stores d /\ prices d0 = prices d).
  { destruct Hcase as [(_ & _ & _ & ->)|(_ & _ & ->)]; auto. }
  destruct Hd0 as [Hst0 Hpr0].
  split; [congruence|]. split; [rewrite <- Hpr0; exact Hsub|].
  exists p0, dt, amt. split; [exact Hup|]. split; [exact Hdt|]. split; [exact Hamt|].
  split; [exists q; exact Hq|].
  destruct Hcase as [(-> & Hs & -> & ->)|(-> & Hs & ->)].
  - left. split; [reflexivity|]. split; [exact Hs|]. split; [reflexivity|].
    split; [eapply get_or_create_created; exact Hget|].
    rewrite Hprods. simpl. rewrite insert_app_r_alt, Nat.sub_diag by lia. reflexivity.
  - right. split; [reflexivity|]. split; [exact Hs|]. split; [|exact Hprods].
    assert (Hin : (pk, p0) ∈ select (get r "code") 0 (products d)) by (rewrite Hs; left).
    apply select_lookup in Hin as (_ & Hl & _). rewrite Nat.sub_0_r in Hl. exact Hl.
Qed.

(** The three ways a row of a run that goes on can end. *)
Lemma db_rows_cons (E : externals) (today : date) (r : gmap string string)
    (rows : list (gmap string string)) (d dn : database) :
  db_rows E today (r :: rows) d = Some dn ->
  exists res d',
    product_from_row E today r d = (res, d') /\ db_rows E today rows d' = Some dn /\
    ((d' = d /\ is_code_valid E (get r "code") = false /\ res = Ok (None, false)) \/
     (d' = d /\ is_code_valid E (get r "code") = true /\
      2 <= length (select (get r "code") 0 (products d)) /\
      res = Raise MultipleObjectsReturned) \/
     (exists pk p1 created, res = Ok (Some (pk, p1), created))).
Proof.
  cbn [db_rows].
  destruct (product_from_row E today r d) as [res d'] eqn:Hrun.
  intros H. exists res, d'. split; [reflexivity|].
  destruct res as [[[[pk p1]|] created]|e].
  - split; [exact H|]. right. right. eauto.
  - split; [exact H|]. left.
    apply product_from_row_Ok in Hrun as [(Hv & Hr & ->)|(_ & Hex)].
    + injection Hr as ->. auto.
    + destruct Hex as (? & ? & ? & ? & ? & ? & Hr & _). discriminate Hr.
  - pose proof (product_from_row_Raise _ _ _ _ _ _ Hrun) as ->.
    apply product_from_row_errors in Hrun as [Hv [[-> Hlen]|[He _]]].
    + split; [exact H|]. right. left. auto.
    + destruct e; try discriminate He; discriminate H.
Qed.

(** What any row leaves in place. *)
Lemma step_frame (E : externals) (today : date) (r : gmap string string) (d d' : database)
    (res : res (option instance * bool)) :
  product_from_row E today r d = (res, d') ->
  stores d' = stores d /\ (forall q, q ∈ prices d -> q ∈ prices d') /\
  exists tn, map Product.title (products d')
             = (map Product.title (products d) ++ tn)%list.
Proof.
  intros Hrun.
  assert (Hsame : d' = d -> stores d' = stores d /\ (forall q, q ∈ prices d -> q ∈ prices d') /\
            exists tn, map Product.title (products d')
                       = (map Product.title (products d) ++ tn)%list).
  { intros ->. split; [reflexivity|]. split; [auto|]. exists []. rewrite app_nil_r.
    reflexivity. }
  destruct res as [[[[pk p1]|] created]|e].
  - apply step_Ok in Hrun as (_ & _ & Hst & Hpr & p0 & dt & amt & Hup & _ & _ & _ & Hcase).
    split; [exact Hst|]. split; [exact Hpr|].
    apply update_product_keeps in Hup as [_ Ht].
    destruct Hcase as [(_ & _ & _ & _ & ->)|(-> & _ & Hl & ->)].
    + exists [Product.title p1]. rewrite map_app. reflexivity.
    + exists []. rewrite app_nil_r. eapply map_insert_same; [exact Hl|exact Ht].
  - apply Hsame. apply product_from_row_Ok in Hrun as [(_ & _ & ->)|(_ & Hex)]; [reflexivity|].
    destruct Hex as (? & ? & ? & ? & ? & ? & Hr & _). discriminate Hr.
  - apply Hsame. eapply product_from_row_Raise. exact Hrun.
Qed.

(** What a run of rows leaves in place: the codes and titles of the
    products that were there, the prices, the stores; the codes it adds are
    new and differ from each other. *)
Lemma db_rows_frame (E : externals) (today : date) (rows : list (gmap string string))
    (d dn : database) :
  db_rows E today rows d = Some dn ->
  stores dn = stores d /\ (forall q, q ∈ prices d -> q ∈ prices dn) /\
  (exists tn, map Product.title (products dn)
              = (map Product.title (products d) ++ tn)%list) /\
  exists new, codes dn = (codes d ++ new)%list /\ NoDup new /\
              forall c, c ∈ new -> c ∉ codes d.
Proof.
  revert d. induction rows as [|r rows IH]; intros d H.
  - injection H as <-. split; [reflexivity|]. split; [auto|].
    split; [exists []; rewrite app_nil_r; reflexivity|].
    exists []. rewrite app_nil_r. split; [reflexivity|]. split; [constructor|].
    intros c Hc. apply elem_of_nil in Hc. contradiction.
  - apply db_rows_cons in H as (res & d' & Hrun & Hrest & _).
    apply IH in Hrest as (Hst & Hpr & (tn & Htn) & new & Hnew & Hnd & Hfresh).
    pose proof (step_frame _ _ _ _ _ _ Hrun) as (Hst1 & Hpr1 & tn1 & Htn1).
    split; [congruence|]. split; [auto|].
    split; [exists (tn1 ++ tn)%list; rewrite Htn, Htn1, app_assoc; reflexivity|].
    apply product_from_row_codes in Hrun as [Hc|[Hc1 Hc]]; rewrite Hc in Hnew, Hfresh.
    + exists new. auto.
    + exists (get r "code" :: new). split; [rewrite Hnew, <- app_assoc; reflexivity|].
      split.
      * apply NoDup_cons. split; [|exact Hnd].
        intros Hin. apply (Hfresh _ Hin). apply elem_of_app. right. left.
      * intros c Hin. apply elem_of_cons in Hin as [->|Hin]; [exact Hc1|].
        intros Hd. apply (Hfresh _ Hin). apply elem_of_app. left. exact Hd.
Qed.

Lemma base_other (E : externals) (d d' : database) (pk pk' : nat) (p1 : Product.t) :
  pk' <> pk ->
  (pk = length (products d) /\ products d' = (products d ++ [p1])%list) \/
  products d' = <[pk := p1]> (products d) ->
  base E d' pk' = base E d pk'.
Proof.
  unfold base. intros Hne [[-> ->]| ->].
  - destruct (decide (pk' < length (products d))) as [Hlt|Hge].
    + rewrite lookup_app_l by exact Hlt. reflexivity.
    + rewrite !lookup_ge_None_2; [reflexivity|lia|rewrite length_app; simpl; lia].
  - rewrite list_lookup_insert_ne by congruence. reflexivity.
Qed.

Lemma select_length_extend (c : value) (t t' : list Product.t) (new : list value) :
  map Product.code t' = (map Product.code t ++ new)%list ->
  length (select c 0 t) <= length (select c 0 t') /\
  (c ∉ new -> length (select c 0 t') = length (select c 0 t)).
Proof.
  intros H. destruct (select_extend c t t' new H) as (rest & Hk & Hrest).
  apply (f_equal length) in Hk. rewrite length_app, !length_map in Hk.
  unfold instance in *. split; [lia|]. intros Hc. rewrite (Hrest Hc) in Hk. simpl in Hk. lia.
Qed.

Lemma code_at (t t' : list Product.t) (new : list value) (pk : nat) (p q : Product.t) :
  map Product.code t' = (map Product.code t ++ new)%list ->
  t !! pk = Some p -> t' !! pk = Some q -> Product.code q = Product.code p.
Proof.
  intros H Hp Hq. apply (f_equal (fun l => l !! pk)) in H.
  change (map Product.code t') with (Product.code <$> t') in H.
  change (map Product.code t) with (Product.code <$> t) in H.
  rewrite list_lookup_fmap, Hq in H.
  rewrite lookup_app_l in H by (rewrite length_fmap; eapply lookup_lt_Some; exact Hp).
  rewrite list_lookup_fmap, Hp in H. simpl in H. congruence.
Qed.

(** The codes a step leaves: those before, and the row's code if it is new. *)
Lemma step_codes (E : externals) (today : date) (r : gmap string string) (d d' : database)
    (res : res (option instance * bool)) :
  product_from_row E today r d = (res, d') ->
  exists new, map Product.code (products d') = (map Product.code (products d) ++ new)%list /\
              forall c, c ∈ new -> c = get r "code".
Proof.
  intros Hrun. apply product_from_row_codes in Hrun as [Hc|[_ Hc]]; unfold codes in Hc.
  - exists []. rewrite app_nil_r. split; [exact Hc|].
    intros c Hin. apply elem_of_nil in Hin. contradiction.
  - exists [get r "code"]. split; [exact Hc|].
    intros c Hin. apply list_elem_of_singleton in Hin. exact Hin.
Qed.

Lemma field_set_code (a : attr) (c : value) (p : Product.t) :
  field a (Product.set_code c p) = field a p.
Proof. destruct a; reflexivity. Qed.

(** An attribute after a run is the attribute before it, unless a row for
    the product's code gave it its value. *)
Lemma db_rows_fields (E : externals) (today : date) (rows : list (gmap string string))
    (d dn : database) (pk : nat) (q : Product.t) (a : attr) :
  db_rows E today rows d = Some dn -> products dn !! pk = Some q ->
  field a q = field a (base E d pk) \/
  (length (select (Product.code q) 0 (products d)) <= 1 /\
   pending E rows (Product.code q) a).
Proof.
  revert d. induction rows as [|r rows IH]; intros d H Hq.
  - injection H as <-. left. unfold base. rewrite Hq. reflexivity.
  - apply db_rows_cons in H as (res & d' & Hrun & Hrest & Hcase).
    destruct (IH d' Hrest Hq) as [Hleft|[Hlen (r' & Hin & Hv & Hc & Hfix)]].
    + destruct Hcase as [(-> & _)|[(-> & _)|(pk0 & p1 & created & ->)]];
        [left; exact Hleft|left; exact Hleft|].
      pose proof (step_Ok _ _ _ _ _ _ _ _ Hrun)
        as (Hvalid & Hsel & _ & _ & p0 & dt & amt & Hup & _ & _ & _ & Hcase).
      assert (Hp1 : products d' !! pk0 = Some p1 /\ Product.code p1 = get r "code").
      { assert (Hin : (pk0, p1) ∈ select (get r "code") 0 (products d'))
          by (rewrite Hsel; left).
        apply select_lookup in Hin as (_ & Hl & Hc). rewrite Nat.sub_0_r in Hl. auto. }
      destruct Hp1 as [Hp1 Hc1].
      destruct (decide (pk = pk0)) as [->|Hne].
      * assert (Hb : base E d' pk0 = p1) by (unfold base; rewrite Hp1; reflexivity).
        rewrite Hb in Hleft.
        destruct (fixes_or_keeps _ _ _ _ a Hup) as [Hfix|Hkeep].
        -- right.
           apply db_rows_frame in Hrest as (_ & _ & _ & new & Hnew & _).
           pose proof (code_at _ _ _ _ _ _ Hnew Hp1 Hq) as Hcq.
           split.
           ++ rewrite Hcq, Hc1.
              destruct Hcase as [(_ & -> & _)|(_ & -> & _)]; simpl; lia.
           ++ exists r. split; [left|]. split; [exact Hvalid|]. split; [congruence|exact Hfix].
        -- left. rewrite Hleft, (Hkeep _ _ _ Hup).
           destruct Hcase as [(_ & _ & -> & -> & _)|(_ & _ & Hl & _)]; unfold base.
           ++ rewrite lookup_ge_None_2 by lia. simpl. apply field_set_code.
           ++ rewrite Hl. reflexivity.
      * left. rewrite Hleft. f_equal. apply (base_other E d d' pk0 pk p1 Hne).
        destruct Hcase as [(_ & _ & Hpk & _ & Hd')|(_ & _ & _ & Hd')]; auto.
    + right. split.
      * destruct (step_codes _ _ _ _ _ _ Hrun) as (new & Hnew & _).
        pose proof (select_length_extend (Product.code q) _ _ _ Hnew) as [Hle _]. lia.
      * exists r'. split; [right; exact Hin|]. auto.
Qed.

Lemma invalid_row (E : externals) (today : date) (r : gmap string string) (e : database) :
  is_code_valid E (get r "code") = false ->
  product_from_row E today r e = (Ok (None, false), e).
Proof.
  intros Hv. unfold product_from_row, commit_on_success. rewrite Hv. reflexivity.
Qed.

Lemma shared_code_row (E : externals) (today : date) (r : gmap string string)
    (e : database) :
  is_code_valid E (get r "code") = true ->
  2 <= length (select (get r "code") 0 (products e)) ->
  product_from_row E today r e = (Raise MultipleObjectsReturned, e).
Proof.
  intros Hv Hlen. unfold product_from_row, commit_on_success. rewrite Hv.
  unfold seq at 1. unfold get_or_create.
  destruct (select (get r "code") 0 (products e)) as [|x [|y l]]; simpl in Hlen; try lia.
  reflexivity.
Qed.

Lemma pending_tail (E : externals) (r : gmap string string)
    (rows : list (gmap string string)) (c : value) (a : attr) :
  pending E (r :: rows) c a ->
  (is_code_valid E (get r "code") = true /\ get r "code" = c /\ fixes r a) \/
  pending E rows c a.
Proof.
  intros (r' & Hin & Hv & Hc & Hfix). apply elem_of_cons in Hin as [->|Hin].
  - left. auto.
  - right. exists r'. auto.
Qed.

(** The second run: from tables that are [ahead], the rows end in the same
    tables as the first run. *)
Lemma rerun_ahead (E : externals) (today : date) (rows : list (gmap string string))
    (d dn e : database) :
  db_rows E today rows d = Some dn -> ahead E rows d dn e ->
  db_rows E today rows e = Some dn.
Proof.
  revert d e. induction rows as [|r rows IH]; intros d e H (Hpr & Hst & Hcodes & Htitles & Hf).
  - injection H as <-. simpl. f_equal.
    destruct e as [ps prs sts], d as [ps' prs' sts']. simpl in *. subst. f_equal.
    apply list_eq. intros i.
    assert (Hlen : length ps = length ps').
    { apply (f_equal length) in Hcodes. rewrite !length_map in Hcodes. exact Hcodes. }
    destruct (ps !! i) as [q|] eqn:Hq.
    + destruct (lookup_lt_is_Some_2 ps' i) as [q' Hq'];
        [rewrite <- Hlen; eapply lookup_lt_Some; exact Hq|].
      rewrite Hq'. f_equal. apply product_eq.
      * apply (code_at ps' ps [] i q' q); [rewrite app_nil_r; exact Hcodes|exact Hq'|exact Hq].
      * apply (f_equal (fun l => l !! i)) in Htitles.
        change (map Product.title ps) with (Product.title <$> ps) in Htitles.
        change (map Product.title ps') with (Product.title <$> ps') in Htitles.
        rewrite !list_lookup_fmap, Hq, Hq' in Htitles. simpl in Htitles. congruence.
      * intros a. destruct (Hf i q a Hq) as [Hl|[_ (r' & Hin & _)]].
        -- rewrite Hl. unfold base. simpl. rewrite Hq'. reflexivity.
        -- apply elem_of_nil in Hin. contradiction.
    + symmetry. apply lookup_ge_None_2. rewrite <- Hlen. apply lookup_ge_None_1. exact Hq.
  - apply db_rows_cons in H as (res & d' & Hrun & Hrest & Hcase).
    pose proof (db_rows_frame _ _ _ _ _ Hrest) as (_ & Hprices & _ & new & Hnew & _ & Hfresh).
    unfold codes in Hnew, Hfresh. rewrite <- Hcodes in Hnew.
    cbn [db_rows].
    destruct Hcase as [(-> & Hv & _)|[(-> & Hv & Hlen & _)|(pk & p1 & created & ->)]].
    + rewrite (invalid_row E today r e Hv). apply (IH d e Hrest).
      split; [exact Hpr|]. split; [exact Hst|]. split; [congruence|]. split; [exact Htitles|].
      intros pk q a Hq. destruct (Hf pk q a Hq) as [Hl|[Hle Hp]]; [left; exact Hl|].
      apply pending_tail in Hp as [(Hv' & _)|Hp]; [congruence|]. right. auto.
    + pose proof (select_length_extend (get r "code") _ _ _ Hnew) as [Hle _].
      rewrite (shared_code_row E today r e Hv) by lia. apply (IH d e Hrest).
      split; [exact Hpr|]. split; [exact Hst|]. split; [congruence|]. split; [exact Htitles|].
      intros pk q a Hq. destruct (Hf pk q a Hq) as [Hl|[Hle1 Hp]]; [left; exact Hl|].
      apply pending_tail in Hp as [(_ & Hc & _)|Hp]; [rewrite <- Hc in Hle1; lia|].
      right. auto.
    + pose proof (step_Ok _ _ _ _ _ _ _ _ Hrun)
        as (Hvalid & Hsel & _ & Hsub & p0 & dt & amt & Hup & Hdt & Hamt & (x & Hx & Hxp & Hxd)
            & Hcase).
      assert (Hp1 : products d' !! pk = Some p1 /\ Product.code p1 = get r "code").
      { assert (Hin : (pk, p1) ∈ select (get r "code") 0 (products d'))
          by (rewrite Hsel; left).
        apply select_lookup in Hin as (_ & Hl & Hc). rewrite Nat.sub_0_r in Hl. auto. }
      destruct Hp1 as [Hp1 Hc1].
      (* the product is there in the second run *)
      assert (Hq0 : exists q0, select (get r "code") 0 (products e) = [(pk, q0)]
                               /\ products e !! pk = Some q0).
      { apply select_keys_single.
        destruct (select_extend (get r "code") _ _ _ Hnew) as (rest & Hk & Hrest0).
        rewrite Hk, Hsel, Hrest0; [reflexivity|].
        intros Hin. apply (Hfresh _ Hin). rewrite <- Hc1.
        apply list_elem_of_fmap. exists p1. split; [reflexivity|].
        eapply list_elem_of_lookup_2. exact Hp1. }
      destruct Hq0 as (q0 & Hsel_e & He).
      assert (Hcq0 : Product.code q0 = get r "code").
      { assert (Hin : (pk, q0) ∈ select (get r "code") 0 (products e))
          by (rewrite Hsel_e; left).
        apply select_lookup in Hin as (_ & _ & Hc). exact Hc. }
      destruct (update_product_total r created false p0 p1 q0 Hup) as (q1 & Hup2).
      pose proof (update_product_keeps _ _ _ _ Hup2) as [Hcq1 Htq1].
      rewrite (existing_price_is_passed_over E today r e pk q0 q1 dt amt Hvalid Hsel_e Hup2
                 Hdt Hamt).
      2:{ exists x. split; [rewrite Hpr; apply Hprices; exact Hx|]. auto. }
      apply (IH d' _ Hrest).
      split; [exact Hpr|]. split; [exact Hst|]. cbn [products set_products].
      split; [rewrite (map_insert_same Product.code _ pk q0 q1 He Hcq1); exact Hcodes|].
      split; [rewrite (map_insert_same Product.title _ pk q0 q1 He Htq1); exact Htitles|].
      destruct (step_codes _ _ _ _ _ _ Hrun) as (new1 & Hnew1 & Hnew1c).
      intros pk' q a Hq.
      destruct (decide (pk' = pk)) as [->|Hne].
      * rewrite list_lookup_insert_eq in Hq by (eapply lookup_lt_Some; exact He).
        injection Hq as <-.
        assert (Hb : base E d' pk = p1) by (unfold base; rewrite Hp1; reflexivity).
        assert (Hfixed : fixes r a -> field a q1 = field a (base E d' pk)).
        { intros (v & Hv). rewrite Hb, (Hv _ _ _ Hup), (Hv _ _ _ Hup2). reflexivity. }
        destruct (fixes_or_keeps _ _ _ _ a Hup) as [Hfix|Hkeep]; [left; auto|].
        destruct (Hf pk q0 a He) as [Hl|[Hle Hp]].
        -- left. rewrite Hb, (Hkeep _ _ _ Hup2), (Hkeep _ _ _ Hup), Hl.
           destruct Hcase as [(_ & _ & -> & -> & _)|(_ & _ & Hl0 & _)]; unfold base.
           ++ rewrite lookup_ge_None_2 by lia. simpl. symmetry. apply field_set_code.
           ++ rewrite Hl0. reflexivity.
        -- apply pending_tail in Hp as [(_ & _ & Hfix)|Hp]; [left; auto|].
           right. rewrite Hcq1. split; [|exact Hp].
           rewrite Hcq0, Hsel. simpl. lia.
      * rewrite list_lookup_insert_ne in Hq by congruence.
        destruct (Hf pk' q a Hq) as [Hl|[Hle Hp]].
        -- left. rewrite Hl. f_equal. symmetry. apply (base_other E d d' pk pk' p1 Hne).
           destruct Hcase as [(_ & _ & Hpk & _ & Hd')|(_ & _ & _ & Hd')]; auto.
        -- assert (Hcq : Product.code q <> get r "code").
           { intros Hc. destruct (select_single_key _ _ _ _ _ _ Hsel_e Hq Hc). congruence. }
           apply pending_tail in Hp as [(_ & Hc & _)|Hp]; [congruence|].
           right. split; [|exact Hp].
           pose proof (select_length_extend (Product.code q) _ _ _ Hnew1) as [_ Heq].
           rewrite Heq; [exact Hle|].
           intros Hin. apply Hnew1c in Hin. contradiction.
Qed.

(** The row loop of [import_csv_prices] and its tables. *)
Lemma csv_rows_db_rows (E : externals) (self : self) (today : date)
    (csvreader : list (list string)) (count : nat) (w : world) :
  match db_rows E today (objs csvreader) (db w) with
  | Some dn => exists n w', csv_rows E self today csvreader count w = (Ok n, w') /\ db w' = dn
  | None => exists e w', csv_rows E self today csvreader count w = (Raise e, w')
  end.
Proof.
  revert count w. induction csvreader as [|row rest IH]; intros count w.
  - simpl. exists count, w. split; reflexivity.
  - destruct row as [|v vs].
    + cbn [csv_rows length Nat.eqb]. apply IH.
    + change (objs ((v :: vs) :: rest))
        with (dict_zip keys (map strip (v :: vs)) :: objs rest).
      cbn [csv_rows length Nat.eqb db_rows]. unfold seq at 1. unfold seq at 1.
      destruct (product_from_row E today (dict_zip keys (map strip (v :: vs))) (db w))
        as [res d'] eqn:Hrun.
      destruct res as [[[[pk p]|] created]|e].
      * rewrite (import_product_counted E self today _ count w pk p created d' Hrun).
        match goal with |- context [csv_rows E self today rest ?c ?w0] => exact (IH c w0) end.
      * rewrite (import_product_skipped E self today _ count w created d' Hrun).
        match goal with |- context [csv_rows E self today rest ?c ?w0] => exact (IH c w0) end.
      * destruct (decide (e = MultipleObjectsReturned)) as [->|He].
        -- rewrite (import_product_reported E self today _ count w (strip v) d' Hrun
                      (first_column_is_code (strip v) (map strip vs))).
           match goal with |- context [csv_rows E self today rest ?c ?w0] => exact (IH c w0) end.
        -- rewrite (import_product_raised E self today _ count w e d' Hrun He).
           destruct e; try (eexists; eexists; reflexivity). contradiction.
Qed.

Lemma report_db (self : self) (count : nat) (w : world) :
  db (snd (report self count w)) = db w.
Proof.
  unfold report, seq, uprint, when, write, modify, ret.
  destruct (negb (truthy (quiet self))), (count <? 1)%nat; reflexivity.
Qed.

(** X28: a CSV import that returned can be run again on the same file and
    the same day: the second run returns too and leaves every table as the
    first run left it. *)
Theorem second_run_changes_nothing (E : externals) (s1 s2 : self) (today : date)
    (csvreader : list (list string)) (w w1 : world) :
  import_csv_prices E s1 today csvreader w = (Ok tt, w1) ->
  exists w2, import_csv_prices E s2 today csvreader w1 = (Ok tt, w2) /\ db w2 = db w1.
Proof.
  unfold import_csv_prices. unfold seq at 1.
  pose proof (csv_rows_db_rows E s1 today csvreader 0 w) as Hfirst.
  destruct (csv_rows E s1 today csvreader 0 w) as [[n|e] w0] eqn:Hrows; [|discriminate].
  intros Hrep.
  assert (Hw1 : db w1 = db w0).
  { pose proof (report_db s1 n w0) as Hdb. rewrite Hrep in Hdb. exact Hdb. }
  destruct (db_rows E today (objs csvreader) (db w)) as [dn|] eqn:Hdb.
  2:{ destruct Hfirst as (e & w' & H). discriminate H. }
  destruct Hfirst as (n' & w' & H & Hdn). injection H as <- <-.
  assert (Hahead : ahead E (objs csvreader) (db w) dn dn).
  { split; [reflexivity|]. split; [reflexivity|]. split; [reflexivity|].
    split; [reflexivity|]. intros pk q a Hq. eapply db_rows_fields; eassumption. }
  pose proof (rerun_ahead E today _ _ _ _ Hdb Hahead) as Hsecond.
  pose proof (csv_rows_db_rows E s2 today csvreader 0 w1) as Hrun2.
  rewrite Hw1, Hdn, Hsecond in Hrun2. destruct Hrun2 as (n2 & w2 & Hrows2 & Hdb2).
  unfold seq. rewrite Hrows2.
  pose proof (report_Ok s2 n2 w2) as Hok. pose proof (report_db s2 n2 w2) as Hdb3.
  destruct (report s2 n2 w2) as [[[]|e] w3]; simpl in *; [|discriminate Hok].
  exists w3. split; [reflexivity|]. congruence.
Qed.

Lemma second_run_changes_nothing_witness :
  exists w2,
    import_csv_prices Sample.E Sample.hushed Sample.today [Sample.rye; Sample.blank]
      (snd (import_csv_prices Sample.E Sample.loud Sample.today [Sample.rye; Sample.blank]
              Sample.start))
    = (Ok tt, w2) /\
    db w2 = db (snd (import_csv_prices Sample.E Sample.loud Sample.today
                       [Sample.rye; Sample.blank] Sample.start)).
Proof.
  apply (second_run_changes_nothing Sample.E Sample.loud Sample.hushed Sample.today
           [Sample.rye; Sample.blank] Sample.start
           (snd (import_csv_prices Sample.E Sample.loud Sample.today
                   [Sample.rye; Sample.blank] Sample.start))).
  vm_compute. reflexivity.
Defined.

End Rerun.

(** ** What an import leaves in place *)
Section Grows.

Lemma grows_refl (d : database) : grows d d.
Proof.
  split; [reflexivity|]. repeat split; exists []; rewrite app_nil_r; reflexivity.
Qed.

Lemma grows_trans (d1 d2 d3 : database) : grows d1 d2 -> grows d2 d3 -> grows d1 d3.
Proof.
  intros (Hs1 & (p1 & Hp1) & (c1 & Hc1) & (t1 & Ht1))
         (Hs2 & (p2 & Hp2) & (c2 & Hc2) & (t2 & Ht2)).
  split; [congruence|]. split; [|split].
  - exists (p1 ++ p2)%list. rewrite Hp2, Hp1, app_assoc. reflexivity.
  - exists (c1 ++ c2)%list. rewrite Hc2, Hc1, app_assoc. reflexivity.
  - exists (t1 ++ t2)%list. rewrite Ht2, Ht1, app_assoc. reflexivity.
Qed.

Lemma step_grows (E : externals) (today : date) (r : gmap string string) (d : database) :
  grows d (snd (product_from_row E today r d)).
Proof.
  destruct (product_from_row E today r d) as [res d'] eqn:Hrun. simpl.
  pose proof (step_frame _ _ _ _ _ _ Hrun) as (Hst & _ & Htn).
  pose proof (step_codes _ _ _ _ _ _ Hrun) as (cn & Hcn & _).
  split; [exact Hst|]. split; [|split; [exists cn; exact Hcn|exact Htn]].
  apply product_from_row_tables in Hrun as [->|Hex].
  - exists []. rewrite app_nil_r. reflexivity.
  - destruct Hex as (pk & p & created & dt & _ & _ & _ & _ & _ & [->|(amt & _ & _ & ->)]).
    + exists []. rewrite app_nil_r. reflexivity.
    + eexists. reflexivity.
Qed.

Lemma import_product_db (E : externals) (self : self) (today : date)
    (obj : gmap string string) (count : nat) (w : world) :
  db (snd (import_product E self today obj count w))
  = snd (product_from_row E today obj (db w)).
Proof.
  unfold import_product, try_except, seq, on_db.
  destruct (product_from_row E today obj (db w)) as [[[[[pk p]|] created]|e] d']; simpl.
  - unfold uprint, when, write, modify, ret.
    destruct (negb (truthy (quiet self))); reflexivity.
  - reflexivity.
  - destruct e; try reflexivity. destruct (obj !! "code"); reflexivity.
Qed.

Lemma csv_rows_grows (E : externals) (self : self) (today : date)
    (csvreader : list (list string)) (count : nat) (w : world) :
  grows (db w) (db (snd (csv_rows E self today csvreader count w))).
Proof.
  revert count w. induction csvreader as [|row rest IH]; intros count w.
  - apply grows_refl.
  - cbn [csv_rows]. destruct (length row =? 0)%nat; [apply IH|].
    unfold seq.
    pose proof (import_product_db E self today (dict_zip keys (map strip row)) count w) as Hdb.
    pose proof (step_grows E today (dict_zip keys (map strip row)) (db w)) as Hg.
    rewrite <- Hdb in Hg.
    destruct (import_product E self today _ count w) as [[c|e] w']; simpl in Hg.
    + eapply grows_trans; [exact Hg|apply IH].
    + exact Hg.
Qed.

(** X29: whether a CSV import returns or raises, it leaves the stores
    alone, keeps every price that was there in its place, and keeps every
    product that was there under its key, with its code and its title. *)
Theorem import_keeps_what_was_there (E : externals) (self : self) (today : date)
    (csvreader : list (list string)) (w : world) :
  let d := db w in
  let d' := db (snd (import_csv_prices E self today csvreader w)) in
  stores d' = stores d /\
  prices d `prefix_of` prices d' /\
  forall pk p, products d !! pk = Some p ->
               exists p', products d' !! pk = Some p' /\
                          Product.code p' = Product.code p /\
                          Product.title p' = Product.title p.
Proof.
  cbv zeta.
  assert (Hg : grows (db w) (db (snd (import_csv_prices E self today csvreader w)))).
  { unfold import_csv_prices, seq.
    pose proof (csv_rows_grows E self today csvreader 0 w) as Hg.
    destruct (csv_rows E self today csvreader 0 w) as [[n|e] w']; simpl in Hg; [|exact Hg].
    rewrite report_db. exact Hg. }
  destruct Hg as (Hst & (pn & Hpn) & (cn & Hcn) & (tn & Htn)).
  split; [exact Hst|]. split; [exists pn; exact Hpn|].
  intros pk p Hp.
  destruct (lookup_lt_is_Some_2
              (products (db (snd (import_csv_prices E self today csvreader w)))) pk)
    as [p' Hp'].
  { apply (f_equal length) in Hcn. rewrite length_app, !length_map in Hcn.
    apply lookup_lt_Some in Hp. lia. }
  exists p'. split; [exact Hp'|]. split.
  - eapply code_at; eassumption.
  - apply (f_equal (fun l => l !! pk)) in Htn.
    change (map Product.title) with (fmap (M := list) Product.title) in Htn.
    rewrite list_lookup_fmap, Hp' in Htn.
    rewrite lookup_app_l in Htn by (rewrite length_fmap; eapply lookup_lt_Some; exact Hp).
    rewrite list_lookup_fmap, Hp in Htn. simpl in Htn. congruence.
Qed.

End Grows.

(** ** The lines of a price import *)
Section Count.

Lemma product_from_row_NoDup (E : externals) (today : date) (row : gmap string string)
    (d d' : database) (r : res (option instance * bool)) :
  NoDup (codes d) -> product_from_row E today row d = (r, d') ->
  NoDup (codes d') /\ r <> Raise MultipleObjectsReturned.
Proof.
  intros Hnd Hrun. split.
  - apply product_from_row_codes in Hrun as [->|[Hnew ->]]; [exact Hnd|].
    apply NoDup_app. split; [exact Hnd|]. split.
    + intros c Hc Hin. apply list_elem_of_singleton in Hin as ->. contradiction.
    + apply NoDup_singleton.
  - intros ->. apply product_from_row_errors in Hrun as [_ [[_ Hlen]|[He _]]].
    + pose proof (select_unique (get row "code") (products d) 0 Hnd). lia.
    + discriminate He.
Qed.

(** With unique codes, the product under a key is what its code selects. *)
Lemma select_NoDup (t : list Product.t) (pk : nat) (p : Product.t) :
  NoDup (map Product.code t) -> t !! pk = Some p ->
  select (Product.code p) 0 t = [(pk, p)].
Proof.
  intros Hnd Hp.
  pose proof (select_complete (Product.code p) t 0 pk p Hp eq_refl) as Hin.
  pose proof (select_unique (Product.code p) t 0 Hnd) as Hlen.
  destruct (select (Product.code p) 0 t) as [|x [|y l]]; simpl in Hlen.
  - apply elem_of_nil in Hin. contradiction.
  - apply list_elem_of_singleton in Hin. subst x. reflexivity.
  - lia.
Qed.

Lemma grows_lookup (d d' : database) (pk : nat) (p : Product.t) :
  grows d d' -> products d !! pk = Some p ->
  exists p', products d' !! pk = Some p' /\ Product.code p' = Product.code p /\
             Product.title p' = Product.title p.
Proof.
  intros (_ & _ & (cn & Hcn) & (tn & Htn)) Hp.
  destruct (lookup_lt_is_Some_2 (products d') pk) as [p' Hp'].
  { apply (f_equal length) in Hcn. rewrite length_app, !length_map in Hcn.
    apply lookup_lt_Some in Hp. lia. }
  exists p'. split; [exact Hp'|]. split.
  - eapply code_at; eassumption.
  - apply (f_equal (fun l => l !! pk)) in Htn.
    change (map Product.title) with (fmap (M := list) Product.title) in Htn.
    rewrite list_lookup_fmap, Hp' in Htn.
    rewrite lookup_app_l in Htn by (rewrite length_fmap; eapply lookup_lt_Some; exact Hp).
    rewrite list_lookup_fmap, Hp in Htn. simpl in Htn. congruence.
Qed.

(** The rows of a run that returns: the count, and the lines, with the
    titles as the tables have them in the end. *)
Lemma csv_rows_lines (E : externals) (self : self) (today : date)
    (csvreader : list (list string)) (count n : nat) (w w' : world) :
  truthy (quiet self) = false ->
  NoDup (codes (db w)) ->
  csv_rows E self today csvreader count w = (Ok n, w') ->
  n = count + length (valid_rows E csvreader) /\
  NoDup (codes (db w')) /\
  out w' = (out w ++ map (product_line (db w')) (valid_rows E csvreader))%list.
Proof.
  intros Hq. revert count w. induction csvreader as [|row rest IH]; intros count w Hnd.
  - intros H. injection H as <- <-. simpl. split; [lia|]. split; [exact Hnd|].
    rewrite app_nil_r. reflexivity.
  - destruct row as [|v vs].
    + cbn [csv_rows length Nat.eqb valid_rows List.filter negb andb]. apply IH. exact Hnd.
    + cbn [csv_rows length Nat.eqb valid_rows List.filter negb andb]. unfold seq at 1.
      destruct (product_from_row E today (dict_zip keys (map strip (v :: vs))) (db w))
        as [r d'] eqn:Hrun.
      destruct (product_from_row_NoDup E today _ _ _ _ Hnd Hrun) as [Hnd' Hr].
      destruct r as [[[[pk p]|] created]|e].
      * rewrite (import_product_counted E self today _ count w pk p created d' Hrun), Hq.
        pose proof (product_from_row_leaves _ _ _ _ _ _ _ _ Hrun) as (Hv & Hsel & _).
        rewrite Hv. fold (valid_rows E rest). intros H.
        pose proof (csv_rows_grows E self today rest (S count)
                      (World d' (out w ++ [(("[" ++ py_str (Product.code p) ++ "]: "
                                               ++ py_str (Product.title p)) ++ nl)%string])%list
                             (trace w))) as Hg.
        rewrite H in Hg. cbn [snd db] in Hg.
        apply IH in H as [-> (Hnd2 & Hout)]; [|exact Hnd'].
        cbn [length]. split; [lia|]. split; [exact Hnd2|].
        rewrite Hout. cbn [out map]. rewrite <- app_assoc. cbn [app].
        f_equal. f_equal.
        assert (Hin : (pk, p) ∈ select (get (dict_zip keys (map strip (v :: vs))) "code") 0
                                  (products d')) by (rewrite Hsel; left).
        apply select_lookup in Hin as (_ & Hl & Hc). rewrite Nat.sub_0_r in Hl.
        destruct (grows_lookup _ _ _ _ Hg Hl) as (p' & Hp' & Hc' & Ht').
        unfold product_line, title_of. cbv zeta.
        rewrite <- Hc, <- Hc', (select_NoDup _ _ _ Hnd2 Hp'), Ht'. reflexivity.
      * rewrite (import_product_skipped E self today _ count w created d' Hrun).
        apply product_from_row_Ok in Hrun as [(Hv & _ & ->)|(_ & Hex)].
        -- rewrite Hv. intros H. apply IH in H; [|exact Hnd]. exact H.
        -- destruct Hex as (? & ? & ? & ? & ? & ? & Hr' & _). discriminate Hr'.
      * assert (He : e <> MultipleObjectsReturned) by congruence.
        rewrite (import_product_raised E self today _ count w e d' Hrun He). discriminate.
Qed.

(** X27: with unique codes in the table and quiet off, a CSV import that
    returns has printed exactly: for each non-empty row with a valid code, in
    order, the line '[code]: title' with the row's code and the title stored
    for it; then the summary with the number of those rows (and the hint, if
    there is none). *)
Theorem count_is_the_number_of_valid_rows (E : externals) (self : self) (today : date)
    (csvreader : list (list string)) (w w' : world) :
  truthy (quiet self) = false ->
  NoDup (codes (db w)) ->
  import_csv_prices E self today csvreader w = (Ok tt, w') ->
  out w' = (out w ++ map (product_line (db w')) (valid_rows E csvreader)
              ++ summary (length (valid_rows E csvreader)))%list.
Proof.
  intros Hq Hnd. unfold import_csv_prices. unfold seq at 1.
  destruct (csv_rows E self today csvreader 0 w) as [[n|e] w1] eqn:Hrows; [|discriminate].
  apply csv_rows_lines in Hrows as [-> (_ & Hout)]; [|exact Hq|exact Hnd].
  simpl. intros H.
  unfold report, seq, uprint, when, write, modify, ret in H. rewrite Hq in H. simpl in H.
  unfold summary.
  destruct (length (valid_rows E csvreader) <? 1)%nat; simpl in H;
    injection H as <-; simpl; rewrite Hout, <- !app_assoc; reflexivity.
Qed.

Lemma count_is_the_number_of_valid_rows_witness :
  out (snd (import_csv_prices Sample.E Sample.loud Sample.today
              [["Item Code"; "Status"]; Sample.rye; []; Sample.blank] Sample.start))
  = (out Sample.start
       ++ map (product_line
                 (db (snd (import_csv_prices Sample.E Sample.loud Sample.today
                             [["Item Code"; "Status"]; Sample.rye; []; Sample.blank]
                             Sample.start))))
              (valid_rows Sample.E [["Item Code"; "Status"]; Sample.rye; []; Sample.blank])
       ++ summary (length (valid_rows Sample.E
                             [["Item Code"; "Status"]; Sample.rye; []; Sample.blank])))%list.
Proof.
  apply (count_is_the_number_of_valid_rows Sample.E Sample.loud Sample.today
           [["Item Code"; "Status"]; Sample.rye; []; Sample.blank] Sample.start
           (snd (import_csv_prices Sample.E Sample.loud Sample.today
                   [["Item Code"; "Status"]; Sample.rye; []; Sample.blank] Sample.start))).
  - reflexivity.
  - constructor.
  - vm_compute. reflexivity.
Defined.

(** The lines of the sample: the row of [rye], the row [blank] for the same
    product under the title of [rye], the summary. *)
Example lines_of_two_rows :
  out (snd (import_csv_prices Sample.E Sample.loud Sample.today
              [["Item Code"; "Status"]; Sample.rye; []; Sample.blank] Sample.start))
  = ["[1234]: Rye" ++ nl; "[1234]: Rye" ++ nl;
     nl ++ "Imported '2' new product records and/or prices!" ++ nl].
Proof. vm_compute. reflexivity. Qed.

End Count.
